(** * The flow agent's configuration and the operator's API copies

    A shallow embedding of two files of the repository:

    - [pkg/agent/config.go] of the vendored eBPF agent: the [Config] struct
      with the defaults of its [envDefault] tags, and
      [manageDeprecatedConfigs], which folds the deprecated aliases into the
      primary target host and port;
    - [api/v1alpha1/zz_generated.deepcopy.go]: the generated [DeepCopyInto],
      [DeepCopy] and [DeepCopyObject] functions of the API types.

    The pipeline stages that read the configuration (deduplicator, accounting
    cache, exporter) are not part of these two files; where a statement needs
    them they are modelled from the specification and marked as such. *)

From Stdlib Require Import ZArith Lia.
From stdpp Require Import base option list strings gmap.

Local Open Scope Z_scope.

(** ** Package [agent]: config.go *)

Module agent.

(** Go's [time.Duration] is a count of nanoseconds in an [int64]. *)
Definition Duration : Type := Z.
Definition Second : Duration := 1000000000.

(** [type Config struct].  Go's [int] and [time.Duration] fields are read
    as integers, [uint16] as an integer too, [[]string] as a list of strings.
    [manageDeprecatedConfigs] compares and assigns these fields and does no
    arithmetic on them, so what holds of it for every integer holds for the
    64-bit ones.  The fields stand in the order of the source. *)
Record Config : Type := mkConfig {
  AgentIP : string;
  AgentIPIface : string;
  AgentIPType : string;
  Export : string;
  TargetHost : string;
  TargetPort : Z;
  GRPCMessageMaxFlows : Z;
  Interfaces : list string;
  ExcludeInterfaces : list string;
  BuffersLength : Z;
  InterfaceIPs : list string;
  ExporterBufferLength : Z;
  CacheMaxFlows : Z;
  CacheActiveTimeout : Z;
  Deduper : string;
  DeduperFCExpiry : Z;
  DeduperJustMark : bool;
  DeduperMerge : bool;
  Direction : string;
  LogLevel : string;
  Sampling : Z;
  ListenInterfaces : string;
  ListenPollPeriod : Z;
  KafkaBrokers : list string;
  KafkaTopic : string;
  KafkaBatchMessages : Z;
  KafkaBatchSize : Z;
  KafkaAsync : bool;
  KafkaCompression : string;
  KafkaEnableTLS : bool;
  KafkaTLSInsecureSkipVerify : bool;
  KafkaTLSCACertPath : string;
  KafkaTLSUserCertPath : string;
  KafkaTLSUserKeyPath : string;
  KafkaEnableSASL : bool;
  KafkaSASLType : string;
  KafkaSASLClientIDPath : string;
  KafkaSASLClientSecretPath : string;
  ProfilePort : Z;
  FLPConfig : string;
  EnableRTT : bool;
  ForceGC : bool;
  EnablePktDrops : bool;
  EnableDNSTracking : bool;
  DNSTrackingPort : Z;
  StaleEntriesEvictTimeout : Z;
  EnablePCA : bool;
  MetricsEnable : bool;
  MetricsServerAddress : string;
  MetricsPort : Z;
  MetricsTLSCertPath : string;
  MetricsTLSKeyPath : string;
  MetricsPrefix : string;
  EnableFlowFilter : bool;
  FlowFilterRules : string;
  EnableNetworkEventsMonitoring : bool;
  NetworkEventsMonitoringGroupID : Z;
  EnablePktTranslationTracking : bool;
  EbpfProgramManagerMode : bool;
  BpfManBpfFSPath : string;
  FlowsTargetHost : string;
  FlowsTargetPort : Z;
  PCAServerPort : Z
}.

(** The value of every field after the environment is parsed with no variable
    set: the [envDefault] tag where the field has one, Go's zero value
    otherwise. *)
Definition envDefaults : Config := {|
  AgentIP := "";
  AgentIPIface := "external";
  AgentIPType := "any";
  Export := "grpc";
  TargetHost := "";
  TargetPort := 0;
  GRPCMessageMaxFlows := 10000;
  Interfaces := [];
  ExcludeInterfaces := ["lo"];
  BuffersLength := 50;
  InterfaceIPs := [];
  ExporterBufferLength := 0;
  CacheMaxFlows := 5000;
  CacheActiveTimeout := (5 * Second);
  Deduper := "none";
  DeduperFCExpiry := 0;
  DeduperJustMark := false;
  DeduperMerge := true;
  Direction := "both";
  LogLevel := "info";
  Sampling := 0;
  ListenInterfaces := "watch";
  ListenPollPeriod := (10 * Second);
  KafkaBrokers := [];
  KafkaTopic := "network-flows";
  KafkaBatchMessages := 1000;
  KafkaBatchSize := 1048576;
  KafkaAsync := true;
  KafkaCompression := "none";
  KafkaEnableTLS := false;
  KafkaTLSInsecureSkipVerify := false;
  KafkaTLSCACertPath := "";
  KafkaTLSUserCertPath := "";
  KafkaTLSUserKeyPath := "";
  KafkaEnableSASL := false;
  KafkaSASLType := "plain";
  KafkaSASLClientIDPath := "";
  KafkaSASLClientSecretPath := "";
  ProfilePort := 0;
  FLPConfig := "";
  EnableRTT := false;
  ForceGC := true;
  EnablePktDrops := false;
  EnableDNSTracking := false;
  DNSTrackingPort := 53;
  StaleEntriesEvictTimeout := (5 * Second);
  EnablePCA := false;
  MetricsEnable := false;
  MetricsServerAddress := "";
  MetricsPort := 9090;
  MetricsTLSCertPath := "";
  MetricsTLSKeyPath := "";
  MetricsPrefix := "ebpf_agent_";
  EnableFlowFilter := false;
  FlowFilterRules := "";
  EnableNetworkEventsMonitoring := false;
  NetworkEventsMonitoringGroupID := 10;
  EnablePktTranslationTracking := false;
  EbpfProgramManagerMode := false;
  BpfManBpfFSPath := "/run/netobserv/maps";
  FlowsTargetHost := "";
  FlowsTargetPort := 0;
  PCAServerPort := 0
|}.

(** [cfg.TargetHost = v]: an assignment to one field of the struct. *)
Definition set_TargetHost (v : string) (cfg : Config) : Config := {|
  AgentIP := AgentIP cfg;
  AgentIPIface := AgentIPIface cfg;
  AgentIPType := AgentIPType cfg;
  Export := Export cfg;
  TargetHost := v;
  TargetPort := TargetPort cfg;
  GRPCMessageMaxFlows := GRPCMessageMaxFlows cfg;
  Interfaces := Interfaces cfg;
  ExcludeInterfaces := ExcludeInterfaces cfg;
  BuffersLength := BuffersLength cfg;
  InterfaceIPs := InterfaceIPs cfg;
  ExporterBufferLength := ExporterBufferLength cfg;
  CacheMaxFlows := CacheMaxFlows cfg;
  CacheActiveTimeout := CacheActiveTimeout cfg;
  Deduper := Deduper cfg;
  DeduperFCExpiry := DeduperFCExpiry cfg;
  DeduperJustMark := DeduperJustMark cfg;
  DeduperMerge := DeduperMerge cfg;
  Direction := Direction cfg;
  LogLevel := LogLevel cfg;
  Sampling := Sampling cfg;
  ListenInterfaces := ListenInterfaces cfg;
  ListenPollPeriod := ListenPollPeriod cfg;
  KafkaBrokers := KafkaBrokers cfg;
  KafkaTopic := KafkaTopic cfg;
  KafkaBatchMessages := KafkaBatchMessages cfg;
  KafkaBatchSize := KafkaBatchSize cfg;
  KafkaAsync := KafkaAsync cfg;
  KafkaCompression := KafkaCompression cfg;
  KafkaEnableTLS := KafkaEnableTLS cfg;
  KafkaTLSInsecureSkipVerify := KafkaTLSInsecureSkipVerify cfg;
  KafkaTLSCACertPath := KafkaTLSCACertPath cfg;
  KafkaTLSUserCertPath := KafkaTLSUserCertPath cfg;
  KafkaTLSUserKeyPath := KafkaTLSUserKeyPath cfg;
  KafkaEnableSASL := KafkaEnableSASL cfg;
  KafkaSASLType := KafkaSASLType cfg;
  KafkaSASLClientIDPath := KafkaSASLClientIDPath cfg;
  KafkaSASLClientSecretPath := KafkaSASLClientSecretPath cfg;
  ProfilePort := ProfilePort cfg;
  FLPConfig := FLPConfig cfg;
  EnableRTT := EnableRTT cfg;
  ForceGC := ForceGC cfg;
  EnablePktDrops := EnablePktDrops cfg;
  EnableDNSTracking := EnableDNSTracking cfg;
  DNSTrackingPort := DNSTrackingPort cfg;
  StaleEntriesEvictTimeout := StaleEntriesEvictTimeout cfg;
  EnablePCA := EnablePCA cfg;
  MetricsEnable := MetricsEnable cfg;
  MetricsServerAddress := MetricsServerAddress cfg;
  MetricsPort := MetricsPort cfg;
  MetricsTLSCertPath := MetricsTLSCertPath cfg;
  MetricsTLSKeyPath := MetricsTLSKeyPath cfg;
  MetricsPrefix := MetricsPrefix cfg;
  EnableFlowFilter := EnableFlowFilter cfg;
  FlowFilterRules := FlowFilterRules cfg;
  EnableNetworkEventsMonitoring := EnableNetworkEventsMonitoring cfg;
  NetworkEventsMonitoringGroupID := NetworkEventsMonitoringGroupID cfg;
  EnablePktTranslationTracking := EnablePktTranslationTracking cfg;
  EbpfProgramManagerMode := EbpfProgramManagerMode cfg;
  BpfManBpfFSPath := BpfManBpfFSPath cfg;
  FlowsTargetHost := FlowsTargetHost cfg;
  FlowsTargetPort := FlowsTargetPort cfg;
  PCAServerPort := PCAServerPort cfg
|}.

(** [cfg.TargetPort = v]. *)
Definition set_TargetPort (v : Z) (cfg : Config) : Config := {|
  AgentIP := AgentIP cfg;
  AgentIPIface := AgentIPIface cfg;
  AgentIPType := AgentIPType cfg;
  Export := Export cfg;
  TargetHost := TargetHost cfg;
  TargetPort := v;
  GRPCMessageMaxFlows := GRPCMessageMaxFlows cfg;
  Interfaces := Interfaces cfg;
  ExcludeInterfaces := ExcludeInterfaces cfg;
  BuffersLength := BuffersLength cfg;
  InterfaceIPs := InterfaceIPs cfg;
  ExporterBufferLength := ExporterBufferLength cfg;
  CacheMaxFlows := CacheMaxFlows cfg;
  CacheActiveTimeout := CacheActiveTimeout cfg;
  Deduper := Deduper cfg;
  DeduperFCExpiry := DeduperFCExpiry cfg;
  DeduperJustMark := DeduperJustMark cfg;
  DeduperMerge := DeduperMerge cfg;
  Direction := Direction cfg;
  LogLevel := LogLevel cfg;
  Sampling := Sampling cfg;
  ListenInterfaces := ListenInterfaces cfg;
  ListenPollPeriod := ListenPollPeriod cfg;
  KafkaBrokers := KafkaBrokers cfg;
  KafkaTopic := KafkaTopic cfg;
  KafkaBatchMessages := KafkaBatchMessages cfg;
  KafkaBatchSize := KafkaBatchSize cfg;
  KafkaAsync := KafkaAsync cfg;
  KafkaCompression := KafkaCompression cfg;
  KafkaEnableTLS := KafkaEnableTLS cfg;
  KafkaTLSInsecureSkipVerify := KafkaTLSInsecureSkipVerify cfg;
  KafkaTLSCACertPath := KafkaTLSCACertPath cfg;
  KafkaTLSUserCertPath := KafkaTLSUserCertPath cfg;
  KafkaTLSUserKeyPath := KafkaTLSUserKeyPath cfg;
  KafkaEnableSASL := KafkaEnableSASL cfg;
  KafkaSASLType := KafkaSASLType cfg;
  KafkaSASLClientIDPath := KafkaSASLClientIDPath cfg;
  KafkaSASLClientSecretPath := KafkaSASLClientSecretPath cfg;
  ProfilePort := ProfilePort cfg;
  FLPConfig := FLPConfig cfg;
  EnableRTT := EnableRTT cfg;
  ForceGC := ForceGC cfg;
  EnablePktDrops := EnablePktDrops cfg;
  EnableDNSTracking := EnableDNSTracking cfg;
  DNSTrackingPort := DNSTrackingPort cfg;
  StaleEntriesEvictTimeout := StaleEntriesEvictTimeout cfg;
  EnablePCA := EnablePCA cfg;
  MetricsEnable := MetricsEnable cfg;
  MetricsServerAddress := MetricsServerAddress cfg;
  MetricsPort := MetricsPort cfg;
  MetricsTLSCertPath := MetricsTLSCertPath cfg;
  MetricsTLSKeyPath := MetricsTLSKeyPath cfg;
  MetricsPrefix := MetricsPrefix cfg;
  EnableFlowFilter := EnableFlowFilter cfg;
  FlowFilterRules := FlowFilterRules cfg;
  EnableNetworkEventsMonitoring := EnableNetworkEventsMonitoring cfg;
  NetworkEventsMonitoringGroupID := NetworkEventsMonitoringGroupID cfg;
  EnablePktTranslationTracking := EnablePktTranslationTracking cfg;
  EbpfProgramManagerMode := EbpfProgramManagerMode cfg;
  BpfManBpfFSPath := BpfManBpfFSPath cfg;
  FlowsTargetHost := FlowsTargetHost cfg;
  FlowsTargetPort := FlowsTargetPort cfg;
  PCAServerPort := PCAServerPort cfg
|}.

(** The two configurations agree on every field but [TargetHost] and
    [TargetPort]: all 61 of them, the three deprecated ones at the end. *)
Definition same_outside_target (a b : Config) : Prop :=
  AgentIP a = AgentIP b /\
  AgentIPIface a = AgentIPIface b /\
  AgentIPType a = AgentIPType b /\
  Export a = Export b /\
  GRPCMessageMaxFlows a = GRPCMessageMaxFlows b /\
  Interfaces a = Interfaces b /\
  ExcludeInterfaces a = ExcludeInterfaces b /\
  BuffersLength a = BuffersLength b /\
  InterfaceIPs a = InterfaceIPs b /\
  ExporterBufferLength a = ExporterBufferLength b /\
  CacheMaxFlows a = CacheMaxFlows b /\
  CacheActiveTimeout a = CacheActiveTimeout b /\
  Deduper a = Deduper b /\
  DeduperFCExpiry a = DeduperFCExpiry b /\
  DeduperJustMark a = DeduperJustMark b /\
  DeduperMerge a = DeduperMerge b /\
  Direction a = Direction b /\
  LogLevel a = LogLevel b /\
  Sampling a = Sampling b /\
  ListenInterfaces a = ListenInterfaces b /\
  ListenPollPeriod a = ListenPollPeriod b /\
  KafkaBrokers a = KafkaBrokers b /\
  KafkaTopic a = KafkaTopic b /\
  KafkaBatchMessages a = KafkaBatchMessages b /\
  KafkaBatchSize a = KafkaBatchSize b /\
  KafkaAsync a = KafkaAsync b /\
  KafkaCompression a = KafkaCompression b /\
  KafkaEnableTLS a = KafkaEnableTLS b /\
  KafkaTLSInsecureSkipVerify a = KafkaTLSInsecureSkipVerify b /\
  KafkaTLSCACertPath a = KafkaTLSCACertPath b /\
  KafkaTLSUserCertPath a = KafkaTLSUserCertPath b /\
  KafkaTLSUserKeyPath a = KafkaTLSUserKeyPath b /\
  KafkaEnableSASL a = KafkaEnableSASL b /\
  KafkaSASLType a = KafkaSASLType b /\
  KafkaSASLClientIDPath a = KafkaSASLClientIDPath b /\
  KafkaSASLClientSecretPath a = KafkaSASLClientSecretPath b /\
  ProfilePort a = ProfilePort b /\
  FLPConfig a = FLPConfig b /\
  EnableRTT a = EnableRTT b /\
  ForceGC a = ForceGC b /\
  EnablePktDrops a = EnablePktDrops b /\
  EnableDNSTracking a = EnableDNSTracking b /\
  DNSTrackingPort a = DNSTrackingPort b /\
  StaleEntriesEvictTimeout a = StaleEntriesEvictTimeout b /\
  EnablePCA a = EnablePCA b /\
  MetricsEnable a = MetricsEnable b /\
  MetricsServerAddress a = MetricsServerAddress b /\
  MetricsPort a = MetricsPort b /\
  MetricsTLSCertPath a = MetricsTLSCertPath b /\
  MetricsTLSKeyPath a = MetricsTLSKeyPath b /\
  MetricsPrefix a = MetricsPrefix b /\
  EnableFlowFilter a = EnableFlowFilter b /\
  FlowFilterRules a = FlowFilterRules b /\
  EnableNetworkEventsMonitoring a = EnableNetworkEventsMonitoring b /\
  NetworkEventsMonitoringGroupID a = NetworkEventsMonitoringGroupID b /\
  EnablePktTranslationTracking a = EnablePktTranslationTracking b /\
  EbpfProgramManagerMode a = EbpfProgramManagerMode b /\
  BpfManBpfFSPath a = BpfManBpfFSPath b /\
  FlowsTargetHost a = FlowsTargetHost b /\
  FlowsTargetPort a = FlowsTargetPort b /\
  PCAServerPort a = PCAServerPort b.

(** The configuration parsed from an environment that sets at most the five
    variables [TARGET_HOST], [TARGET_PORT], [FLOWS_TARGET_HOST],
    [FLOWS_TARGET_PORT] and [PCA_SERVER_PORT] (an unset one is passed as the
    zero value); every other field has its default. *)
Definition parsed_env (target_host : string) (target_port : Z)
    (flows_target_host : string) (flows_target_port pca_server_port : Z) : Config := {|
  AgentIP := AgentIP envDefaults;
  AgentIPIface := AgentIPIface envDefaults;
  AgentIPType := AgentIPType envDefaults;
  Export := Export envDefaults;
  TargetHost := target_host;
  TargetPort := target_port;
  GRPCMessageMaxFlows := GRPCMessageMaxFlows envDefaults;
  Interfaces := Interfaces envDefaults;
  ExcludeInterfaces := ExcludeInterfaces envDefaults;
  BuffersLength := BuffersLength envDefaults;
  InterfaceIPs := InterfaceIPs envDefaults;
  ExporterBufferLength := ExporterBufferLength envDefaults;
  CacheMaxFlows := CacheMaxFlows envDefaults;
  CacheActiveTimeout := CacheActiveTimeout envDefaults;
  Deduper := Deduper envDefaults;
  DeduperFCExpiry := DeduperFCExpiry envDefaults;
  DeduperJustMark := DeduperJustMark envDefaults;
  DeduperMerge := DeduperMerge envDefaults;
  Direction := Direction envDefaults;
  LogLevel := LogLevel envDefaults;
  Sampling := Sampling envDefaults;
  ListenInterfaces := ListenInterfaces envDefaults;
  ListenPollPeriod := ListenPollPeriod envDefaults;
  KafkaBrokers := KafkaBrokers envDefaults;
  KafkaTopic := KafkaTopic envDefaults;
  KafkaBatchMessages := KafkaBatchMessages envDefaults;
  KafkaBatchSize := KafkaBatchSize envDefaults;
  KafkaAsync := KafkaAsync envDefaults;
  KafkaCompression := KafkaCompression envDefaults;
  KafkaEnableTLS := KafkaEnableTLS envDefaults;
  KafkaTLSInsecureSkipVerify := KafkaTLSInsecureSkipVerify envDefaults;
  KafkaTLSCACertPath := KafkaTLSCACertPath envDefaults;
  KafkaTLSUserCertPath := KafkaTLSUserCertPath envDefaults;
  KafkaTLSUserKeyPath := KafkaTLSUserKeyPath envDefaults;
  KafkaEnableSASL := KafkaEnableSASL envDefaults;
  KafkaSASLType := KafkaSASLType envDefaults;
  KafkaSASLClientIDPath := KafkaSASLClientIDPath envDefaults;
  KafkaSASLClientSecretPath := KafkaSASLClientSecretPath envDefaults;
  ProfilePort := ProfilePort envDefaults;
  FLPConfig := FLPConfig envDefaults;
  EnableRTT := EnableRTT envDefaults;
  ForceGC := ForceGC envDefaults;
  EnablePktDrops := EnablePktDrops envDefaults;
  EnableDNSTracking := EnableDNSTracking envDefaults;
  DNSTrackingPort := DNSTrackingPort envDefaults;
  StaleEntriesEvictTimeout := StaleEntriesEvictTimeout envDefaults;
  EnablePCA := EnablePCA envDefaults;
  MetricsEnable := MetricsEnable envDefaults;
  MetricsServerAddress := MetricsServerAddress envDefaults;
  MetricsPort := MetricsPort envDefaults;
  MetricsTLSCertPath := MetricsTLSCertPath envDefaults;
  MetricsTLSKeyPath := MetricsTLSKeyPath envDefaults;
  MetricsPrefix := MetricsPrefix envDefaults;
  EnableFlowFilter := EnableFlowFilter envDefaults;
  FlowFilterRules := FlowFilterRules envDefaults;
  EnableNetworkEventsMonitoring := EnableNetworkEventsMonitoring envDefaults;
  NetworkEventsMonitoringGroupID := NetworkEventsMonitoringGroupID envDefaults;
  EnablePktTranslationTracking := EnablePktTranslationTracking envDefaults;
  EbpfProgramManagerMode := EbpfProgramManagerMode envDefaults;
  BpfManBpfFSPath := BpfManBpfFSPath envDefaults;
  FlowsTargetHost := flows_target_host;
  FlowsTargetPort := flows_target_port;
  PCAServerPort := pca_server_port
|}.

(** The configuration parsed from an environment that sets the six variables
    [GRPC_MESSAGE_MAX_FLOWS], [BUFFERS_LENGTH], [EXPORTER_BUFFER_LENGTH],
    [CACHE_MAX_FLOWS], [CACHE_ACTIVE_TIMEOUT] and [DEDUPER_FC_EXPIRY]; every
    other field has its default. *)
Definition parsed_limits (grpc_message_max_flows buffers_length
    exporter_buffer_length cache_max_flows : Z)
    (cache_active_timeout deduper_fc_expiry : Duration) : Config := {|
  AgentIP := AgentIP envDefaults;
  AgentIPIface := AgentIPIface envDefaults;
  AgentIPType := AgentIPType envDefaults;
  Export := Export envDefaults;
  TargetHost := TargetHost envDefaults;
  TargetPort := TargetPort envDefaults;
  GRPCMessageMaxFlows := grpc_message_max_flows;
  Interfaces := Interfaces envDefaults;
  ExcludeInterfaces := ExcludeInterfaces envDefaults;
  BuffersLength := buffers_length;
  InterfaceIPs := InterfaceIPs envDefaults;
  ExporterBufferLength := exporter_buffer_length;
  CacheMaxFlows := cache_max_flows;
  CacheActiveTimeout := cache_active_timeout;
  Deduper := Deduper envDefaults;
  DeduperFCExpiry := deduper_fc_expiry;
  DeduperJustMark := DeduperJustMark envDefaults;
  DeduperMerge := DeduperMerge envDefaults;
  Direction := Direction envDefaults;
  LogLevel := LogLevel envDefaults;
  Sampling := Sampling envDefaults;
  ListenInterfaces := ListenInterfaces envDefaults;
  ListenPollPeriod := ListenPollPeriod envDefaults;
  KafkaBrokers := KafkaBrokers envDefaults;
  KafkaTopic := KafkaTopic envDefaults;
  KafkaBatchMessages := KafkaBatchMessages envDefaults;
  KafkaBatchSize := KafkaBatchSize envDefaults;
  KafkaAsync := KafkaAsync envDefaults;
  KafkaCompression := KafkaCompression envDefaults;
  KafkaEnableTLS := KafkaEnableTLS envDefaults;
  KafkaTLSInsecureSkipVerify := KafkaTLSInsecureSkipVerify envDefaults;
  KafkaTLSCACertPath := KafkaTLSCACertPath envDefaults;
  KafkaTLSUserCertPath := KafkaTLSUserCertPath envDefaults;
  KafkaTLSUserKeyPath := KafkaTLSUserKeyPath envDefaults;
  KafkaEnableSASL := KafkaEnableSASL envDefaults;
  KafkaSASLType := KafkaSASLType envDefaults;
  KafkaSASLClientIDPath := KafkaSASLClientIDPath envDefaults;
  KafkaSASLClientSecretPath := KafkaSASLClientSecretPath envDefaults;
  ProfilePort := ProfilePort envDefaults;
  FLPConfig := FLPConfig envDefaults;
  EnableRTT := EnableRTT envDefaults;
  ForceGC := ForceGC envDefaults;
  EnablePktDrops := EnablePktDrops envDefaults;
  EnableDNSTracking := EnableDNSTracking envDefaults;
  DNSTrackingPort := DNSTrackingPort envDefaults;
  StaleEntriesEvictTimeout := StaleEntriesEvictTimeout envDefaults;
  EnablePCA := EnablePCA envDefaults;
  MetricsEnable := MetricsEnable envDefaults;
  MetricsServerAddress := MetricsServerAddress envDefaults;
  MetricsPort := MetricsPort envDefaults;
  MetricsTLSCertPath := MetricsTLSCertPath envDefaults;
  MetricsTLSKeyPath := MetricsTLSKeyPath envDefaults;
  MetricsPrefix := MetricsPrefix envDefaults;
  EnableFlowFilter := EnableFlowFilter envDefaults;
  FlowFilterRules := FlowFilterRules envDefaults;
  EnableNetworkEventsMonitoring := EnableNetworkEventsMonitoring envDefaults;
  NetworkEventsMonitoringGroupID := NetworkEventsMonitoringGroupID envDefaults;
  EnablePktTranslationTracking := EnablePktTranslationTracking envDefaults;
  EbpfProgramManagerMode := EbpfProgramManagerMode envDefaults;
  BpfManBpfFSPath := BpfManBpfFSPath envDefaults;
  FlowsTargetHost := FlowsTargetHost envDefaults;
  FlowsTargetPort := FlowsTargetPort envDefaults;
  PCAServerPort := PCAServerPort envDefaults
|}.

(** What [clog.Infof] receives: the format string and its one argument. *)
Inductive LogArg : Type :=
| ArgString (s : string)
| ArgInt (n : Z).

Record LogEntry : Type := Infof { format : string; arg : LogArg }.

(** The function updates [*cfg] in place and writes to the package logger.
    Here the struct behind the pointer is the state that is threaded
    through, and the log lines are collected in the order they are written.
    The callers pass the address of a struct they own, so [cfg] is not nil. *)
Definition manageDeprecatedConfigs_logged (cfg : Config) : Config * list LogEntry :=
  let '(cfg, log) :=
    if negb (Nat.eqb (String.length (FlowsTargetHost cfg)) 0) then
      (set_TargetHost (FlowsTargetHost cfg) cfg,
       [Infof "Using deprecated FlowsTargetHost %s" (ArgString (FlowsTargetHost cfg))])
    else (cfg, [])
  in
  if negb (FlowsTargetPort cfg =? 0) then
    (set_TargetPort (FlowsTargetPort cfg) cfg,
     log ++ [Infof "Using deprecated FlowsTargetPort %d" (ArgInt (FlowsTargetPort cfg))])
  else if negb (PCAServerPort cfg =? 0) then
    (set_TargetPort (PCAServerPort cfg) cfg,
     log ++ [Infof "Using deprecated PCAServerPort %d" (ArgInt (PCAServerPort cfg))])
  else (cfg, log).

(** The configuration the call leaves behind the pointer. *)
Definition manageDeprecatedConfigs (cfg : Config) : Config :=
  fst (manageDeprecatedConfigs_logged cfg).

(** A line about the port: its argument is the integer of a [%d]. *)
Definition is_port_line (e : LogEntry) : bool :=
  match arg e with
  | ArgInt _ => true
  | ArgString _ => false
  end.

(** [cfg.PCAServerPort = v]: the configuration that differs in this one
    field, as another value of [PCA_SERVER_PORT] in the environment gives it. *)
Definition set_PCAServerPort (v : Z) (cfg : Config) : Config := {|
  AgentIP := AgentIP cfg;
  AgentIPIface := AgentIPIface cfg;
  AgentIPType := AgentIPType cfg;
  Export := Export cfg;
  TargetHost := TargetHost cfg;
  TargetPort := TargetPort cfg;
  GRPCMessageMaxFlows := GRPCMessageMaxFlows cfg;
  Interfaces := Interfaces cfg;
  ExcludeInterfaces := ExcludeInterfaces cfg;
  BuffersLength := BuffersLength cfg;
  InterfaceIPs := InterfaceIPs cfg;
  ExporterBufferLength := ExporterBufferLength cfg;
  CacheMaxFlows := CacheMaxFlows cfg;
  CacheActiveTimeout := CacheActiveTimeout cfg;
  Deduper := Deduper cfg;
  DeduperFCExpiry := DeduperFCExpiry cfg;
  DeduperJustMark := DeduperJustMark cfg;
  DeduperMerge := DeduperMerge cfg;
  Direction := Direction cfg;
  LogLevel := LogLevel cfg;
  Sampling := Sampling cfg;
  ListenInterfaces := ListenInterfaces cfg;
  ListenPollPeriod := ListenPollPeriod cfg;
  KafkaBrokers := KafkaBrokers cfg;
  KafkaTopic := KafkaTopic cfg;
  KafkaBatchMessages := KafkaBatchMessages cfg;
  KafkaBatchSize := KafkaBatchSize cfg;
  KafkaAsync := KafkaAsync cfg;
  KafkaCompression := KafkaCompression cfg;
  KafkaEnableTLS := KafkaEnableTLS cfg;
  KafkaTLSInsecureSkipVerify := KafkaTLSInsecureSkipVerify cfg;
  KafkaTLSCACertPath := KafkaTLSCACertPath cfg;
  KafkaTLSUserCertPath := KafkaTLSUserCertPath cfg;
  KafkaTLSUserKeyPath := KafkaTLSUserKeyPath cfg;
  KafkaEnableSASL := KafkaEnableSASL cfg;
  KafkaSASLType := KafkaSASLType cfg;
  KafkaSASLClientIDPath := KafkaSASLClientIDPath cfg;
  KafkaSASLClientSecretPath := KafkaSASLClientSecretPath cfg;
  ProfilePort := ProfilePort cfg;
  FLPConfig := FLPConfig cfg;
  EnableRTT := EnableRTT cfg;
  ForceGC := ForceGC cfg;
  EnablePktDrops := EnablePktDrops cfg;
  EnableDNSTracking := EnableDNSTracking cfg;
  DNSTrackingPort := DNSTrackingPort cfg;
  StaleEntriesEvictTimeout := StaleEntriesEvictTimeout cfg;
  EnablePCA := EnablePCA cfg;
  MetricsEnable := MetricsEnable cfg;
  MetricsServerAddress := MetricsServerAddress cfg;
  MetricsPort := MetricsPort cfg;
  MetricsTLSCertPath := MetricsTLSCertPath cfg;
  MetricsTLSKeyPath := MetricsTLSKeyPath cfg;
  MetricsPrefix := MetricsPrefix cfg;
  EnableFlowFilter := EnableFlowFilter cfg;
  FlowFilterRules := FlowFilterRules cfg;
  EnableNetworkEventsMonitoring := EnableNetworkEventsMonitoring cfg;
  NetworkEventsMonitoringGroupID := NetworkEventsMonitoringGroupID cfg;
  EnablePktTranslationTracking := EnablePktTranslationTracking cfg;
  EbpfProgramManagerMode := EbpfProgramManagerMode cfg;
  BpfManBpfFSPath := BpfManBpfFSPath cfg;
  FlowsTargetHost := FlowsTargetHost cfg;
  FlowsTargetPort := FlowsTargetPort cfg;
  PCAServerPort := v
|}.

End agent.

(** ** The pipeline stages that read the configuration

    The deduplicator, the accounting cache and the exporter live in other
    packages of the agent, outside the two files embedded here.  Each
    definition below that stands for their code is written from the
    specification's description of the stage and says so. *)

Module pipeline.
Import agent.

(** Modelled from the spec: the data model of section 3, whose Go types are
    not in these files.  A flow's identity is its 5-tuple; a [FlowKey] adds
    the interface and the direction.  Times are nanoseconds. *)
Inductive Direction : Type := Ingress | Egress.

(** Modelled from the spec: the 5-tuple of a flow (addresses, ports,
    protocol), the identity the deduplicator indexes by. *)
Record FlowId : Type := mkFlowId {
  src_addr : Z;
  dst_addr : Z;
  src_port : Z;
  dst_port : Z;
  protocol : Z
}.

(** Modelled from the spec: "5-tuple ... plus interface identifier and
    direction", the identity the accounting cache indexes by. *)
Record FlowKey : Type := mkFlowKey {
  flow_id : FlowId;
  if_index : Z;
  direction : Direction
}.

#[global] Instance Direction_eq_dec : EqDecision Direction.
Proof. solve_decision. Defined.
#[global] Instance FlowId_eq_dec : EqDecision FlowId.
Proof. solve_decision. Defined.
#[global] Instance FlowKey_eq_dec : EqDecision FlowKey.
Proof. solve_decision. Defined.

#[global] Instance Direction_countable : Countable Direction.
Proof.
  apply (inj_countable' (fun d => match d with Ingress => true | Egress => false end)
                        (fun b : bool => if b then Ingress else Egress)).
  intros []; reflexivity.
Defined.
#[global] Instance FlowId_countable : Countable FlowId.
Proof.
  apply (inj_countable'
           (fun i => (src_addr i, dst_addr i, src_port i, dst_port i, protocol i))
           (fun '(a, b, c, d, e) => mkFlowId a b c d e)).
  intros []; reflexivity.
Defined.
#[global] Instance FlowKey_countable : Countable FlowKey.
Proof.
  apply (inj_countable' (fun k => (flow_id k, if_index k, direction k))
                        (fun '(i, n, d) => mkFlowKey i n d)).
  intros []; reflexivity.
Defined.

(** Modelled from the spec: one observation of the capture source. *)
Record RawEvent : Type := mkRawEvent {
  ev_key : FlowKey;
  ev_time : Z;
  ev_bytes : Z;
  ev_packets : Z;
  ev_flags : Z
}.

(** Modelled from the spec: the accumulator the cache keeps per [FlowKey]. *)
Record AccountedFlow : Type := mkAccountedFlow {
  bytes : Z;
  packets : Z;
  first_seen : Z;
  last_seen : Z;
  pairs : list (Z * Direction);
  flags : Z
}.

(** Modelled from the spec: what the deduplicator keeps per 5-tuple, the
    interface and direction that own the flow and when it was last seen. *)
Record DedupEntry : Type := mkDedupEntry {
  owner : Z * Direction;
  dedup_last_seen : Z
}.

(** *** Deduplicator: the expiry sweep *)

(** Modelled from the spec: the expiry window of the deduplicator, whose
    construction is not in these files.  config.go documents the option:
    "If the value is not set, it will default to 2 * CacheActiveTimeout". *)
Definition dedup_expiry (cfg : Config) : Duration :=
  if DeduperFCExpiry cfg =? 0 then 2 * CacheActiveTimeout cfg
  else DeduperFCExpiry cfg.

(** Modelled from the spec: "A background sweep removes DedupEntry records
    whose last-seen age exceeds the expiry window". *)
Definition dedup_sweep (cfg : Config) (now : Z)
    (table : gmap FlowId DedupEntry) : gmap FlowId DedupEntry :=
  filter (fun kv : FlowId * DedupEntry =>
            ¬ (dedup_expiry cfg < now - dedup_last_seen kv.2)) table.

(** *** Accounting cache *)

(** Modelled from the spec: the state of the accounting cache, which is not
    in these files: the live entries by [FlowKey], and the entries handed to
    the exporter so far, the earliest eviction first. *)
Record Cache : Type := mkCache {
  entries : gmap FlowKey AccountedFlow;
  evicted : list (FlowKey * AccountedFlow)
}.

(** Modelled from the spec: the cache at start-up, with nothing admitted. *)
Definition empty_cache : Cache := mkCache ∅ [].

(** Modelled from the spec: the entry that [Admit] creates for a new key,
    "first-seen = now". *)
Definition new_flow (now : Z) (ev : RawEvent) : AccountedFlow :=
  {| bytes := ev_bytes ev;
     packets := ev_packets ev;
     first_seen := now;
     last_seen := now;
     pairs := [(if_index (ev_key ev), direction (ev_key ev))];
     flags := ev_flags ev |}.

(** Modelled from the spec: [Admit] on a key that is present "merges
    counters/flags/interface-pairs into the existing entry and updates
    last-seen". *)
Definition merge_flow (now : Z) (ev : RawEvent) (f : AccountedFlow) : AccountedFlow :=
  {| bytes := bytes f + ev_bytes ev;
     packets := packets f + ev_packets ev;
     first_seen := first_seen f;
     last_seen := now;
     pairs := list_union (pairs f) [(if_index (ev_key ev), direction (ev_key ev))];
     flags := Z.lor (flags f) (ev_flags ev) |}.

(** Modelled from the spec: "the single oldest live entry (by first-seen)",
    if the cache has an entry at all; among entries of the same first-seen
    time, one of them. *)
Definition oldest (m : gmap FlowKey AccountedFlow) : option (FlowKey * AccountedFlow) :=
  map_fold (fun k f acc =>
              match acc with
              | None => Some (k, f)
              | Some (k', f') =>
                  if first_seen f <? first_seen f' then Some (k, f) else acc
              end) None m.

(** What is asked of [oldest]: nothing for the empty map, otherwise an entry
    of the map whose first-seen time is least. *)
Definition is_oldest (m : gmap FlowKey AccountedFlow)
    (r : option (FlowKey * AccountedFlow)) : Prop :=
  match r with
  | None => m = ∅
  | Some (k, f) =>
      m !! k = Some f /\
      forall k' f', m !! k' = Some f' -> first_seen f <= first_seen f'
  end.

(** Modelled from the spec: the oldest live entry "is evicted immediately
    to the Exporter Fan-out".  An empty cache has none to give. *)
Definition evict_oldest (c : Cache) : Cache :=
  match oldest (entries c) with
  | Some (k, f) => mkCache (delete k (entries c)) (evicted c ++ [(k, f)])
  | None => c
  end.

(** Modelled from the spec: "this insertion would exceed the capacity
    bound", the bound being [CacheMaxFlows]. *)
Definition would_exceed (cfg : Config) (c : Cache) : bool :=
  CacheMaxFlows cfg <? Z.of_nat (size (entries c)) + 1.

(** Modelled from the spec: the step of [Admit] that comes "before the
    insert proceeds", the eviction when the insertion would exceed the
    bound. *)
Definition make_room (cfg : Config) (c : Cache) : Cache :=
  if would_exceed cfg c then evict_oldest c else c.

(** Modelled from the spec: the accounting cache's [Admit], which is not in
    these files.  "Admit(event) looks up AccountedFlow by FlowKey; if
    absent, creates one (first-seen = now) — if this insertion would exceed
    the capacity bound, the single oldest live entry (by first-seen) is
    evicted immediately to the Exporter Fan-out before the insert proceeds;
    if present, merges counters/flags/interface-pairs into the existing
    entry and updates last-seen." *)
Definition Admit (cfg : Config) (now : Z) (ev : RawEvent) (c : Cache) : Cache :=
  match entries c !! ev_key ev with
  | Some f => mkCache (<[ev_key ev := merge_flow now ev f]> (entries c)) (evicted c)
  | None =>
      let c := make_room cfg c in
      mkCache (<[ev_key ev := new_flow now ev]> (entries c)) (evicted c)
  end.

(** Modelled from the spec: the test of the cache's sweep,
    "(now − first-seen) ≥ active-timeout". *)
Definition timed_out (cfg : Config) (now : Z) (kv : FlowKey * AccountedFlow) : Prop :=
  CacheActiveTimeout cfg <= now - first_seen kv.2.

#[global] Instance timed_out_dec cfg now kv : Decision (timed_out cfg now kv).
Proof. unfold timed_out. apply _. Defined.

(** Modelled from the spec: the cache's sweep, which is not in these files.
    "A background sweep ... evicts every entry whose (now − first-seen) ≥
    active-timeout, regardless of recent activity." *)
Definition Sweep (cfg : Config) (now : Z) (c : Cache) : Cache :=
  mkCache (filter (fun kv => ¬ timed_out cfg now kv) (entries c))
          (evicted c ++ map_to_list (filter (timed_out cfg now) (entries c))).

(** Modelled from the spec: what reaches the cache, an event to admit or a
    tick of the sweep, each with the time it happens at. *)
Inductive CacheInput : Type :=
| InAdmit (now : Z) (ev : RawEvent)
| InSweep (now : Z).

(** Modelled from the spec: the cache is a single worker that takes its
    inputs one at a time. *)
Definition cache_step (cfg : Config) (c : Cache) (i : CacheInput) : Cache :=
  match i with
  | InAdmit now ev => Admit cfg now ev c
  | InSweep now => Sweep cfg now c
  end.

(** Modelled from the spec: the cache after a sequence of inputs, from the
    empty cache.  Every prefix of the sequence is an observation point. *)
Definition cache_run (cfg : Config) (inputs : list CacheInput) : Cache :=
  foldl (cache_step cfg) empty_cache inputs.

(** *** Exporter *)

(** Modelled from the spec: the capacity of the exporter's input queue,
    whose construction is not in these files.  It follows the documentation
    of the option at config.go 123-127, the one text on it in the sources:
    "ExporterBufferLength establishes the length of the buffer of flow
    batches ... If unset, its value is the same as the BUFFERS_LENGTH
    property".  An unset option is the zero value.  The spec's "size =
    buffer length, or a dedicated export-buffer length if configured
    larger" says the same for an option that is unset or larger. *)
Definition exporter_queue_capacity (cfg : Config) : Z :=
  if ExporterBufferLength cfg =? 0 then BuffersLength cfg
  else ExporterBufferLength cfg.

(** Modelled from the spec: an [ExportBatch], "an ordered sequence of
    AccountedFlow entries grouped for a single transmission unit". *)
Definition ExportBatch : Type := list AccountedFlow.

(** Modelled from the spec: the exporter's input queue with its counter of
    dropped entries. *)
Record ExportQueue : Type := mkExportQueue {
  queued : list AccountedFlow;
  dropped : nat
}.

(** Modelled from the spec: "when the queue backs up beyond capacity,
    newest-arriving entries are dropped ... and a metric/counter records
    the loss". *)
Definition enqueue (cfg : Config) (f : AccountedFlow) (q : ExportQueue) : ExportQueue :=
  if Z.of_nat (length (queued q)) <? exporter_queue_capacity cfg
  then mkExportQueue (queued q ++ [f]) (dropped q)
  else mkExportQueue (queued q) (S (dropped q)).

(** Modelled from the spec: the split "into sequential sub-messages", runs
    of [n] records from the front of the batch.  [fuel] bounds the number
    of runs; the length of the batch is enough when [n] is positive. *)
Fixpoint split_messages (fuel n : nat) (batch : ExportBatch) : list ExportBatch :=
  match fuel with
  | O => []
  | S fuel =>
      match batch with
      | [] => []
      | _ :: _ => take n batch :: split_messages fuel n (drop n batch)
      end
  end.

(** Modelled from the spec: the remote-procedure-call backend "sends each
    batch as one message; splits a batch exceeding the message-size cap into
    sequential sub-messages"; config.go: "Messages larger than that number
    will be split and submitted sequentially".  The result is the sequence
    of messages sent for one batch. *)
Definition grpc_messages (cfg : Config) (batch : ExportBatch) : list ExportBatch :=
  if Z.of_nat (length batch) <=? GRPCMessageMaxFlows cfg then [batch]
  else split_messages (length batch) (Z.to_nat (GRPCMessageMaxFlows cfg)) batch.

(** *** Sample inputs

    Two events of two flows, a flow as the cache first records it, and
    configurations with a bound of zero or one on the cache and a cap of zero
    on the message. *)
Definition sample_key : FlowKey :=
  mkFlowKey (mkFlowId 167772161 167772162 40000 443 6) 2 Ingress.
Definition sample_event : RawEvent := mkRawEvent sample_key 0 1500 1 0.
Definition zero_cache_config : Config :=
  parsed_limits 10000 50 0 0 (5 * Second) 0.

Definition other_key : FlowKey :=
  mkFlowKey (mkFlowId 167772161 167772163 40001 443 6) 2 Ingress.
Definition other_event : RawEvent := mkRawEvent other_key 1 60 1 0.
Definition one_flow_config : Config :=
  parsed_limits 10000 50 0 1 (5 * Second) 0.

Definition sample_flow : AccountedFlow := new_flow 0 sample_event.
Definition zero_message_config : Config :=
  parsed_limits 0 50 0 5000 (5 * Second) 0.

End pipeline.

(** ** Package [v1alpha1]: zz_generated.deepcopy.go *)

Module v1alpha1.

(** The 22 struct types that own a generated [DeepCopyInto]. *)
Inductive ApiType : Type :=
| TCertificateReference
| TClientTLS
| TClusterNetworkOperatorConfig
| TOVNKubernetesConfig
| TConsolePluginPortConfig
| TServerTLS
| TMetricsServerConfig
| TFLPMetrics
| TQuickFilter
| TFlowCollectorHPA
| TFlowCollectorIPFIX
| TFlowCollectorEBPF
| TFlowCollectorAgent
| TFlowCollectorKafka
| TFlowCollectorExporter
| TFlowCollectorFLP
| TFlowCollectorLoki
| TFlowCollectorConsolePlugin
| TFlowCollectorSpec
| TFlowCollectorStatus
| TFlowCollector
| TFlowCollectorList.

(** Go's zero value of a type, and the method [DeepCopyInto], found by the
    static type of the receiver.  [DeepCopyInto in_ out] is the struct that
    the call leaves behind [out]. *)
Class Zero (T : Type) : Type := zero : T.
Class DeepCopyable (T : Type) : Type := DeepCopyInto : T -> T -> T.

#[export] Instance Z_zero : Zero Z := 0.
#[export] Instance string_zero : Zero string := ""%string.
(** A nil pointer, a nil slice, a nil map. *)
#[export] Instance nil_zero {A : Type} : Zero (option A) := None.

(** The type declarations of the package (flowcollector_types.go) and of the
    Kubernetes libraries are not among the embedded files.  What the copies
    show of a struct is each field that needs more than the assignment
    [*out = *in]; the fields they do not name hold no pointer, slice or map
    and are kept together, per struct, as its [scalars].  The library types
    come with their zero value, and with their own [DeepCopyInto] where the
    generated code calls it. *)
Class External : Type := mkExternal {
  scalars : ApiType -> Type;
  scalars_zero : forall t : ApiType, Zero (scalars t);
  TypeMeta : Type;
  TypeMeta_zero : Zero TypeMeta;
  MetaDuration : Type;
  MetaDuration_zero : Zero MetaDuration;
  ObjectMeta : Type;
  ObjectMeta_zero : Zero ObjectMeta;
  ObjectMeta_DeepCopyInto : DeepCopyable ObjectMeta;
  ListMeta : Type;
  ListMeta_zero : Zero ListMeta;
  ListMeta_DeepCopyInto : DeepCopyable ListMeta;
  Condition : Type;
  Condition_zero : Zero Condition;
  Condition_DeepCopyInto : DeepCopyable Condition;
  MetricSpec : Type;
  MetricSpec_zero : Zero MetricSpec;
  MetricSpec_DeepCopyInto : DeepCopyable MetricSpec;
  ResourceRequirements : Type;
  ResourceRequirements_zero : Zero ResourceRequirements;
  ResourceRequirements_DeepCopyInto : DeepCopyable ResourceRequirements
}.

#[export] Existing Instances scalars_zero TypeMeta_zero MetaDuration_zero
  ObjectMeta_zero ObjectMeta_DeepCopyInto ListMeta_zero ListMeta_DeepCopyInto
  Condition_zero Condition_DeepCopyInto MetricSpec_zero
  MetricSpec_DeepCopyInto ResourceRequirements_zero
  ResourceRequirements_DeepCopyInto.

(** The library methods copy deeply: the struct they leave behind [out] is
    equal to the receiver. *)
Definition external_copies `{External} : Prop :=
  (forall in_ out : ObjectMeta, DeepCopyInto in_ out = in_) /\
  (forall in_ out : ListMeta, DeepCopyInto in_ out = in_) /\
  (forall in_ out : Condition, DeepCopyInto in_ out = in_) /\
  (forall in_ out : MetricSpec, DeepCopyInto in_ out = in_) /\
  (forall in_ out : ResourceRequirements, DeepCopyInto in_ out = in_).

(** The method of a type copies: whatever [out] held, it now holds a struct
    equal to the receiver. *)
Definition Copies (T : Type) `{DeepCopyable T} : Prop :=
  forall in_ out : T, DeepCopyInto in_ out = in_.

(** *** Go's builtins, on values *)

Section builtins.
Context {A : Type}.

(** [new(T)]: a fresh cell holding the zero value. *)
Definition new `{Zero A} : A := zero.

(** [*dst = *src]. *)
Definition assign (src dst : A) : A := src.

(** [make([]T, n)]: [n] zero values. *)
Definition make_slice `{Zero A} (n : nat) : list A := replicate n zero.

(** [copy(dst, src)]: the first [min(len(dst), len(src))] elements of [src]
    overwrite the front of [dst]. *)
Definition copy (dst src : list A) : list A :=
  take (Nat.min (length dst) (length src)) src
  ++ drop (Nat.min (length dst) (length src)) dst.

(** [for i := range in { body(in[i], &out[i]) }].  The index is in range in
    both slices wherever the generated code runs the loop. *)
Definition range_elems (body : A -> A -> A) (in_ out : list A) : list A :=
  foldl (fun out i =>
           match in_ !! i, out !! i with
           | Some x, Some y => <[i := body x y]> out
           | _, _ => out
           end) out (seq 0 (length in_)).

End builtins.

(** [make(map[string]string, n)]: the empty map; [n] is a capacity hint. *)
Definition make_map (n : nat) : gmap string string := ∅.

(** [for key, val := range in { out[key] = val }]. *)
Definition range_map (in_ out : gmap string string) : gmap string string :=
  map_fold (fun key val out => <[key := val]> out) out in_.

(** *** The structs and their [DeepCopyInto]

    Pointers, slices and maps inside a struct are read by value: [None] is
    nil, [Some] a cell, a slice or a map with its contents.  [int32] is an
    integer.  The type of a field is read off the method the generated code
    calls on it and off its name. *)

Section structs.
Context `{External}.

Record CertificateReference : Type := mkCertificateReference {
  CertificateReference_scalars : scalars TCertificateReference
}.

#[export] Instance CertificateReference_zero : Zero CertificateReference :=
  mkCertificateReference zero.

(** [func (in *CertificateReference) DeepCopyInto(out *CertificateReference)] *)
#[export] Instance CertificateReference_DeepCopyInto
  : DeepCopyable CertificateReference :=
  fun in_ out =>
    let out := in_ in
    out.

Record ClientTLS : Type := mkClientTLS {
  ClientTLS_scalars : scalars TClientTLS;
  ClientTLS_CACert : CertificateReference;
  ClientTLS_UserCert : CertificateReference
}.

#[export] Instance ClientTLS_zero : Zero ClientTLS := mkClientTLS zero zero zero.

Definition set_ClientTLS_CACert (v : CertificateReference) (x : ClientTLS) : ClientTLS :=
  mkClientTLS (ClientTLS_scalars x) v (ClientTLS_UserCert x).
Definition set_ClientTLS_UserCert (v : CertificateReference)
    (x : ClientTLS) : ClientTLS :=
  mkClientTLS (ClientTLS_scalars x) (ClientTLS_CACert x) v.

(** [func (in *ClientTLS) DeepCopyInto(out *ClientTLS)] *)
#[export] Instance ClientTLS_DeepCopyInto : DeepCopyable ClientTLS :=
  fun in_ out =>
    let out := in_ in
    let out := set_ClientTLS_CACert (ClientTLS_CACert in_) out in
    let out := set_ClientTLS_UserCert (ClientTLS_UserCert in_) out in
    out.

Record ClusterNetworkOperatorConfig : Type := mkClusterNetworkOperatorConfig {
  ClusterNetworkOperatorConfig_scalars : scalars TClusterNetworkOperatorConfig
}.

#[export] Instance ClusterNetworkOperatorConfig_zero : Zero ClusterNetworkOperatorConfig :=
  mkClusterNetworkOperatorConfig zero.

(** [func (in *ClusterNetworkOperatorConfig)
          DeepCopyInto(out *ClusterNetworkOperatorConfig)] *)
#[export] Instance ClusterNetworkOperatorConfig_DeepCopyInto
  : DeepCopyable ClusterNetworkOperatorConfig :=
  fun in_ out =>
    let out := in_ in
    out.

Record OVNKubernetesConfig : Type := mkOVNKubernetesConfig {
  OVNKubernetesConfig_scalars : scalars TOVNKubernetesConfig
}.

#[export] Instance OVNKubernetesConfig_zero : Zero OVNKubernetesConfig :=
  mkOVNKubernetesConfig zero.

(** [func (in *OVNKubernetesConfig) DeepCopyInto(out *OVNKubernetesConfig)] *)
#[export] Instance OVNKubernetesConfig_DeepCopyInto : DeepCopyable OVNKubernetesConfig :=
  fun in_ out =>
    let out := in_ in
    out.

Record ConsolePluginPortConfig : Type := mkConsolePluginPortConfig {
  ConsolePluginPortConfig_scalars : scalars TConsolePluginPortConfig;
  ConsolePluginPortConfig_PortNames : option (gmap string string)
}.

#[export] Instance ConsolePluginPortConfig_zero : Zero ConsolePluginPortConfig :=
  mkConsolePluginPortConfig zero zero.

Definition set_ConsolePluginPortConfig_PortNames (v : option (gmap string string))
    (x : ConsolePluginPortConfig) : ConsolePluginPortConfig :=
  mkConsolePluginPortConfig (ConsolePluginPortConfig_scalars x) v.

(** [func (in *ConsolePluginPortConfig) DeepCopyInto(out *ConsolePluginPortConfig)] *)
#[export] Instance ConsolePluginPortConfig_DeepCopyInto
  : DeepCopyable ConsolePluginPortConfig :=
  fun in_ out =>
    let out := in_ in
    let out :=
      match ConsolePluginPortConfig_PortNames in_ with
      | Some m =>
          set_ConsolePluginPortConfig_PortNames
            (Some (range_map m (make_map (size m)))) out
      | None => out
      end in
    out.

Record ServerTLS : Type := mkServerTLS {
  ServerTLS_scalars : scalars TServerTLS;
  ServerTLS_Provided : option CertificateReference
}.

#[export] Instance ServerTLS_zero : Zero ServerTLS := mkServerTLS zero zero.

Definition set_ServerTLS_Provided (v : option CertificateReference)
    (x : ServerTLS) : ServerTLS :=
  mkServerTLS (ServerTLS_scalars x) v.

(** [func (in *ServerTLS) DeepCopyInto(out *ServerTLS)] *)
#[export] Instance ServerTLS_DeepCopyInto : DeepCopyable ServerTLS :=
  fun in_ out =>
    let out := in_ in
    let out :=
      match ServerTLS_Provided in_ with
      | Some v => set_ServerTLS_Provided (Some (assign v new)) out
      | None => out
      end in
    out.

Record MetricsServerConfig : Type := mkMetricsServerConfig {
  MetricsServerConfig_scalars : scalars TMetricsServerConfig;
  MetricsServerConfig_TLS : ServerTLS
}.

#[export] Instance MetricsServerConfig_zero : Zero MetricsServerConfig :=
  mkMetricsServerConfig zero zero.

Definition set_MetricsServerConfig_TLS (v : ServerTLS)
    (x : MetricsServerConfig) : MetricsServerConfig :=
  mkMetricsServerConfig (MetricsServerConfig_scalars x) v.

(** [func (in *MetricsServerConfig) DeepCopyInto(out *MetricsServerConfig)] *)
#[export] Instance MetricsServerConfig_DeepCopyInto : DeepCopyable MetricsServerConfig :=
  fun in_ out =>
    let out := in_ in
    let out :=
      set_MetricsServerConfig_TLS
        (DeepCopyInto (MetricsServerConfig_TLS in_) (MetricsServerConfig_TLS out)) out in
    out.

Record FLPMetrics : Type := mkFLPMetrics {
  FLPMetrics_scalars : scalars TFLPMetrics;
  FLPMetrics_Server : MetricsServerConfig;
  FLPMetrics_IgnoreTags : option (list string)
}.

#[export] Instance FLPMetrics_zero : Zero FLPMetrics := mkFLPMetrics zero zero zero.

Definition set_FLPMetrics_Server (v : MetricsServerConfig)
    (x : FLPMetrics) : FLPMetrics :=
  mkFLPMetrics (FLPMetrics_scalars x) v (FLPMetrics_IgnoreTags x).
Definition set_FLPMetrics_IgnoreTags (v : option (list string))
    (x : FLPMetrics) : FLPMetrics :=
  mkFLPMetrics (FLPMetrics_scalars x) (FLPMetrics_Server x) v.

(** [func (in *FLPMetrics) DeepCopyInto(out *FLPMetrics)] *)
#[export] Instance FLPMetrics_DeepCopyInto : DeepCopyable FLPMetrics :=
  fun in_ out =>
    let out := in_ in
    let out :=
      set_FLPMetrics_Server
        (DeepCopyInto (FLPMetrics_Server in_) (FLPMetrics_Server out)) out in
    let out :=
      match FLPMetrics_IgnoreTags in_ with
      | Some s => set_FLPMetrics_IgnoreTags (Some (copy (make_slice (length s)) s)) out
      | None => out
      end in
    out.

Record QuickFilter : Type := mkQuickFilter {
  QuickFilter_scalars : scalars TQuickFilter;
  QuickFilter_Filter : option (gmap string string)
}.

#[export] Instance QuickFilter_zero : Zero QuickFilter := mkQuickFilter zero zero.

Definition set_QuickFilter_Filter (v : option (gmap string string))
    (x : QuickFilter) : QuickFilter :=
  mkQuickFilter (QuickFilter_scalars x) v.

(** [func (in *QuickFilter) DeepCopyInto(out *QuickFilter)] *)
#[export] Instance QuickFilter_DeepCopyInto : DeepCopyable QuickFilter :=
  fun in_ out =>
    let out := in_ in
    let out :=
      match QuickFilter_Filter in_ with
      | Some m => set_QuickFilter_Filter (Some (range_map m (make_map (size m)))) out
      | None => out
      end in
    out.

Record FlowCollectorHPA : Type := mkFlowCollectorHPA {
  FlowCollectorHPA_scalars : scalars TFlowCollectorHPA;
  FlowCollectorHPA_MinReplicas : option Z;
  FlowCollectorHPA_Metrics : option (list MetricSpec)
}.

#[export] Instance FlowCollectorHPA_zero : Zero FlowCollectorHPA :=
  mkFlowCollectorHPA zero zero zero.

Definition set_FlowCollectorHPA_MinReplicas (v : option Z)
    (x : FlowCollectorHPA) : FlowCollectorHPA :=
  mkFlowCollectorHPA (FlowCollectorHPA_scalars x) v (FlowCollectorHPA_Metrics x).
Definition set_FlowCollectorHPA_Metrics (v : option (list MetricSpec))
    (x : FlowCollectorHPA) : FlowCollectorHPA :=
  mkFlowCollectorHPA (FlowCollectorHPA_scalars x) (FlowCollectorHPA_MinReplicas x) v.

(** [func (in *FlowCollectorHPA) DeepCopyInto(out *FlowCollectorHPA)] *)
#[export] Instance FlowCollectorHPA_DeepCopyInto : DeepCopyable FlowCollectorHPA :=
  fun in_ out =>
    let out := in_ in
    let out :=
      match FlowCollectorHPA_MinReplicas in_ with
      | Some v => set_FlowCollectorHPA_MinReplicas (Some (assign v new)) out
      | None => out
      end in
    let out :=
      match FlowCollectorHPA_Metrics in_ with
      | Some s =>
          set_FlowCollectorHPA_Metrics
            (Some (range_elems DeepCopyInto s (make_slice (length s)))) out
      | None => out
      end in
    out.

Record FlowCollectorIPFIX : Type := mkFlowCollectorIPFIX {
  FlowCollectorIPFIX_scalars : scalars TFlowCollectorIPFIX;
  FlowCollectorIPFIX_ClusterNetworkOperator : ClusterNetworkOperatorConfig;
  FlowCollectorIPFIX_OVNKubernetes : OVNKubernetesConfig
}.

#[export] Instance FlowCollectorIPFIX_zero : Zero FlowCollectorIPFIX :=
  mkFlowCollectorIPFIX zero zero zero.

Definition set_FlowCollectorIPFIX_ClusterNetworkOperator (v : ClusterNetworkOperatorConfig)
    (x : FlowCollectorIPFIX) : FlowCollectorIPFIX :=
  mkFlowCollectorIPFIX
    (FlowCollectorIPFIX_scalars x) v (FlowCollectorIPFIX_OVNKubernetes x).
Definition set_FlowCollectorIPFIX_OVNKubernetes (v : OVNKubernetesConfig)
    (x : FlowCollectorIPFIX) : FlowCollectorIPFIX :=
  mkFlowCollectorIPFIX
    (FlowCollectorIPFIX_scalars x)
    (FlowCollectorIPFIX_ClusterNetworkOperator x) v.

(** [func (in *FlowCollectorIPFIX) DeepCopyInto(out *FlowCollectorIPFIX)] *)
#[export] Instance FlowCollectorIPFIX_DeepCopyInto : DeepCopyable FlowCollectorIPFIX :=
  fun in_ out =>
    let out := in_ in
    let out :=
      set_FlowCollectorIPFIX_ClusterNetworkOperator
        (FlowCollectorIPFIX_ClusterNetworkOperator in_) out in
    let out :=
      set_FlowCollectorIPFIX_OVNKubernetes
        (FlowCollectorIPFIX_OVNKubernetes in_) out in
    out.

Record FlowCollectorEBPF : Type := mkFlowCollectorEBPF {
  FlowCollectorEBPF_scalars : scalars TFlowCollectorEBPF;
  FlowCollectorEBPF_Resources : ResourceRequirements;
  FlowCollectorEBPF_Sampling : option Z;
  FlowCollectorEBPF_Interfaces : option (list string);
  FlowCollectorEBPF_ExcludeInterfaces : option (list string);
  FlowCollectorEBPF_Env : option (gmap string string)
}.

#[export] Instance FlowCollectorEBPF_zero : Zero FlowCollectorEBPF :=
  mkFlowCollectorEBPF zero zero zero zero zero zero.

Definition set_FlowCollectorEBPF_Resources (v : ResourceRequirements)
    (x : FlowCollectorEBPF) : FlowCollectorEBPF :=
  mkFlowCollectorEBPF
    (FlowCollectorEBPF_scalars x) v (FlowCollectorEBPF_Sampling x)
    (FlowCollectorEBPF_Interfaces x) (FlowCollectorEBPF_ExcludeInterfaces x)
    (FlowCollectorEBPF_Env x).
Definition set_FlowCollectorEBPF_Sampling (v : option Z)
    (x : FlowCollectorEBPF) : FlowCollectorEBPF :=
  mkFlowCollectorEBPF
    (FlowCollectorEBPF_scalars x) (FlowCollectorEBPF_Resources x) v
    (FlowCollectorEBPF_Interfaces x) (FlowCollectorEBPF_ExcludeInterfaces x)
    (FlowCollectorEBPF_Env x).
Definition set_FlowCollectorEBPF_Interfaces (v : option (list string))
    (x : FlowCollectorEBPF) : FlowCollectorEBPF :=
  mkFlowCollectorEBPF
    (FlowCollectorEBPF_scalars x) (FlowCollectorEBPF_Resources x)
    (FlowCollectorEBPF_Sampling x) v (FlowCollectorEBPF_ExcludeInterfaces x)
    (FlowCollectorEBPF_Env x).
Definition set_FlowCollectorEBPF_ExcludeInterfaces (v : option (list string))
    (x : FlowCollectorEBPF) : FlowCollectorEBPF :=
  mkFlowCollectorEBPF
    (FlowCollectorEBPF_scalars x) (FlowCollectorEBPF_Resources x)
    (FlowCollectorEBPF_Sampling x) (FlowCollectorEBPF_Interfaces x) v
    (FlowCollectorEBPF_Env x).
Definition set_FlowCollectorEBPF_Env (v : option (gmap string string))
    (x : FlowCollectorEBPF) : FlowCollectorEBPF :=
  mkFlowCollectorEBPF
    (FlowCollectorEBPF_scalars x) (FlowCollectorEBPF_Resources x)
    (FlowCollectorEBPF_Sampling x) (FlowCollectorEBPF_Interfaces x)
    (FlowCollectorEBPF_ExcludeInterfaces x) v.

(** [func (in *FlowCollectorEBPF) DeepCopyInto(out *FlowCollectorEBPF)] *)
#[export] Instance FlowCollectorEBPF_DeepCopyInto : DeepCopyable FlowCollectorEBPF :=
  fun in_ out =>
    let out := in_ in
    let out :=
      set_FlowCollectorEBPF_Resources
        (DeepCopyInto
           (FlowCollectorEBPF_Resources in_)
           (FlowCollectorEBPF_Resources out)) out in
    let out :=
      match FlowCollectorEBPF_Sampling in_ with
      | Some v => set_FlowCollectorEBPF_Sampling (Some (assign v new)) out
      | None => out
      end in
    let out :=
      match FlowCollectorEBPF_Interfaces in_ with
      | Some s =>
          set_FlowCollectorEBPF_Interfaces
            (Some (copy (make_slice (length s)) s)) out
      | None => out
      end in
    let out :=
      match FlowCollectorEBPF_ExcludeInterfaces in_ with
      | Some s =>
          set_FlowCollectorEBPF_ExcludeInterfaces
            (Some (copy (make_slice (length s)) s)) out
      | None => out
      end in
    let out :=
      match FlowCollectorEBPF_Env in_ with
      | Some m => set_FlowCollectorEBPF_Env (Some (range_map m (make_map (size m)))) out
      | None => out
      end in
    out.

Record FlowCollectorAgent : Type := mkFlowCollectorAgent {
  FlowCollectorAgent_scalars : scalars TFlowCollectorAgent;
  FlowCollectorAgent_IPFIX : FlowCollectorIPFIX;
  FlowCollectorAgent_EBPF : FlowCollectorEBPF
}.

#[export] Instance FlowCollectorAgent_zero : Zero FlowCollectorAgent :=
  mkFlowCollectorAgent zero zero zero.

Definition set_FlowCollectorAgent_IPFIX (v : FlowCollectorIPFIX)
    (x : FlowCollectorAgent) : FlowCollectorAgent :=
  mkFlowCollectorAgent (FlowCollectorAgent_scalars x) v (FlowCollectorAgent_EBPF x).
Definition set_FlowCollectorAgent_EBPF (v : FlowCollectorEBPF)
    (x : FlowCollectorAgent) : FlowCollectorAgent :=
  mkFlowCollectorAgent (FlowCollectorAgent_scalars x) (FlowCollectorAgent_IPFIX x) v.

(** [func (in *FlowCollectorAgent) DeepCopyInto(out *FlowCollectorAgent)] *)
#[export] Instance FlowCollectorAgent_DeepCopyInto : DeepCopyable FlowCollectorAgent :=
  fun in_ out =>
    let out := in_ in
    let out := set_FlowCollectorAgent_IPFIX (FlowCollectorAgent_IPFIX in_) out in
    let out :=
      set_FlowCollectorAgent_EBPF
        (DeepCopyInto (FlowCollectorAgent_EBPF in_) (FlowCollectorAgent_EBPF out)) out in
    out.

Record FlowCollectorKafka : Type := mkFlowCollectorKafka {
  FlowCollectorKafka_scalars : scalars TFlowCollectorKafka;
  FlowCollectorKafka_TLS : ClientTLS
}.

#[export] Instance FlowCollectorKafka_zero : Zero FlowCollectorKafka :=
  mkFlowCollectorKafka zero zero.

Definition set_FlowCollectorKafka_TLS (v : ClientTLS)
    (x : FlowCollectorKafka) : FlowCollectorKafka :=
  mkFlowCollectorKafka (FlowCollectorKafka_scalars x) v.

(** [func (in *FlowCollectorKafka) DeepCopyInto(out *FlowCollectorKafka)] *)
#[export] Instance FlowCollectorKafka_DeepCopyInto : DeepCopyable FlowCollectorKafka :=
  fun in_ out =>
    let out := in_ in
    let out := set_FlowCollectorKafka_TLS (FlowCollectorKafka_TLS in_) out in
    out.

Record FlowCollectorExporter : Type := mkFlowCollectorExporter {
  FlowCollectorExporter_scalars : scalars TFlowCollectorExporter;
  FlowCollectorExporter_Kafka : FlowCollectorKafka
}.

#[export] Instance FlowCollectorExporter_zero : Zero FlowCollectorExporter :=
  mkFlowCollectorExporter zero zero.

Definition set_FlowCollectorExporter_Kafka (v : FlowCollectorKafka)
    (x : FlowCollectorExporter) : FlowCollectorExporter :=
  mkFlowCollectorExporter (FlowCollectorExporter_scalars x) v.

(** [func (in *FlowCollectorExporter) DeepCopyInto(out *FlowCollectorExporter)] *)
#[export] Instance FlowCollectorExporter_DeepCopyInto
  : DeepCopyable FlowCollectorExporter :=
  fun in_ out =>
    let out := in_ in
    let out := set_FlowCollectorExporter_Kafka (FlowCollectorExporter_Kafka in_) out in
    out.

Record FlowCollectorFLP : Type := mkFlowCollectorFLP {
  FlowCollectorFLP_scalars : scalars TFlowCollectorFLP;
  FlowCollectorFLP_Metrics : FLPMetrics;
  FlowCollectorFLP_Resources : ResourceRequirements;
  FlowCollectorFLP_KafkaConsumerAutoscaler : FlowCollectorHPA;
  FlowCollectorFLP_Env : option (gmap string string)
}.

#[export] Instance FlowCollectorFLP_zero : Zero FlowCollectorFLP :=
  mkFlowCollectorFLP zero zero zero zero zero.

Definition set_FlowCollectorFLP_Metrics (v : FLPMetrics)
    (x : FlowCollectorFLP) : FlowCollectorFLP :=
  mkFlowCollectorFLP
    (FlowCollectorFLP_scalars x) v (FlowCollectorFLP_Resources x)
    (FlowCollectorFLP_KafkaConsumerAutoscaler x) (FlowCollectorFLP_Env x).
Definition set_FlowCollectorFLP_Resources (v : ResourceRequirements)
    (x : FlowCollectorFLP) : FlowCollectorFLP :=
  mkFlowCollectorFLP
    (FlowCollectorFLP_scalars x) (FlowCollectorFLP_Metrics x) v
    (FlowCollectorFLP_KafkaConsumerAutoscaler x) (FlowCollectorFLP_Env x).
Definition set_FlowCollectorFLP_KafkaConsumerAutoscaler (v : FlowCollectorHPA)
    (x : FlowCollectorFLP) : FlowCollectorFLP :=
  mkFlowCollectorFLP
    (FlowCollectorFLP_scalars x) (FlowCollectorFLP_Metrics x)
    (FlowCollectorFLP_Resources x) v (FlowCollectorFLP_Env x).
Definition set_FlowCollectorFLP_Env (v : option (gmap string string))
    (x : FlowCollectorFLP) : FlowCollectorFLP :=
  mkFlowCollectorFLP
    (FlowCollectorFLP_scalars x) (FlowCollectorFLP_Metrics x)
    (FlowCollectorFLP_Resources x)
    (FlowCollectorFLP_KafkaConsumerAutoscaler x) v.

(** [func (in *FlowCollectorFLP) DeepCopyInto(out *FlowCollectorFLP)] *)
#[export] Instance FlowCollectorFLP_DeepCopyInto : DeepCopyable FlowCollectorFLP :=
  fun in_ out =>
    let out := in_ in
    let out :=
      set_FlowCollectorFLP_Metrics
        (DeepCopyInto
           (FlowCollectorFLP_Metrics in_)
           (FlowCollectorFLP_Metrics out)) out in
    let out :=
      set_FlowCollectorFLP_Resources
        (DeepCopyInto
           (FlowCollectorFLP_Resources in_)
           (FlowCollectorFLP_Resources out)) out in
    let out :=
      set_FlowCollectorFLP_KafkaConsumerAutoscaler
        (DeepCopyInto
           (FlowCollectorFLP_KafkaConsumerAutoscaler in_)
           (FlowCollectorFLP_KafkaConsumerAutoscaler out)) out in
    let out :=
      match FlowCollectorFLP_Env in_ with
      | Some m => set_FlowCollectorFLP_Env (Some (range_map m (make_map (size m)))) out
      | None => out
      end in
    out.

Record FlowCollectorLoki : Type := mkFlowCollectorLoki {
  FlowCollectorLoki_scalars : scalars TFlowCollectorLoki;
  FlowCollectorLoki_BatchWait : MetaDuration;
  FlowCollectorLoki_Timeout : MetaDuration;
  FlowCollectorLoki_MinBackoff : MetaDuration;
  FlowCollectorLoki_MaxBackoff : MetaDuration;
  FlowCollectorLoki_StaticLabels : option (gmap string string);
  FlowCollectorLoki_TLS : ClientTLS
}.

#[export] Instance FlowCollectorLoki_zero : Zero FlowCollectorLoki :=
  mkFlowCollectorLoki zero zero zero zero zero zero zero.

Definition set_FlowCollectorLoki_BatchWait (v : MetaDuration)
    (x : FlowCollectorLoki) : FlowCollectorLoki :=
  mkFlowCollectorLoki
    (FlowCollectorLoki_scalars x) v (FlowCollectorLoki_Timeout x)
    (FlowCollectorLoki_MinBackoff x) (FlowCollectorLoki_MaxBackoff x)
    (FlowCollectorLoki_StaticLabels x) (FlowCollectorLoki_TLS x).
Definition set_FlowCollectorLoki_Timeout (v : MetaDuration)
    (x : FlowCollectorLoki) : FlowCollectorLoki :=
  mkFlowCollectorLoki
    (FlowCollectorLoki_scalars x) (FlowCollectorLoki_BatchWait x) v
    (FlowCollectorLoki_MinBackoff x) (FlowCollectorLoki_MaxBackoff x)
    (FlowCollectorLoki_StaticLabels x) (FlowCollectorLoki_TLS x).
Definition set_FlowCollectorLoki_MinBackoff (v : MetaDuration)
    (x : FlowCollectorLoki) : FlowCollectorLoki :=
  mkFlowCollectorLoki
    (FlowCollectorLoki_scalars x) (FlowCollectorLoki_BatchWait x)
    (FlowCollectorLoki_Timeout x) v (FlowCollectorLoki_MaxBackoff x)
    (FlowCollectorLoki_StaticLabels x) (FlowCollectorLoki_TLS x).
Definition set_FlowCollectorLoki_MaxBackoff (v : MetaDuration)
    (x : FlowCollectorLoki) : FlowCollectorLoki :=
  mkFlowCollectorLoki
    (FlowCollectorLoki_scalars x) (FlowCollectorLoki_BatchWait x)
    (FlowCollectorLoki_Timeout x) (FlowCollectorLoki_MinBackoff x) v
    (FlowCollectorLoki_StaticLabels x) (FlowCollectorLoki_TLS x).
Definition set_FlowCollectorLoki_StaticLabels (v : option (gmap string string))
    (x : FlowCollectorLoki) : FlowCollectorLoki :=
  mkFlowCollectorLoki
    (FlowCollectorLoki_scalars x) (FlowCollectorLoki_BatchWait x)
    (FlowCollectorLoki_Timeout x) (FlowCollectorLoki_MinBackoff x)
    (FlowCollectorLoki_MaxBackoff x) v (FlowCollectorLoki_TLS x).
Definition set_FlowCollectorLoki_TLS (v : ClientTLS)
    (x : FlowCollectorLoki) : FlowCollectorLoki :=
  mkFlowCollectorLoki
    (FlowCollectorLoki_scalars x) (FlowCollectorLoki_BatchWait x)
    (FlowCollectorLoki_Timeout x) (FlowCollectorLoki_MinBackoff x)
    (FlowCollectorLoki_MaxBackoff x) (FlowCollectorLoki_StaticLabels x) v.

(** [func (in *FlowCollectorLoki) DeepCopyInto(out *FlowCollectorLoki)] *)
#[export] Instance FlowCollectorLoki_DeepCopyInto : DeepCopyable FlowCollectorLoki :=
  fun in_ out =>
    let out := in_ in
    let out := set_FlowCollectorLoki_BatchWait (FlowCollectorLoki_BatchWait in_) out in
    let out := set_FlowCollectorLoki_Timeout (FlowCollectorLoki_Timeout in_) out in
    let out := set_FlowCollectorLoki_MinBackoff (FlowCollectorLoki_MinBackoff in_) out in
    let out := set_FlowCollectorLoki_MaxBackoff (FlowCollectorLoki_MaxBackoff in_) out in
    let out :=
      match FlowCollectorLoki_StaticLabels in_ with
      | Some m =>
          set_FlowCollectorLoki_StaticLabels
            (Some (range_map m (make_map (size m)))) out
      | None => out
      end in
    let out := set_FlowCollectorLoki_TLS (FlowCollectorLoki_TLS in_) out in
    out.

Record FlowCollectorConsolePlugin : Type := mkFlowCollectorConsolePlugin {
  FlowCollectorConsolePlugin_scalars : scalars TFlowCollectorConsolePlugin;
  FlowCollectorConsolePlugin_Resources : ResourceRequirements;
  FlowCollectorConsolePlugin_Autoscaler : FlowCollectorHPA;
  FlowCollectorConsolePlugin_PortNaming : ConsolePluginPortConfig;
  FlowCollectorConsolePlugin_QuickFilters : option (list QuickFilter)
}.

#[export] Instance FlowCollectorConsolePlugin_zero : Zero FlowCollectorConsolePlugin :=
  mkFlowCollectorConsolePlugin zero zero zero zero zero.

Definition set_FlowCollectorConsolePlugin_Resources (v : ResourceRequirements)
    (x : FlowCollectorConsolePlugin) : FlowCollectorConsolePlugin :=
  mkFlowCollectorConsolePlugin
    (FlowCollectorConsolePlugin_scalars x) v
    (FlowCollectorConsolePlugin_Autoscaler x)
    (FlowCollectorConsolePlugin_PortNaming x)
    (FlowCollectorConsolePlugin_QuickFilters x).
Definition set_FlowCollectorConsolePlugin_Autoscaler (v : FlowCollectorHPA)
    (x : FlowCollectorConsolePlugin) : FlowCollectorConsolePlugin :=
  mkFlowCollectorConsolePlugin
    (FlowCollectorConsolePlugin_scalars x)
    (FlowCollectorConsolePlugin_Resources x) v
    (FlowCollectorConsolePlugin_PortNaming x)
    (FlowCollectorConsolePlugin_QuickFilters x).
Definition set_FlowCollectorConsolePlugin_PortNaming (v : ConsolePluginPortConfig)
    (x : FlowCollectorConsolePlugin) : FlowCollectorConsolePlugin :=
  mkFlowCollectorConsolePlugin
    (FlowCollectorConsolePlugin_scalars x)
    (FlowCollectorConsolePlugin_Resources x)
    (FlowCollectorConsolePlugin_Autoscaler x) v
    (FlowCollectorConsolePlugin_QuickFilters x).
Definition set_FlowCollectorConsolePlugin_QuickFilters (v : option (list QuickFilter))
    (x : FlowCollectorConsolePlugin) : FlowCollectorConsolePlugin :=
  mkFlowCollectorConsolePlugin
    (FlowCollectorConsolePlugin_scalars x)
    (FlowCollectorConsolePlugin_Resources x)
    (FlowCollectorConsolePlugin_Autoscaler x)
    (FlowCollectorConsolePlugin_PortNaming x) v.

(** [func (in *FlowCollectorConsolePlugin) DeepCopyInto(out *FlowCollectorConsolePlugin)] *)
#[export] Instance FlowCollectorConsolePlugin_DeepCopyInto
  : DeepCopyable FlowCollectorConsolePlugin :=
  fun in_ out =>
    let out := in_ in
    let out :=
      set_FlowCollectorConsolePlugin_Resources
        (DeepCopyInto
           (FlowCollectorConsolePlugin_Resources in_)
           (FlowCollectorConsolePlugin_Resources out)) out in
    let out :=
      set_FlowCollectorConsolePlugin_Autoscaler
        (DeepCopyInto
           (FlowCollectorConsolePlugin_Autoscaler in_)
           (FlowCollectorConsolePlugin_Autoscaler out)) out in
    let out :=
      set_FlowCollectorConsolePlugin_PortNaming
        (DeepCopyInto
           (FlowCollectorConsolePlugin_PortNaming in_)
           (FlowCollectorConsolePlugin_PortNaming out)) out in
    let out :=
      match FlowCollectorConsolePlugin_QuickFilters in_ with
      | Some s =>
          set_FlowCollectorConsolePlugin_QuickFilters
            (Some (range_elems DeepCopyInto s (make_slice (length s)))) out
      | None => out
      end in
    out.

Record FlowCollectorSpec : Type := mkFlowCollectorSpec {
  FlowCollectorSpec_scalars : scalars TFlowCollectorSpec;
  FlowCollectorSpec_Agent : FlowCollectorAgent;
  FlowCollectorSpec_Processor : FlowCollectorFLP;
  FlowCollectorSpec_Loki : FlowCollectorLoki;
  FlowCollectorSpec_ConsolePlugin : FlowCollectorConsolePlugin;
  FlowCollectorSpec_Kafka : FlowCollectorKafka;
  FlowCollectorSpec_Exporters : option (list (option FlowCollectorExporter))
}.

#[export] Instance FlowCollectorSpec_zero : Zero FlowCollectorSpec :=
  mkFlowCollectorSpec zero zero zero zero zero zero zero.

Definition set_FlowCollectorSpec_Agent (v : FlowCollectorAgent)
    (x : FlowCollectorSpec) : FlowCollectorSpec :=
  mkFlowCollectorSpec
    (FlowCollectorSpec_scalars x) v (FlowCollectorSpec_Processor x)
    (FlowCollectorSpec_Loki x) (FlowCollectorSpec_ConsolePlugin x)
    (FlowCollectorSpec_Kafka x) (FlowCollectorSpec_Exporters x).
Definition set_FlowCollectorSpec_Processor (v : FlowCollectorFLP)
    (x : FlowCollectorSpec) : FlowCollectorSpec :=
  mkFlowCollectorSpec
    (FlowCollectorSpec_scalars x) (FlowCollectorSpec_Agent x) v
    (FlowCollectorSpec_Loki x) (FlowCollectorSpec_ConsolePlugin x)
    (FlowCollectorSpec_Kafka x) (FlowCollectorSpec_Exporters x).
Definition set_FlowCollectorSpec_Loki (v : FlowCollectorLoki)
    (x : FlowCollectorSpec) : FlowCollectorSpec :=
  mkFlowCollectorSpec
    (FlowCollectorSpec_scalars x) (FlowCollectorSpec_Agent x)
    (FlowCollectorSpec_Processor x) v (FlowCollectorSpec_ConsolePlugin x)
    (FlowCollectorSpec_Kafka x) (FlowCollectorSpec_Exporters x).
Definition set_FlowCollectorSpec_ConsolePlugin (v : FlowCollectorConsolePlugin)
    (x : FlowCollectorSpec) : FlowCollectorSpec :=
  mkFlowCollectorSpec
    (FlowCollectorSpec_scalars x) (FlowCollectorSpec_Agent x)
    (FlowCollectorSpec_Processor x) (FlowCollectorSpec_Loki x) v
    (FlowCollectorSpec_Kafka x) (FlowCollectorSpec_Exporters x).
Definition set_FlowCollectorSpec_Kafka (v : FlowCollectorKafka)
    (x : FlowCollectorSpec) : FlowCollectorSpec :=
  mkFlowCollectorSpec
    (FlowCollectorSpec_scalars x) (FlowCollectorSpec_Agent x)
    (FlowCollectorSpec_Processor x) (FlowCollectorSpec_Loki x)
    (FlowCollectorSpec_ConsolePlugin x) v (FlowCollectorSpec_Exporters x).
Definition set_FlowCollectorSpec_Exporters (v : option (list (option FlowCollectorExporter)))
    (x : FlowCollectorSpec) : FlowCollectorSpec :=
  mkFlowCollectorSpec
    (FlowCollectorSpec_scalars x) (FlowCollectorSpec_Agent x)
    (FlowCollectorSpec_Processor x) (FlowCollectorSpec_Loki x)
    (FlowCollectorSpec_ConsolePlugin x) (FlowCollectorSpec_Kafka x) v.

(** [func (in *FlowCollectorSpec) DeepCopyInto(out *FlowCollectorSpec)] *)
#[export] Instance FlowCollectorSpec_DeepCopyInto : DeepCopyable FlowCollectorSpec :=
  fun in_ out =>
    let out := in_ in
    let out :=
      set_FlowCollectorSpec_Agent
        (DeepCopyInto (FlowCollectorSpec_Agent in_) (FlowCollectorSpec_Agent out)) out in
    let out :=
      set_FlowCollectorSpec_Processor
        (DeepCopyInto
           (FlowCollectorSpec_Processor in_)
           (FlowCollectorSpec_Processor out)) out in
    let out :=
      set_FlowCollectorSpec_Loki
        (DeepCopyInto (FlowCollectorSpec_Loki in_) (FlowCollectorSpec_Loki out)) out in
    let out :=
      set_FlowCollectorSpec_ConsolePlugin
        (DeepCopyInto
           (FlowCollectorSpec_ConsolePlugin in_)
           (FlowCollectorSpec_ConsolePlugin out)) out in
    let out := set_FlowCollectorSpec_Kafka (FlowCollectorSpec_Kafka in_) out in
    let out :=
      match FlowCollectorSpec_Exporters in_ with
      | Some s =>
          set_FlowCollectorSpec_Exporters
            (Some (range_elems
                     (fun in_i out_i : option FlowCollectorExporter =>
                        match in_i with
                        | Some v => Some (assign v new)
                        | None => out_i
                        end)
                     s (make_slice (length s)))) out
      | None => out
      end in
    out.

Record FlowCollectorStatus : Type := mkFlowCollectorStatus {
  FlowCollectorStatus_scalars : scalars TFlowCollectorStatus;
  FlowCollectorStatus_Conditions : option (list Condition)
}.

#[export] Instance FlowCollectorStatus_zero : Zero FlowCollectorStatus :=
  mkFlowCollectorStatus zero zero.

Definition set_FlowCollectorStatus_Conditions (v : option (list Condition))
    (x : FlowCollectorStatus) : FlowCollectorStatus :=
  mkFlowCollectorStatus (FlowCollectorStatus_scalars x) v.

(** [func (in *FlowCollectorStatus) DeepCopyInto(out *FlowCollectorStatus)] *)
#[export] Instance FlowCollectorStatus_DeepCopyInto : DeepCopyable FlowCollectorStatus :=
  fun in_ out =>
    let out := in_ in
    let out :=
      match FlowCollectorStatus_Conditions in_ with
      | Some s =>
          set_FlowCollectorStatus_Conditions
            (Some (range_elems DeepCopyInto s (make_slice (length s)))) out
      | None => out
      end in
    out.

Record FlowCollector : Type := mkFlowCollector {
  FlowCollector_scalars : scalars TFlowCollector;
  FlowCollector_TypeMeta : TypeMeta;
  FlowCollector_ObjectMeta : ObjectMeta;
  FlowCollector_Spec : FlowCollectorSpec;
  FlowCollector_Status : FlowCollectorStatus
}.

#[export] Instance FlowCollector_zero : Zero FlowCollector :=
  mkFlowCollector zero zero zero zero zero.

Definition set_FlowCollector_TypeMeta (v : TypeMeta)
    (x : FlowCollector) : FlowCollector :=
  mkFlowCollector
    (FlowCollector_scalars x) v (FlowCollector_ObjectMeta x)
    (FlowCollector_Spec x) (FlowCollector_Status x).
Definition set_FlowCollector_ObjectMeta (v : ObjectMeta)
    (x : FlowCollector) : FlowCollector :=
  mkFlowCollector
    (FlowCollector_scalars x) (FlowCollector_TypeMeta x) v
    (FlowCollector_Spec x) (FlowCollector_Status x).
Definition set_FlowCollector_Spec (v : FlowCollectorSpec)
    (x : FlowCollector) : FlowCollector :=
  mkFlowCollector
    (FlowCollector_scalars x) (FlowCollector_TypeMeta x)
    (FlowCollector_ObjectMeta x) v (FlowCollector_Status x).
Definition set_FlowCollector_Status (v : FlowCollectorStatus)
    (x : FlowCollector) : FlowCollector :=
  mkFlowCollector
    (FlowCollector_scalars x) (FlowCollector_TypeMeta x)
    (FlowCollector_ObjectMeta x) (FlowCollector_Spec x) v.

(** [func (in *FlowCollector) DeepCopyInto(out *FlowCollector)] *)
#[export] Instance FlowCollector_DeepCopyInto : DeepCopyable FlowCollector :=
  fun in_ out =>
    let out := in_ in
    let out := set_FlowCollector_TypeMeta (FlowCollector_TypeMeta in_) out in
    let out :=
      set_FlowCollector_ObjectMeta
        (DeepCopyInto
           (FlowCollector_ObjectMeta in_)
           (FlowCollector_ObjectMeta out)) out in
    let out :=
      set_FlowCollector_Spec
        (DeepCopyInto (FlowCollector_Spec in_) (FlowCollector_Spec out)) out in
    let out :=
      set_FlowCollector_Status
        (DeepCopyInto (FlowCollector_Status in_) (FlowCollector_Status out)) out in
    out.

Record FlowCollectorList : Type := mkFlowCollectorList {
  FlowCollectorList_scalars : scalars TFlowCollectorList;
  FlowCollectorList_TypeMeta : TypeMeta;
  FlowCollectorList_ListMeta : ListMeta;
  FlowCollectorList_Items : option (list FlowCollector)
}.

#[export] Instance FlowCollectorList_zero : Zero FlowCollectorList :=
  mkFlowCollectorList zero zero zero zero.

Definition set_FlowCollectorList_TypeMeta (v : TypeMeta)
    (x : FlowCollectorList) : FlowCollectorList :=
  mkFlowCollectorList
    (FlowCollectorList_scalars x) v (FlowCollectorList_ListMeta x)
    (FlowCollectorList_Items x).
Definition set_FlowCollectorList_ListMeta (v : ListMeta)
    (x : FlowCollectorList) : FlowCollectorList :=
  mkFlowCollectorList
    (FlowCollectorList_scalars x) (FlowCollectorList_TypeMeta x) v
    (FlowCollectorList_Items x).
Definition set_FlowCollectorList_Items (v : option (list FlowCollector))
    (x : FlowCollectorList) : FlowCollectorList :=
  mkFlowCollectorList
    (FlowCollectorList_scalars x) (FlowCollectorList_TypeMeta x)
    (FlowCollectorList_ListMeta x) v.

(** [func (in *FlowCollectorList) DeepCopyInto(out *FlowCollectorList)] *)
#[export] Instance FlowCollectorList_DeepCopyInto : DeepCopyable FlowCollectorList :=
  fun in_ out =>
    let out := in_ in
    let out := set_FlowCollectorList_TypeMeta (FlowCollectorList_TypeMeta in_) out in
    let out :=
      set_FlowCollectorList_ListMeta
        (DeepCopyInto
           (FlowCollectorList_ListMeta in_)
           (FlowCollectorList_ListMeta out)) out in
    let out :=
      match FlowCollectorList_Items in_ with
      | Some s =>
          set_FlowCollectorList_Items
            (Some (range_elems DeepCopyInto s (make_slice (length s)))) out
      | None => out
      end in
    out.

(** The struct type behind each name. *)
Definition api_type (t : ApiType) : Type :=
  match t with
  | TCertificateReference => CertificateReference
  | TClientTLS => ClientTLS
  | TClusterNetworkOperatorConfig => ClusterNetworkOperatorConfig
  | TOVNKubernetesConfig => OVNKubernetesConfig
  | TConsolePluginPortConfig => ConsolePluginPortConfig
  | TServerTLS => ServerTLS
  | TMetricsServerConfig => MetricsServerConfig
  | TFLPMetrics => FLPMetrics
  | TQuickFilter => QuickFilter
  | TFlowCollectorHPA => FlowCollectorHPA
  | TFlowCollectorIPFIX => FlowCollectorIPFIX
  | TFlowCollectorEBPF => FlowCollectorEBPF
  | TFlowCollectorAgent => FlowCollectorAgent
  | TFlowCollectorKafka => FlowCollectorKafka
  | TFlowCollectorExporter => FlowCollectorExporter
  | TFlowCollectorFLP => FlowCollectorFLP
  | TFlowCollectorLoki => FlowCollectorLoki
  | TFlowCollectorConsolePlugin => FlowCollectorConsolePlugin
  | TFlowCollectorSpec => FlowCollectorSpec
  | TFlowCollectorStatus => FlowCollectorStatus
  | TFlowCollector => FlowCollector
  | TFlowCollectorList => FlowCollectorList
  end.

#[export] Instance api_type_zero (t : ApiType) : Zero (api_type t) :=
  match t with
  | TCertificateReference => CertificateReference_zero
  | TClientTLS => ClientTLS_zero
  | TClusterNetworkOperatorConfig => ClusterNetworkOperatorConfig_zero
  | TOVNKubernetesConfig => OVNKubernetesConfig_zero
  | TConsolePluginPortConfig => ConsolePluginPortConfig_zero
  | TServerTLS => ServerTLS_zero
  | TMetricsServerConfig => MetricsServerConfig_zero
  | TFLPMetrics => FLPMetrics_zero
  | TQuickFilter => QuickFilter_zero
  | TFlowCollectorHPA => FlowCollectorHPA_zero
  | TFlowCollectorIPFIX => FlowCollectorIPFIX_zero
  | TFlowCollectorEBPF => FlowCollectorEBPF_zero
  | TFlowCollectorAgent => FlowCollectorAgent_zero
  | TFlowCollectorKafka => FlowCollectorKafka_zero
  | TFlowCollectorExporter => FlowCollectorExporter_zero
  | TFlowCollectorFLP => FlowCollectorFLP_zero
  | TFlowCollectorLoki => FlowCollectorLoki_zero
  | TFlowCollectorConsolePlugin => FlowCollectorConsolePlugin_zero
  | TFlowCollectorSpec => FlowCollectorSpec_zero
  | TFlowCollectorStatus => FlowCollectorStatus_zero
  | TFlowCollector => FlowCollector_zero
  | TFlowCollectorList => FlowCollectorList_zero
  end.

#[export] Instance api_type_DeepCopyInto (t : ApiType) : DeepCopyable (api_type t) :=
  match t with
  | TCertificateReference => CertificateReference_DeepCopyInto
  | TClientTLS => ClientTLS_DeepCopyInto
  | TClusterNetworkOperatorConfig => ClusterNetworkOperatorConfig_DeepCopyInto
  | TOVNKubernetesConfig => OVNKubernetesConfig_DeepCopyInto
  | TConsolePluginPortConfig => ConsolePluginPortConfig_DeepCopyInto
  | TServerTLS => ServerTLS_DeepCopyInto
  | TMetricsServerConfig => MetricsServerConfig_DeepCopyInto
  | TFLPMetrics => FLPMetrics_DeepCopyInto
  | TQuickFilter => QuickFilter_DeepCopyInto
  | TFlowCollectorHPA => FlowCollectorHPA_DeepCopyInto
  | TFlowCollectorIPFIX => FlowCollectorIPFIX_DeepCopyInto
  | TFlowCollectorEBPF => FlowCollectorEBPF_DeepCopyInto
  | TFlowCollectorAgent => FlowCollectorAgent_DeepCopyInto
  | TFlowCollectorKafka => FlowCollectorKafka_DeepCopyInto
  | TFlowCollectorExporter => FlowCollectorExporter_DeepCopyInto
  | TFlowCollectorFLP => FlowCollectorFLP_DeepCopyInto
  | TFlowCollectorLoki => FlowCollectorLoki_DeepCopyInto
  | TFlowCollectorConsolePlugin => FlowCollectorConsolePlugin_DeepCopyInto
  | TFlowCollectorSpec => FlowCollectorSpec_DeepCopyInto
  | TFlowCollectorStatus => FlowCollectorStatus_DeepCopyInto
  | TFlowCollector => FlowCollector_DeepCopyInto
  | TFlowCollectorList => FlowCollectorList_DeepCopyInto
  end.

End structs.

(** *** [DeepCopy] and [DeepCopyObject]

    The receiver and the result of [DeepCopy] are pointers, and the result
    is a new one: the cells they point to live in a heap of structs of the
    type, [new] takes an address the heap does not hold yet. *)

Definition loc : Type := positive.

Section methods.
Context {T : Type} `{Zero T, DeepCopyable T}.

(** [new(T)], as an address. *)
Definition alloc (h : gmap loc T) : loc * gmap loc T :=
  (fresh (dom h), <[fresh (dom h) := zero]> h).

(** [func (in *T) DeepCopy() *T].  A pointer of a running program is nil or
    the address of a cell; for an address outside the heap there is no
    result. *)
Definition DeepCopy (in_ : option loc) (h : gmap loc T)
    : option (option loc * gmap loc T) :=
  match in_ with
  | None => Some (None, h)
  | Some i =>
      let '(o, h) := alloc h in
      x ← h !! i;
      y ← h !! o;
      Some (Some o, <[o := DeepCopyInto x y]> h)
  end.

End methods.

(** A [runtime.Object]: the nil interface, or a pointer of one of the two
    types that implement it here.  A nil pointer wrapped in the interface is
    not the nil interface. *)
Inductive Object : Type :=
| nil_Object
| FlowCollector_Object (p : option loc)
| FlowCollectorList_Object (p : option loc).

Section objects.
Context `{External}.

(** [func (in *FlowCollector) DeepCopyObject() runtime.Object] *)
Definition FlowCollector_DeepCopyObject (in_ : option loc)
    (h : gmap loc FlowCollector) : option (Object * gmap loc FlowCollector) :=
  '(c, h) ← DeepCopy in_ h;
  match c with
  | Some _ => Some (FlowCollector_Object c, h)
  | None => Some (nil_Object, h)
  end.

(** [func (in *FlowCollectorList) DeepCopyObject() runtime.Object] *)
Definition FlowCollectorList_DeepCopyObject (in_ : option loc)
    (h : gmap loc FlowCollectorList)
    : option (Object * gmap loc FlowCollectorList) :=
  '(c, h) ← DeepCopy in_ h;
  match c with
  | Some _ => Some (FlowCollectorList_Object c, h)
  | None => Some (nil_Object, h)
  end.

End objects.

(** An instance for examples: one integer of scalars per struct, strings
    for the library types, whose methods copy by assignment. *)
Definition sample_External : External := {|
  scalars := fun _ => Z;
  scalars_zero := fun _ => 0;
  TypeMeta := string;
  TypeMeta_zero := ""%string;
  MetaDuration := Z;
  MetaDuration_zero := 0;
  ObjectMeta := string;
  ObjectMeta_zero := ""%string;
  ObjectMeta_DeepCopyInto := fun in_ out => in_;
  ListMeta := string;
  ListMeta_zero := ""%string;
  ListMeta_DeepCopyInto := fun in_ out => in_;
  Condition := string;
  Condition_zero := ""%string;
  Condition_DeepCopyInto := fun in_ out => in_;
  MetricSpec := string;
  MetricSpec_zero := ""%string;
  MetricSpec_DeepCopyInto := fun in_ out => in_;
  ResourceRequirements := Z;
  ResourceRequirements_zero := 0;
  ResourceRequirements_DeepCopyInto := fun in_ out => in_
|}.

End v1alpha1.

(** ** Package [v1alpha1], with the references kept

    The model above reads what is behind a pointer, a slice or a map by
    value, and so cannot say whether a copy shares memory with its receiver.
    Here five of the structs are modelled again with their references as
    addresses into a memory: the structs whose fields need no type of the
    Kubernetes libraries.  The methods run in that memory, and have no
    result where Go would dereference an address that holds nothing. *)

Module v1alpha1_refs.
Import v1alpha1.

Section memory.
Context `{External}.

(** A slice of strings: the backing array, where the slice starts in it,
    its length and its capacity.  The nil slice is [None]. *)
Record Slice : Type := mkSlice {
  array : loc;
  offset : nat;
  len : nat;
  cap : nat
}.

(** The cells behind [*CertificateReference], the backing arrays of
    [[]string], and the maps [map[string]string]. *)
Record Memory : Type := mkMemory {
  cells : gmap loc v1alpha1.CertificateReference;
  arrays : gmap loc (list string);
  tables : gmap loc (gmap string string)
}.

Definition set_cells (c : gmap loc v1alpha1.CertificateReference)
    (m : Memory) : Memory :=
  mkMemory c (arrays m) (tables m).
Definition set_arrays (a : gmap loc (list string)) (m : Memory) : Memory :=
  mkMemory (cells m) a (tables m).
Definition set_tables (t : gmap loc (gmap string string))
    (m : Memory) : Memory :=
  mkMemory (cells m) (arrays m) t.

(** [new(CertificateReference)] *)
Definition new_cell (m : Memory) : loc * Memory :=
  (fresh (dom (cells m)),
   set_cells (<[fresh (dom (cells m)) := zero]> (cells m)) m).

(** [*p = v], for a pointer [p] that is not nil. *)
Definition store_cell (p : loc) (v : v1alpha1.CertificateReference)
    (m : Memory) : option Memory :=
  _ ← cells m !! p;
  Some (set_cells (<[p := v]> (cells m)) m).

(** [make([]string, n)]: a new backing array of [n] empty strings, and the
    slice that is all of it. *)
Definition make_strings (n : nat) (m : Memory) : Slice * Memory :=
  (mkSlice (fresh (dom (arrays m))) 0 n n,
   set_arrays (<[fresh (dom (arrays m)) := replicate n ""%string]> (arrays m)) m).

(** The strings a slice holds, [s[0]] to [s[len(s)-1]]. *)
Definition elements (s : Slice) (m : Memory) : option (list string) :=
  arr ← arrays m !! array s;
  if decide (offset s + len s <= length arr)%nat
  then Some (take (len s) (drop (offset s) arr))
  else None.

(** [copy(dst, src)]: [dst[i] = src[i]] for [i] below the lesser length. *)
Definition copy_strings (dst src : Slice) (m : Memory) : option Memory :=
  xs ← elements src m;
  arr ← arrays m !! array dst;
  if decide (offset dst + len dst <= length arr)%nat
  then Some (set_arrays
               (<[array dst :=
                    list_inserts (offset dst)
                      (take (Nat.min (len dst) (len src)) xs) arr]>
                  (arrays m)) m)
  else None.

(** [s[i] = x], for an index below the length of the slice. *)
Definition store_string (s : Slice) (i : nat) (x : string)
    (m : Memory) : option Memory :=
  arr ← arrays m !! array s;
  if decide (i < len s /\ offset s + len s <= length arr)%nat
  then Some (set_arrays
               (<[array s := <[(offset s + i)%nat := x]> arr]> (arrays m)) m)
  else None.

(** [make(map[string]string, n)] *)
Definition make_table (n : nat) (m : Memory) : loc * Memory :=
  (fresh (dom (tables m)),
   set_tables (<[fresh (dom (tables m)) := ∅]> (tables m)) m).

(** [t[key] = val], for a map [t] that is not nil. *)
Definition table_store (t : loc) (key val : string)
    (m : Memory) : option Memory :=
  old ← tables m !! t;
  Some (set_tables (<[t := <[key := val]> old]> (tables m)) m).

(** [for key, val := range src { body }], over the bindings [src] had when
    the loop began. *)
Definition range_table (src : gmap string string)
    (body : string -> string -> Memory -> option Memory)
    (m : Memory) : option Memory :=
  map_fold (fun key val acc => acc ≫= body key val) (Some m) src.

(** *** The structs *)

Record ServerTLS : Type := mkServerTLS {
  ServerTLS_scalars : scalars TServerTLS;
  ServerTLS_Provided : option loc
}.

Record MetricsServerConfig : Type := mkMetricsServerConfig {
  MetricsServerConfig_scalars : scalars TMetricsServerConfig;
  MetricsServerConfig_TLS : ServerTLS
}.

Record FLPMetrics : Type := mkFLPMetrics {
  FLPMetrics_scalars : scalars TFLPMetrics;
  FLPMetrics_Server : MetricsServerConfig;
  FLPMetrics_IgnoreTags : option Slice
}.

Record QuickFilter : Type := mkQuickFilter {
  QuickFilter_scalars : scalars TQuickFilter;
  QuickFilter_Filter : option loc
}.

Record ConsolePluginPortConfig : Type := mkConsolePluginPortConfig {
  ConsolePluginPortConfig_scalars : scalars TConsolePluginPortConfig;
  ConsolePluginPortConfig_PortNames : option loc
}.

(** [func (in *ServerTLS) DeepCopyInto(out *ServerTLS)] *)
Definition ServerTLS_DeepCopyInto (in_ out : ServerTLS) (m : Memory)
    : option (ServerTLS * Memory) :=
  let out := in_ in
  match ServerTLS_Provided in_ with
  | Some in_p =>
      let '(out_p, m) := new_cell m in
      let out := mkServerTLS (ServerTLS_scalars out) (Some out_p) in
      v ← cells m !! in_p;
      m ← store_cell out_p v m;
      Some (out, m)
  | None => Some (out, m)
  end.

(** [func (in *MetricsServerConfig) DeepCopyInto(out *MetricsServerConfig)] *)
Definition MetricsServerConfig_DeepCopyInto (in_ out : MetricsServerConfig)
    (m : Memory) : option (MetricsServerConfig * Memory) :=
  let out := in_ in
  '(tls, m) ← ServerTLS_DeepCopyInto (MetricsServerConfig_TLS in_)
                (MetricsServerConfig_TLS out) m;
  let out := mkMetricsServerConfig (MetricsServerConfig_scalars out) tls in
  Some (out, m).

(** [func (in *FLPMetrics) DeepCopyInto(out *FLPMetrics)] *)
Definition FLPMetrics_DeepCopyInto (in_ out : FLPMetrics) (m : Memory)
    : option (FLPMetrics * Memory) :=
  let out := in_ in
  '(server, m) ← MetricsServerConfig_DeepCopyInto (FLPMetrics_Server in_)
                   (FLPMetrics_Server out) m;
  let out := mkFLPMetrics (FLPMetrics_scalars out) server
               (FLPMetrics_IgnoreTags out) in
  match FLPMetrics_IgnoreTags in_ with
  | Some in_s =>
      let '(out_s, m) := make_strings (len in_s) m in
      let out := mkFLPMetrics (FLPMetrics_scalars out) (FLPMetrics_Server out)
                   (Some out_s) in
      m ← copy_strings out_s in_s m;
      Some (out, m)
  | None => Some (out, m)
  end.

(** [func (in *QuickFilter) DeepCopyInto(out *QuickFilter)] *)
Definition QuickFilter_DeepCopyInto (in_ out : QuickFilter) (m : Memory)
    : option (QuickFilter * Memory) :=
  let out := in_ in
  match QuickFilter_Filter in_ with
  | Some in_t =>
      src ← tables m !! in_t;
      let '(out_t, m) := make_table (size src) m in
      let out := mkQuickFilter (QuickFilter_scalars out) (Some out_t) in
      m ← range_table src (fun key val => table_store out_t key val) m;
      Some (out, m)
  | None => Some (out, m)
  end.

(** [func (in *ConsolePluginPortConfig) DeepCopyInto(out *ConsolePluginPortConfig)] *)
Definition ConsolePluginPortConfig_DeepCopyInto
    (in_ out : ConsolePluginPortConfig) (m : Memory)
    : option (ConsolePluginPortConfig * Memory) :=
  let out := in_ in
  match ConsolePluginPortConfig_PortNames in_ with
  | Some in_t =>
      src ← tables m !! in_t;
      let '(out_t, m) := make_table (size src) m in
      let out := mkConsolePluginPortConfig
                   (ConsolePluginPortConfig_scalars out) (Some out_t) in
      m ← range_table src (fun key val => table_store out_t key val) m;
      Some (out, m)
  | None => Some (out, m)
  end.

(** *** What a struct holds, read through its references

    The struct of the by-value model that a struct with references stands
    for in a memory; there is none when a reference holds nothing. *)

Definition read_ServerTLS (m : Memory) (x : ServerTLS)
    : option v1alpha1.ServerTLS :=
  match ServerTLS_Provided x with
  | Some p =>
      c ← cells m !! p;
      Some (v1alpha1.mkServerTLS (ServerTLS_scalars x) (Some c))
  | None => Some (v1alpha1.mkServerTLS (ServerTLS_scalars x) None)
  end.

Definition read_MetricsServerConfig (m : Memory) (x : MetricsServerConfig)
    : option v1alpha1.MetricsServerConfig :=
  tls ← read_ServerTLS m (MetricsServerConfig_TLS x);
  Some (v1alpha1.mkMetricsServerConfig (MetricsServerConfig_scalars x) tls).

Definition read_strings (m : Memory) (s : option Slice)
    : option (option (list string)) :=
  match s with
  | Some s => xs ← elements s m; Some (Some xs)
  | None => Some None
  end.

Definition read_FLPMetrics (m : Memory) (x : FLPMetrics)
    : option v1alpha1.FLPMetrics :=
  server ← read_MetricsServerConfig m (FLPMetrics_Server x);
  tags ← read_strings m (FLPMetrics_IgnoreTags x);
  Some (v1alpha1.mkFLPMetrics (FLPMetrics_scalars x) server tags).

Definition read_table (m : Memory) (t : option loc)
    : option (option (gmap string string)) :=
  match t with
  | Some t => b ← tables m !! t; Some (Some b)
  | None => Some None
  end.

Definition read_QuickFilter (m : Memory) (x : QuickFilter)
    : option v1alpha1.QuickFilter :=
  filter ← read_table m (QuickFilter_Filter x);
  Some (v1alpha1.mkQuickFilter (QuickFilter_scalars x) filter).

Definition read_ConsolePluginPortConfig (m : Memory)
    (x : ConsolePluginPortConfig) : option v1alpha1.ConsolePluginPortConfig :=
  names ← read_table m (ConsolePluginPortConfig_PortNames x);
  Some (v1alpha1.mkConsolePluginPortConfig
          (ConsolePluginPortConfig_scalars x) names).

(** Every cell, array and map of [m] is in [m'] with the same contents:
    going from [m] to [m'] wrote to nothing that existed. *)
Definition extends (m m' : Memory) : Prop :=
  cells m ⊆ cells m' /\ arrays m ⊆ arrays m' /\ tables m ⊆ tables m'.

End memory.

(** A memory for examples, over [sample_External]: one cell, one array of
    three strings and one map, each at address 1. *)
Definition sample_memory : @Memory sample_External :=
  @mkMemory sample_External
    {[1%positive := @v1alpha1.mkCertificateReference sample_External 5]}
    {[1%positive := ["lo"; "eth0"; "br-ex"]%string]}
    {[1%positive := {["app"%string := "web"%string]}]}.

End v1alpha1_refs.

(** * Properties *)

(** ** Deprecated aliases of the target host and port *)

Section deprecated_configs.
Import agent.

Lemma string_length_zero (s : string) : String.length s = 0%nat <-> s = ""%string.
Proof. destruct s; simpl; split; intros H; congruence. Qed.

(** The host that the call resolves, as a function of the two host fields. *)
Lemma manageDeprecatedConfigs_TargetHost (cfg : Config) :
  TargetHost (manageDeprecatedConfigs cfg) =
    if decide (FlowsTargetHost cfg = ""%string) then TargetHost cfg
    else FlowsTargetHost cfg.
Proof.
  unfold manageDeprecatedConfigs, manageDeprecatedConfigs_logged.
  destruct (Nat.eqb_spec (String.length (FlowsTargetHost cfg)) 0) as [E | E];
    rewrite string_length_zero in E; simpl negb; cbv iota;
    repeat (match goal with |- context [negb (?a =? ?b)] =>
                              destruct (a =? b) end; simpl);
    case_decide; congruence.
Qed.

(** The port that the call resolves, as a function of the three port fields. *)
Lemma manageDeprecatedConfigs_TargetPort (cfg : Config) :
  TargetPort (manageDeprecatedConfigs cfg) =
    if decide (FlowsTargetPort cfg = 0) then
      if decide (PCAServerPort cfg = 0) then TargetPort cfg
      else PCAServerPort cfg
    else FlowsTargetPort cfg.
Proof.
  unfold manageDeprecatedConfigs, manageDeprecatedConfigs_logged.
  destruct (negb (Nat.eqb (String.length (FlowsTargetHost cfg)) 0)); simpl;
    destruct (Z.eqb_spec (FlowsTargetPort cfg) 0);
    destruct (Z.eqb_spec (PCAServerPort cfg) 0); simpl;
    repeat case_decide; congruence.
Qed.

(** Every field other than the two targets comes out as it went in. *)
Lemma manageDeprecatedConfigs_others (cfg : Config) :
  same_outside_target (manageDeprecatedConfigs cfg) cfg.
Proof.
  unfold manageDeprecatedConfigs, manageDeprecatedConfigs_logged.
  destruct (negb (Nat.eqb (String.length (FlowsTargetHost cfg)) 0)); simpl;
    destruct (negb (FlowsTargetPort cfg =? 0));
    destruct (negb (PCAServerPort cfg =? 0)); simpl;
    unfold same_outside_target; simpl; repeat split.
Qed.

(** The aliases themselves are read and never written. *)
Lemma manageDeprecatedConfigs_aliases (cfg : Config) :
  FlowsTargetHost (manageDeprecatedConfigs cfg) = FlowsTargetHost cfg /\
  FlowsTargetPort (manageDeprecatedConfigs cfg) = FlowsTargetPort cfg /\
  PCAServerPort (manageDeprecatedConfigs cfg) = PCAServerPort cfg.
Proof.
  pose proof (manageDeprecatedConfigs_others cfg) as H.
  unfold same_outside_target in H. tauto.
Qed.

(** Two configurations with the same 63 fields are the same configuration. *)
Lemma Config_ext (a b : Config) :
  same_outside_target a b -> TargetHost a = TargetHost b ->
  TargetPort a = TargetPort b -> a = b.
Proof.
  destruct a, b; unfold same_outside_target; simpl.
  intros H Hh Hp.
  repeat match type of H with _ /\ _ => destruct H as [? H] end.
  subst. reflexivity.
Qed.

(** C1. After [manageDeprecatedConfigs] the target port is the first legacy
    port alias that is populated, [FlowsTargetPort] before [PCAServerPort]:
    a non-zero [FlowsTargetPort] becomes the port; failing that, a non-zero
    [PCAServerPort] becomes the port.  In particular [FlowsTargetPort = 0],
    [PCAServerPort = 9999] and an unset [TargetPort] resolve to 9999. *)
Theorem manageDeprecatedConfigs_port_priority (cfg : Config) :
  (FlowsTargetPort cfg <> 0 ->
     TargetPort (manageDeprecatedConfigs cfg) = FlowsTargetPort cfg) /\
  (FlowsTargetPort cfg = 0 -> PCAServerPort cfg <> 0 ->
     TargetPort (manageDeprecatedConfigs cfg) = PCAServerPort cfg) /\
  (FlowsTargetPort cfg = 0 -> PCAServerPort cfg = 9999 -> TargetPort cfg = 0 ->
     TargetPort (manageDeprecatedConfigs cfg) = 9999).
Proof.
  rewrite manageDeprecatedConfigs_TargetPort.
  repeat split; intros; repeat case_decide; congruence || lia.
Qed.

Lemma manageDeprecatedConfigs_port_priority_witness :
  FlowsTargetPort (parsed_env "" 0 "" 0 9999) = 0 /\
  PCAServerPort (parsed_env "" 0 "" 0 9999) = 9999 /\
  TargetPort (parsed_env "" 0 "" 0 9999) = 0 /\
  TargetPort (manageDeprecatedConfigs (parsed_env "" 0 "" 0 9999)) = 9999.
Proof.
  refine (conj eq_refl (conj eq_refl (conj eq_refl _))).
  apply (manageDeprecatedConfigs_port_priority (parsed_env "" 0 "" 0 9999));
    reflexivity.
Defined.

(** C2. After [manageDeprecatedConfigs] the target host is the legacy alias
    [FlowsTargetHost] whenever that alias is a non-empty string, whatever
    [TargetHost] held, and it is the old [TargetHost] when the alias is
    empty.  In particular the alias ["A"] with [TargetHost] unset resolves to
    ["A"]. *)
Theorem manageDeprecatedConfigs_host_override (cfg : Config) :
  (FlowsTargetHost cfg <> ""%string ->
     TargetHost (manageDeprecatedConfigs cfg) = FlowsTargetHost cfg) /\
  (FlowsTargetHost cfg = ""%string ->
     TargetHost (manageDeprecatedConfigs cfg) = TargetHost cfg) /\
  (FlowsTargetHost cfg = "A"%string -> TargetHost cfg = ""%string ->
     TargetHost (manageDeprecatedConfigs cfg) = "A"%string).
Proof.
  rewrite manageDeprecatedConfigs_TargetHost.
  repeat split; intros; case_decide; congruence.
Qed.

Lemma manageDeprecatedConfigs_host_override_witness :
  FlowsTargetHost (parsed_env "" 0 "A" 0 0) = "A"%string /\
  TargetHost (parsed_env "" 0 "A" 0 0) = ""%string /\
  TargetHost (manageDeprecatedConfigs (parsed_env "" 0 "A" 0 0)) = "A"%string.
Proof.
  refine (conj eq_refl (conj eq_refl _)).
  apply (manageDeprecatedConfigs_host_override (parsed_env "" 0 "A" 0 0));
    reflexivity.
Defined.

(** C3, as stated, fails: with [FlowsTargetPort = 0], [PCAServerPort = 9999]
    and the primary [TargetPort] already 8080, the call replaces 8080 by
    9999. *)
Lemma fallback_port_replaces_set_primary :
  FlowsTargetPort (parsed_env "" 8080 "" 0 9999) = 0 /\
  PCAServerPort (parsed_env "" 8080 "" 0 9999) <> 0 /\
  TargetPort (parsed_env "" 8080 "" 0 9999) <> 0 /\
  TargetPort (manageDeprecatedConfigs (parsed_env "" 8080 "" 0 9999)) = 9999 /\
  TargetPort (manageDeprecatedConfigs (parsed_env "" 8080 "" 0 9999))
    <> TargetPort (parsed_env "" 8080 "" 0 9999).
Proof. vm_compute. repeat split; congruence. Qed.

(** C3, amended. The fallback to [PCAServerPort] does not look at the primary
    port: with [FlowsTargetPort = 0] and [PCAServerPort] non-zero the target
    port becomes [PCAServerPort], set or unset as [TargetPort] was; with
    [FlowsTargetPort = 0] and [PCAServerPort = 0] the target port is left
    as it was. *)
Theorem manageDeprecatedConfigs_fallback_ignores_primary (cfg : Config) :
  FlowsTargetPort cfg = 0 ->
  (PCAServerPort cfg <> 0 ->
     TargetPort (manageDeprecatedConfigs cfg) = PCAServerPort cfg) /\
  (PCAServerPort cfg = 0 ->
     TargetPort (manageDeprecatedConfigs cfg) = TargetPort cfg).
Proof.
  intros H0. rewrite manageDeprecatedConfigs_TargetPort.
  split; intros; repeat case_decide; congruence.
Qed.

Lemma manageDeprecatedConfigs_fallback_ignores_primary_witness :
  TargetPort (parsed_env "" 8080 "" 0 9999) = 8080 /\
  TargetPort (manageDeprecatedConfigs (parsed_env "" 8080 "" 0 9999)) = 9999.
Proof.
  split; [reflexivity |].
  apply (manageDeprecatedConfigs_fallback_ignores_primary
           (parsed_env "" 8080 "" 0 9999)); [reflexivity | vm_compute; congruence].
Defined.

(** C8. [manageDeprecatedConfigs] writes to no field but [TargetHost] and
    [TargetPort]: every other field, the deprecated [FlowsTargetHost],
    [FlowsTargetPort] and [PCAServerPort] among them, holds after the call
    what it held before. *)
Theorem manageDeprecatedConfigs_frame (cfg : Config) :
  same_outside_target (manageDeprecatedConfigs cfg) cfg /\
  FlowsTargetHost (manageDeprecatedConfigs cfg) = FlowsTargetHost cfg /\
  FlowsTargetPort (manageDeprecatedConfigs cfg) = FlowsTargetPort cfg /\
  PCAServerPort (manageDeprecatedConfigs cfg) = PCAServerPort cfg.
Proof.
  split; [apply manageDeprecatedConfigs_others |].
  apply manageDeprecatedConfigs_aliases.
Qed.

(** C9. [manageDeprecatedConfigs] is idempotent: a second call changes
    nothing that the first call left. *)
Theorem manageDeprecatedConfigs_idempotent (cfg : Config) :
  manageDeprecatedConfigs (manageDeprecatedConfigs cfg) =
  manageDeprecatedConfigs cfg.
Proof.
  pose proof (manageDeprecatedConfigs_aliases cfg) as (Hh & Hp & Hq).
  apply Config_ext.
  - apply manageDeprecatedConfigs_others.
  - rewrite !manageDeprecatedConfigs_TargetHost, Hh.
    case_decide; congruence.
  - rewrite !manageDeprecatedConfigs_TargetPort, Hp, Hq.
    repeat case_decide; congruence.
Qed.

End deprecated_configs.

(** ** More on the deprecated aliases: what is logged, and when the call
    changes nothing *)

Section deprecated_configs_log.
Import agent.

(** The lines the call writes, as a function of the three aliases and of the
    configuration it leaves. *)
Lemma manageDeprecatedConfigs_log (cfg : Config) :
  snd (manageDeprecatedConfigs_logged cfg) =
    (if decide (FlowsTargetHost cfg = ""%string) then []
     else [Infof "Using deprecated FlowsTargetHost %s"
                 (ArgString (FlowsTargetHost cfg))])
    ++ (if decide (FlowsTargetPort cfg = 0) then
          if decide (PCAServerPort cfg = 0) then []
          else [Infof "Using deprecated PCAServerPort %d"
                      (ArgInt (PCAServerPort cfg))]
        else [Infof "Using deprecated FlowsTargetPort %d"
                    (ArgInt (FlowsTargetPort cfg))]).
Proof.
  unfold manageDeprecatedConfigs_logged.
  destruct (Nat.eqb_spec (String.length (FlowsTargetHost cfg)) 0) as [E | E];
    rewrite string_length_zero in E; simpl;
    destruct (Z.eqb_spec (FlowsTargetPort cfg) 0);
    destruct (Z.eqb_spec (PCAServerPort cfg) 0); simpl;
    repeat case_decide; try congruence; reflexivity.
Qed.

(** X1. The call writes no log line exactly when none of the three
    deprecated aliases is set, and a call that writes no line leaves the
    configuration as it found it. *)
Theorem manageDeprecatedConfigs_silent (cfg : Config) :
  (snd (manageDeprecatedConfigs_logged cfg) = [] <->
   FlowsTargetHost cfg = ""%string /\ FlowsTargetPort cfg = 0 /\
   PCAServerPort cfg = 0) /\
  (snd (manageDeprecatedConfigs_logged cfg) = [] ->
   manageDeprecatedConfigs cfg = cfg).
Proof.
  assert (snd (manageDeprecatedConfigs_logged cfg) = [] <->
          FlowsTargetHost cfg = ""%string /\ FlowsTargetPort cfg = 0 /\
          PCAServerPort cfg = 0) as Hiff.
  { rewrite manageDeprecatedConfigs_log.
    repeat case_decide; simpl; split; intros Hx;
      try discriminate Hx; try tauto; done. }
  split; [exact Hiff |].
  intros Hlog. apply Hiff in Hlog as (Hh & Hp & Hq).
  apply Config_ext.
  - apply manageDeprecatedConfigs_others.
  - rewrite manageDeprecatedConfigs_TargetHost. by case_decide.
  - rewrite manageDeprecatedConfigs_TargetPort. by repeat case_decide.
Qed.

(** X2. Every value the call logs is the value it has just stored: a host
    line carries the resulting [TargetHost], a port line the resulting
    [TargetPort].  There is one line per field assigned, so at most two, and
    never a line for each of the two port aliases. *)
Theorem manageDeprecatedConfigs_logs_stored_values (cfg : Config) :
  Forall (fun e : LogEntry =>
            match arg e with
            | ArgString s => s = TargetHost (manageDeprecatedConfigs cfg)
            | ArgInt n => n = TargetPort (manageDeprecatedConfigs cfg)
            end) (snd (manageDeprecatedConfigs_logged cfg)) /\
  length (snd (manageDeprecatedConfigs_logged cfg)) =
    ((if decide (FlowsTargetHost cfg = ""%string) then 0%nat else 1%nat)
     + (if decide (FlowsTargetPort cfg = 0%Z /\ PCAServerPort cfg = 0%Z)
        then 0%nat else 1%nat))%nat /\
  (length (List.filter is_port_line
                       (snd (manageDeprecatedConfigs_logged cfg))) <= 1)%nat.
Proof.
  rewrite manageDeprecatedConfigs_log, manageDeprecatedConfigs_TargetHost,
    manageDeprecatedConfigs_TargetPort.
  repeat case_decide; simpl; (split; [| split]);
    repeat constructor; simpl; try tauto; lia.
Qed.

(** X3. The configurations the call leaves unchanged are exactly those whose
    primary fields already agree with every alias that is set. *)
Theorem manageDeprecatedConfigs_unchanged_iff (cfg : Config) :
  manageDeprecatedConfigs cfg = cfg <->
  (FlowsTargetHost cfg = ""%string \/ TargetHost cfg = FlowsTargetHost cfg) /\
  (FlowsTargetPort cfg <> 0 -> TargetPort cfg = FlowsTargetPort cfg) /\
  (FlowsTargetPort cfg = 0 -> PCAServerPort cfg <> 0 ->
   TargetPort cfg = PCAServerPort cfg).
Proof.
  split.
  - intros E.
    pose proof (manageDeprecatedConfigs_TargetHost cfg) as Hh.
    pose proof (manageDeprecatedConfigs_TargetPort cfg) as Hp.
    rewrite E in Hh, Hp.
    repeat case_decide; repeat split; intros; try tauto; try congruence;
      auto.
  - intros (Hh & Hp & Hq). apply Config_ext.
    + apply manageDeprecatedConfigs_others.
    + rewrite manageDeprecatedConfigs_TargetHost. case_decide; [done |].
      destruct Hh; congruence.
    + rewrite manageDeprecatedConfigs_TargetPort.
      repeat case_decide; auto; symmetry; auto.
Qed.

(** X4. A non-zero [FlowsTargetPort] shadows [PCAServerPort] altogether:
    whatever the second alias is changed to, the call logs the same lines
    and leaves the same configuration, the changed alias apart. *)
Theorem manageDeprecatedConfigs_shadowed_alias (cfg : Config) (p : Z) :
  FlowsTargetPort cfg <> 0 ->
  manageDeprecatedConfigs_logged (set_PCAServerPort p cfg) =
    (set_PCAServerPort p (manageDeprecatedConfigs cfg),
     snd (manageDeprecatedConfigs_logged cfg)).
Proof.
  intros Hp. apply Z.eqb_neq in Hp.
  unfold manageDeprecatedConfigs, manageDeprecatedConfigs_logged.
  destruct (negb (Nat.eqb (String.length (FlowsTargetHost cfg)) 0)) eqn:Hh;
    simpl; rewrite ?Hh; simpl; rewrite !Hp; reflexivity.
Qed.

Lemma manageDeprecatedConfigs_shadowed_alias_witness :
  FlowsTargetPort (parsed_env "" 0 "" 2055 9999) <> 0 /\
  TargetPort (fst (manageDeprecatedConfigs_logged
                     (set_PCAServerPort 4739 (parsed_env "" 0 "" 2055 9999))))
    = 2055.
Proof.
  assert (FlowsTargetPort (parsed_env "" 0 "" 2055 9999) <> 0) as H
    by (vm_compute; congruence).
  split; [exact H |].
  rewrite (manageDeprecatedConfigs_shadowed_alias
             (parsed_env "" 0 "" 2055 9999) 4739 H).
  reflexivity.
Defined.

End deprecated_configs_log.

(** ** The stages that read the configuration *)

Section pipeline_facts.
Import agent pipeline.

(** *** Deduplicator expiry *)

Lemma dedup_sweep_lookup (cfg : Config) (now : Z)
    (table : gmap FlowId DedupEntry) (k : FlowId) (e : DedupEntry) :
  table !! k = Some e ->
  (dedup_sweep cfg now table !! k = None <->
   dedup_expiry cfg < now - dedup_last_seen e).
Proof.
  intros Hk. unfold dedup_sweep. rewrite map_lookup_filter_None. split.
  - intros [Hn | Hall]; [congruence |].
    specialize (Hall e Hk). simpl in Hall.
    destruct (decide (dedup_expiry cfg < now - dedup_last_seen e)); tauto.
  - intros Hlt. right. intros e' He'. simpl.
    assert (e' = e) as -> by congruence. tauto.
Qed.

(** C5. With [DeduperFCExpiry] not set (zero) the expiry window of the
    deduplicator is exactly twice [CacheActiveTimeout]: the sweep removes an
    entry exactly when its last-seen age exceeds [2 * CacheActiveTimeout]. *)
Theorem dedup_expiry_default (cfg : Config) :
  DeduperFCExpiry cfg = 0 ->
  dedup_expiry cfg = 2 * CacheActiveTimeout cfg /\
  forall (now : Z) (table : gmap FlowId DedupEntry) (k : FlowId) (e : DedupEntry),
    table !! k = Some e ->
    (dedup_sweep cfg now table !! k = None <->
     2 * CacheActiveTimeout cfg < now - dedup_last_seen e).
Proof.
  intros H0.
  assert (dedup_expiry cfg = 2 * CacheActiveTimeout cfg) as E.
  { unfold dedup_expiry. rewrite H0. reflexivity. }
  split; [exact E |].
  intros now table k e Hk. rewrite <- E. by apply dedup_sweep_lookup.
Qed.

Lemma dedup_expiry_default_witness :
  DeduperFCExpiry envDefaults = 0 /\
  dedup_expiry envDefaults = 10 * Second.
Proof.
  split; [reflexivity |].
  apply (dedup_expiry_default envDefaults). reflexivity.
Defined.

(** *** Exporter queue *)


Lemma enqueue_within (cfg : Config) (f : AccountedFlow) (q : ExportQueue) :
  Z.of_nat (length (queued q)) <= exporter_queue_capacity cfg ->
  Z.of_nat (length (queued (enqueue cfg f q))) <= exporter_queue_capacity cfg.
Proof.
  intros Hq. unfold enqueue.
  destruct (Z.ltb_spec (Z.of_nat (length (queued q))) (exporter_queue_capacity cfg));
    simpl; [rewrite length_app; simpl |]; lia.
Qed.




End pipeline_facts.

(** *** Accounting cache *)

Section cache_facts.
Import agent pipeline.

Lemma oldest_is_oldest (m : gmap FlowKey AccountedFlow) : is_oldest m (oldest m).
Proof.
  unfold oldest.
  apply (map_fold_weak_ind (fun r m => is_oldest m r)); [reflexivity |].
  intros k f m' r Hfresh IH. destruct r as [[k0 f0] |]; simpl in *.
  - destruct IH as [Hk0 Hmin].
    assert (k0 <> k) as Hne by (intros ->; congruence).
    destruct (Z.ltb_spec (first_seen f) (first_seen f0)) as [Hlt | Hge]; simpl.
    + split; [apply lookup_insert_eq |].
      intros k' f' Hk'. apply lookup_insert_Some in Hk' as [[_ <-] | [_ Hk']];
        [lia |]. specialize (Hmin _ _ Hk'). lia.
    + split; [by rewrite lookup_insert_ne |].
      intros k' f' Hk'. apply lookup_insert_Some in Hk' as [[_ <-] | [_ Hk']];
        [lia |]. exact (Hmin _ _ Hk').
  - subst m'. split; [apply lookup_insert_eq |].
    intros k' f' Hk'. apply lookup_insert_Some in Hk' as [[_ <-] | [_ Hk']];
      [lia |]. by rewrite lookup_empty in Hk'.
Qed.

Lemma oldest_nonempty (m : gmap FlowKey AccountedFlow) :
  size m <> 0%nat ->
  exists k f, oldest m = Some (k, f) /\ m !! k = Some f /\
    forall k' f', m !! k' = Some f' -> first_seen f <= first_seen f'.
Proof.
  intros Hsz. pose proof (oldest_is_oldest m) as H.
  destruct (oldest m) as [[k f] |]; simpl in H.
  - exists k, f. tauto.
  - subst m. by rewrite map_size_empty in Hsz.
Qed.

(** A full cache makes room by giving up exactly its oldest entry. *)
Lemma make_room_full (cfg : Config) (c : Cache) :
  would_exceed cfg c = true -> size (entries c) <> 0%nat ->
  exists k f,
    entries c !! k = Some f /\
    (forall k' f', entries c !! k' = Some f' -> first_seen f <= first_seen f') /\
    make_room cfg c = mkCache (delete k (entries c)) (evicted c ++ [(k, f)]).
Proof.
  intros Hex Hsz. destruct (oldest_nonempty _ Hsz) as (k & f & Ho & Hk & Hmin).
  exists k, f. repeat split; [done | done |].
  unfold make_room, evict_oldest. by rewrite Hex, Ho.
Qed.

Lemma make_room_size (cfg : Config) (c : Cache) :
  1 <= CacheMaxFlows cfg ->
  Z.of_nat (size (entries c)) <= CacheMaxFlows cfg ->
  Z.of_nat (size (entries (make_room cfg c))) + 1 <= CacheMaxFlows cfg.
Proof.
  intros Hcap Hinv. unfold make_room.
  destruct (would_exceed cfg c) eqn:Hex; unfold would_exceed in Hex.
  - apply Z.ltb_lt in Hex.
    assert (size (entries c) <> 0%nat) as Hsz by lia.
    destruct (oldest_nonempty _ Hsz) as (k & f & Ho & Hk & _).
    unfold evict_oldest. rewrite Ho. simpl.
    rewrite map_size_delete_Some by done. lia.
  - apply Z.ltb_ge in Hex. lia.
Qed.

Lemma Admit_size (cfg : Config) (now : Z) (ev : RawEvent) (c : Cache) :
  1 <= CacheMaxFlows cfg ->
  Z.of_nat (size (entries c)) <= CacheMaxFlows cfg ->
  Z.of_nat (size (entries (Admit cfg now ev c))) <= CacheMaxFlows cfg.
Proof.
  intros Hcap Hinv. unfold Admit.
  destruct (entries c !! ev_key ev) as [f |] eqn:Hk; simpl.
  - by rewrite map_size_insert_Some.
  - pose proof (make_room_size cfg c Hcap Hinv) as Hroom.
    pose proof (map_size_insert (ev_key ev) (new_flow now ev)
                  (entries (make_room cfg c))) as Hsz.
    destruct (entries (make_room cfg c) !! ev_key ev); simpl in Hsz; lia.
Qed.

Lemma Sweep_size (cfg : Config) (now : Z) (c : Cache) :
  (size (entries (Sweep cfg now c)) <= size (entries c))%nat.
Proof. unfold Sweep. simpl. apply map_size_filter. Qed.

Lemma cache_step_size (cfg : Config) (c : Cache) (i : CacheInput) :
  1 <= CacheMaxFlows cfg ->
  Z.of_nat (size (entries c)) <= CacheMaxFlows cfg ->
  Z.of_nat (size (entries (cache_step cfg c i))) <= CacheMaxFlows cfg.
Proof.
  intros Hcap Hinv. destruct i as [now ev | now]; cbn [cache_step].
  - by apply Admit_size.
  - pose proof (Sweep_size cfg now c). lia.
Qed.

Lemma cache_run_size (cfg : Config) (inputs : list CacheInput) :
  1 <= CacheMaxFlows cfg ->
  Z.of_nat (size (entries (cache_run cfg inputs))) <= CacheMaxFlows cfg.
Proof.
  intros Hcap. unfold cache_run.
  induction inputs as [| i inputs IH] using rev_ind.
  - simpl. rewrite map_size_empty. lia.
  - rewrite foldl_app. simpl. by apply cache_step_size.
Qed.

(** C4, as stated, fails for a bound below one: with [CacheMaxFlows = 0] the
    first admitted event finds nothing to evict, is inserted all the same,
    and the cache holds one live entry. *)
Lemma cache_exceeds_zero_capacity :
  CacheMaxFlows zero_cache_config = 0 /\
  size (entries (cache_run zero_cache_config [InAdmit 0 sample_event])) = 1%nat /\
  ~ (Z.of_nat (size (entries (cache_run zero_cache_config [InAdmit 0 sample_event])))
     <= CacheMaxFlows zero_cache_config).
Proof.
  assert (size (entries (cache_run zero_cache_config [InAdmit 0 sample_event])) = 1%nat) as E.
  { unfold cache_run. simpl. unfold Admit. simpl.
    rewrite lookup_empty. simpl. unfold make_room, would_exceed. simpl.
    rewrite map_size_empty. simpl. unfold evict_oldest, oldest. simpl.
    rewrite map_fold_empty. simpl.
    rewrite map_size_insert_None by apply lookup_empty.
    by rewrite map_size_empty. }
  split; [reflexivity |]. split; [exact E |]. rewrite E. simpl. lia.
Qed.

(** C4, amended. For a bound [CacheMaxFlows] of at least one, the cache
    never holds more live entries than the bound, after any prefix of any
    sequence of inputs; and when the key of an admitted event is new and its
    insertion would exceed the bound, exactly one entry leaves the cache for
    the exporter before the insertion, one whose first-seen time is least
    among the live entries. *)
Theorem cache_within_capacity (cfg : Config) (inputs : list CacheInput) :
  1 <= CacheMaxFlows cfg ->
  (forall n : nat,
     Z.of_nat (size (entries (cache_run cfg (take n inputs)))) <= CacheMaxFlows cfg) /\
  (forall (now : Z) (ev : RawEvent),
     entries (cache_run cfg inputs) !! ev_key ev = None ->
     would_exceed cfg (cache_run cfg inputs) = true ->
     exists k f,
       entries (cache_run cfg inputs) !! k = Some f /\
       (forall k' f', entries (cache_run cfg inputs) !! k' = Some f' ->
                      first_seen f <= first_seen f') /\
       make_room cfg (cache_run cfg inputs) =
         mkCache (delete k (entries (cache_run cfg inputs)))
                 (evicted (cache_run cfg inputs) ++ [(k, f)]) /\
       Z.of_nat (size (entries (make_room cfg (cache_run cfg inputs)))) + 1
         <= CacheMaxFlows cfg /\
       Admit cfg now ev (cache_run cfg inputs) =
         mkCache (<[ev_key ev := new_flow now ev]>
                    (delete k (entries (cache_run cfg inputs))))
                 (evicted (cache_run cfg inputs) ++ [(k, f)])).
Proof.
  intros Hcap. split.
  - intros n. by apply cache_run_size.
  - intros now ev Hnew Hex.
    pose proof (cache_run_size cfg inputs Hcap) as Hinv.
    assert (size (entries (cache_run cfg inputs)) <> 0%nat) as Hsz.
    { unfold would_exceed in Hex. apply Z.ltb_lt in Hex. lia. }
    destruct (make_room_full cfg _ Hex Hsz) as (k & f & Hk & Hmin & Hroom).
    exists k, f. repeat split; try done.
    + by apply make_room_size.
    + unfold Admit. rewrite Hnew. simpl. by rewrite Hroom.
Qed.

Lemma cache_within_capacity_witness :
  1 <= CacheMaxFlows one_flow_config /\
  Z.of_nat (size (entries (cache_run one_flow_config
                             (take 2 [InAdmit 0 sample_event; InAdmit 1 other_event]))))
    <= CacheMaxFlows one_flow_config.
Proof.
  assert (1 <= CacheMaxFlows one_flow_config) as H by (vm_compute; congruence).
  split; [exact H |].
  apply (cache_within_capacity one_flow_config
           [InAdmit 0 sample_event; InAdmit 1 other_event] H).
Defined.

End cache_facts.

(** *** Messages of the remote-procedure-call backend *)

Section grpc_facts.
Import agent pipeline.

(** With a positive run length and enough fuel the runs are non-empty, no
    longer than the run length, and their concatenation is the batch. *)
Lemma split_messages_covers (n : nat) (fuel : nat) (batch : ExportBatch) :
  (1 <= n)%nat -> (length batch <= fuel)%nat ->
  concat (split_messages fuel n batch) = batch /\
  Forall (fun m : ExportBatch => (1 <= length m <= n)%nat)
         (split_messages fuel n batch).
Proof.
  intros Hn. revert batch.
  induction fuel as [| fuel IH]; intros batch Hlen.
  - destruct batch; simpl in *; [by split | lia].
  - destruct batch as [| f batch]; [by split|].
    cbn [split_messages].
    destruct (IH (drop n (f :: batch))) as [Hcat Hall].
    { rewrite length_drop. simpl in *. lia. }
    split.
    + cbn [concat]. rewrite Hcat. apply take_drop.
    + constructor; [| exact Hall].
      rewrite length_take. simpl. lia.
Qed.

Lemma split_messages_count (n : nat) (fuel : nat) (batch : ExportBatch) :
  (1 <= n)%nat -> (n < length batch)%nat -> (length batch <= fuel)%nat ->
  (2 <= length (split_messages fuel n batch))%nat.
Proof.
  intros Hn Hlt Hfuel.
  destruct fuel as [| fuel]; [lia |].
  destruct batch as [| f batch]; [simpl in Hlt; lia |].
  cbn [split_messages].
  assert (drop n (f :: batch) <> []) as Hrest.
  { intros E. apply (f_equal length) in E. rewrite length_drop in E.
    simpl in *. lia. }
  assert (length (drop n (f :: batch)) <= fuel)%nat as Hfuel'.
  { rewrite length_drop. simpl in *. lia. }
  destruct fuel as [| fuel].
  - destruct (drop n (f :: batch)); [done | simpl in Hfuel'; lia].
  - cbn [split_messages].
    destruct (drop n (f :: batch)); [done |]. simpl. lia.
Qed.

(** C7, as stated, fails for a cap below one: with [GRPCMessageMaxFlows = 0]
    a batch of one record exceeds the cap, and messages of at most zero
    records cannot cover it, whatever the backend sends. *)
Lemma grpc_zero_cap_cannot_cover :
  GRPCMessageMaxFlows zero_message_config = 0 /\
  ~ (Forall (fun m : ExportBatch =>
               Z.of_nat (length m) <= GRPCMessageMaxFlows zero_message_config)
            (grpc_messages zero_message_config [sample_flow]) /\
     concat (grpc_messages zero_message_config [sample_flow]) = [sample_flow]).
Proof.
  split; [reflexivity |].
  intros [_ Hcat]. vm_compute in Hcat. discriminate Hcat.
Qed.

(** C7, amended. For a cap [GRPCMessageMaxFlows] of at least one: a batch
    of at most that many records is sent as one message, the batch itself;
    a longer batch is sent as two or more messages in sequence, each of at
    least one and at most [GRPCMessageMaxFlows] records, whose concatenation
    in the order sent is the batch. *)
Theorem grpc_messages_split (cfg : Config) (batch : ExportBatch) :
  1 <= GRPCMessageMaxFlows cfg ->
  (Z.of_nat (length batch) <= GRPCMessageMaxFlows cfg ->
   grpc_messages cfg batch = [batch]) /\
  (GRPCMessageMaxFlows cfg < Z.of_nat (length batch) ->
   (2 <= length (grpc_messages cfg batch))%nat /\
   Forall (fun m : ExportBatch =>
             1 <= Z.of_nat (length m) <= GRPCMessageMaxFlows cfg)
          (grpc_messages cfg batch) /\
   concat (grpc_messages cfg batch) = batch).
Proof.
  intros Hcap. unfold grpc_messages.
  destruct (Z.leb_spec (Z.of_nat (length batch)) (GRPCMessageMaxFlows cfg))
    as [Hle | Hgt].
  - split; [done | lia].
  - split; [lia |]. intros _.
    assert (1 <= Z.to_nat (GRPCMessageMaxFlows cfg))%nat as Hn by lia.
    destruct (split_messages_covers _ (length batch) batch Hn) as [Hcat Hall];
      [lia |].
    repeat split; [| | exact Hcat].
    + apply split_messages_count; lia.
    + eapply Forall_impl; [exact Hall |]. simpl. intros m Hm. lia.
Qed.

Lemma grpc_messages_split_witness :
  1 <= GRPCMessageMaxFlows (parsed_limits 2 50 0 5000 (5 * Second) 0) /\
  concat (grpc_messages (parsed_limits 2 50 0 5000 (5 * Second) 0)
            [sample_flow; sample_flow; sample_flow])
    = [sample_flow; sample_flow; sample_flow].
Proof.
  assert (1 <= GRPCMessageMaxFlows (parsed_limits 2 50 0 5000 (5 * Second) 0))
    as H by (vm_compute; congruence).
  split; [exact H |].
  apply (grpc_messages_split (parsed_limits 2 50 0 5000 (5 * Second) 0)
           [sample_flow; sample_flow; sample_flow] H).
  vm_compute. reflexivity.
Defined.

End grpc_facts.

(** ** Generated deep copies *)

Section deepcopy_facts.
Import v1alpha1.

(** *** The builtins *)

Lemma copy_make_slice {A : Type} `{Zero A} (s : list A) :
  copy (make_slice (length s)) s = s.
Proof.
  unfold copy, make_slice. rewrite length_replicate, Nat.min_id.
  rewrite firstn_all, drop_replicate, Nat.sub_diag. simpl. apply app_nil_r.
Qed.

Lemma range_map_make_map (m : gmap string string) (n : nat) :
  range_map m (make_map n) = m.
Proof.
  unfold range_map, make_map.
  apply (map_fold_weak_ind (fun r m => r = m)); [reflexivity |].
  intros key val m' r _ ->. reflexivity.
Qed.

(** The loop over the indices has rewritten the front of [out] and not yet
    touched the rest. *)
Lemma range_elems_prefix {A : Type} (body : A -> A -> A) (in_ out : list A) (k : nat) :
  length out = length in_ ->
  (forall i x y, in_ !! i = Some x -> out !! i = Some y -> body x y = x) ->
  (k <= length in_)%nat ->
  foldl (fun out i =>
           match in_ !! i, out !! i with
           | Some x, Some y => <[i := body x y]> out
           | _, _ => out
           end) out (seq 0 k)
  = take k in_ ++ drop k out.
Proof.
  intros Hlen Hbody. induction k as [| k IH]; intros Hk.
  - simpl. by rewrite drop_0.
  - rewrite seq_S, foldl_app, IH by lia. simpl.
    destruct (lookup_lt_is_Some_2 in_ k) as [x Hx]; [lia |].
    destruct (lookup_lt_is_Some_2 out k) as [y Hy]; [lia |].
    assert (length (take k in_) = k) as Htk by (rewrite length_take; lia).
    rewrite Hx.
    rewrite lookup_app_r by lia. rewrite Htk, Nat.sub_diag.
    rewrite (drop_S _ _ _ Hy). simpl.
    rewrite (Hbody _ _ _ Hx Hy).
    rewrite insert_app_r_alt by lia. rewrite Htk, Nat.sub_diag. simpl.
    rewrite (take_S_r _ _ _ Hx), <- app_assoc. reflexivity.
Qed.

Lemma range_elems_copies {A : Type} (body : A -> A -> A) (in_ out : list A) :
  length out = length in_ ->
  (forall i x y, in_ !! i = Some x -> out !! i = Some y -> body x y = x) ->
  range_elems body in_ out = in_.
Proof.
  intros Hlen Hbody. unfold range_elems.
  rewrite (range_elems_prefix body in_ out (length in_) Hlen Hbody) by lia.
  rewrite firstn_all, <- Hlen, drop_all. apply app_nil_r.
Qed.

Lemma range_elems_make_slice {A : Type} `{Zero A} (body : A -> A -> A) (s : list A) :
  (forall x, body x zero = x) ->
  range_elems body s (make_slice (length s)) = s.
Proof.
  intros Hbody. apply range_elems_copies.
  - unfold make_slice. apply length_replicate.
  - intros i x y _ Hy. unfold make_slice in Hy.
    apply lookup_replicate in Hy as [-> _]. apply Hbody.
Qed.

(** *** [DeepCopyInto] leaves an equal struct behind [out] *)

Context `{External}.
Hypothesis library_copies : external_copies.

Lemma ObjectMeta_copies (in_ out : ObjectMeta) :
  ObjectMeta_DeepCopyInto in_ out = in_.
Proof. apply library_copies. Qed.
Lemma ListMeta_copies (in_ out : ListMeta) :
  ListMeta_DeepCopyInto in_ out = in_.
Proof. apply library_copies. Qed.
Lemma Condition_copies (in_ out : Condition) :
  Condition_DeepCopyInto in_ out = in_.
Proof. apply library_copies. Qed.
Lemma MetricSpec_copies (in_ out : MetricSpec) :
  MetricSpec_DeepCopyInto in_ out = in_.
Proof. apply library_copies. Qed.
Lemma ResourceRequirements_copies (in_ out : ResourceRequirements) :
  ResourceRequirements_DeepCopyInto in_ out = in_.
Proof. apply library_copies. Qed.
(** The loop over [Exporters] allocates a cell for each pointer that is not
    nil and assigns the struct behind it. *)
Lemma exporter_pointer_copies (x : option FlowCollectorExporter) :
  match x with
  | Some v => Some v
  | None => zero
  end = x.
Proof. by destruct x. Qed.

(** The start of the proof for every struct: take the receiver apart, run
    the body of its method up to the calls on its fields, and let the
    slices of strings and the maps be copied. *)
Ltac head_of t := lazymatch t with ?g _ => head_of g | _ => t end.

Ltac run_copy :=
  lazymatch goal with
  | |- ?f ?x _ = ?x => let h := head_of f in destruct x; unfold h
  end;
  unfold DeepCopyInto; cbn;
  repeat match goal with
         | |- context [match ?o with Some _ => _ | None => _ end] =>
             is_var o; destruct o; cbn
         end;
  unfold assign, new; rewrite ?copy_make_slice, ?range_map_make_map.

Lemma CertificateReference_copies (in_ out : CertificateReference) :
  CertificateReference_DeepCopyInto in_ out = in_.
Proof.
  run_copy; reflexivity.
Qed.

Lemma ClientTLS_copies (in_ out : ClientTLS) :
  ClientTLS_DeepCopyInto in_ out = in_.
Proof.
  run_copy; reflexivity.
Qed.

Lemma ClusterNetworkOperatorConfig_copies (in_ out : ClusterNetworkOperatorConfig) :
  ClusterNetworkOperatorConfig_DeepCopyInto in_ out = in_.
Proof.
  run_copy; reflexivity.
Qed.

Lemma OVNKubernetesConfig_copies (in_ out : OVNKubernetesConfig) :
  OVNKubernetesConfig_DeepCopyInto in_ out = in_.
Proof.
  run_copy; reflexivity.
Qed.

Lemma ConsolePluginPortConfig_copies (in_ out : ConsolePluginPortConfig) :
  ConsolePluginPortConfig_DeepCopyInto in_ out = in_.
Proof.
  run_copy; reflexivity.
Qed.

Lemma ServerTLS_copies (in_ out : ServerTLS) :
  ServerTLS_DeepCopyInto in_ out = in_.
Proof.
  run_copy; reflexivity.
Qed.

Lemma MetricsServerConfig_copies (in_ out : MetricsServerConfig) :
  MetricsServerConfig_DeepCopyInto in_ out = in_.
Proof.
  run_copy;
    rewrite ?ServerTLS_copies;
    reflexivity.
Qed.

Lemma FLPMetrics_copies (in_ out : FLPMetrics) :
  FLPMetrics_DeepCopyInto in_ out = in_.
Proof.
  run_copy;
    rewrite ?MetricsServerConfig_copies;
    reflexivity.
Qed.

Lemma QuickFilter_copies (in_ out : QuickFilter) :
  QuickFilter_DeepCopyInto in_ out = in_.
Proof.
  run_copy; reflexivity.
Qed.

Lemma FlowCollectorHPA_copies (in_ out : FlowCollectorHPA) :
  FlowCollectorHPA_DeepCopyInto in_ out = in_.
Proof.
  run_copy;
    rewrite ?(range_elems_make_slice _ _ (fun x => MetricSpec_copies x zero));
    reflexivity.
Qed.

Lemma FlowCollectorIPFIX_copies (in_ out : FlowCollectorIPFIX) :
  FlowCollectorIPFIX_DeepCopyInto in_ out = in_.
Proof.
  run_copy; reflexivity.
Qed.

Lemma FlowCollectorEBPF_copies (in_ out : FlowCollectorEBPF) :
  FlowCollectorEBPF_DeepCopyInto in_ out = in_.
Proof.
  run_copy;
    rewrite ?ResourceRequirements_copies;
    reflexivity.
Qed.

Lemma FlowCollectorAgent_copies (in_ out : FlowCollectorAgent) :
  FlowCollectorAgent_DeepCopyInto in_ out = in_.
Proof.
  run_copy;
    rewrite ?FlowCollectorEBPF_copies;
    reflexivity.
Qed.

Lemma FlowCollectorKafka_copies (in_ out : FlowCollectorKafka) :
  FlowCollectorKafka_DeepCopyInto in_ out = in_.
Proof.
  run_copy; reflexivity.
Qed.

Lemma FlowCollectorExporter_copies (in_ out : FlowCollectorExporter) :
  FlowCollectorExporter_DeepCopyInto in_ out = in_.
Proof.
  run_copy; reflexivity.
Qed.

Lemma FlowCollectorFLP_copies (in_ out : FlowCollectorFLP) :
  FlowCollectorFLP_DeepCopyInto in_ out = in_.
Proof.
  run_copy;
    rewrite ?FLPMetrics_copies, ?ResourceRequirements_copies, ?FlowCollectorHPA_copies;
    reflexivity.
Qed.

Lemma FlowCollectorLoki_copies (in_ out : FlowCollectorLoki) :
  FlowCollectorLoki_DeepCopyInto in_ out = in_.
Proof.
  run_copy; reflexivity.
Qed.

Lemma FlowCollectorConsolePlugin_copies (in_ out : FlowCollectorConsolePlugin) :
  FlowCollectorConsolePlugin_DeepCopyInto in_ out = in_.
Proof.
  run_copy;
    rewrite ?ResourceRequirements_copies, ?FlowCollectorHPA_copies, ?ConsolePluginPortConfig_copies;
    rewrite ?(range_elems_make_slice _ _ (fun x => QuickFilter_copies x zero));
    reflexivity.
Qed.

Lemma FlowCollectorSpec_copies (in_ out : FlowCollectorSpec) :
  FlowCollectorSpec_DeepCopyInto in_ out = in_.
Proof.
  run_copy;
    rewrite ?FlowCollectorAgent_copies, ?FlowCollectorFLP_copies, ?FlowCollectorLoki_copies, ?FlowCollectorConsolePlugin_copies;
    rewrite ?(range_elems_make_slice _ _ exporter_pointer_copies);
    reflexivity.
Qed.

Lemma FlowCollectorStatus_copies (in_ out : FlowCollectorStatus) :
  FlowCollectorStatus_DeepCopyInto in_ out = in_.
Proof.
  run_copy;
    rewrite ?(range_elems_make_slice _ _ (fun x => Condition_copies x zero));
    reflexivity.
Qed.

Lemma FlowCollector_copies (in_ out : FlowCollector) :
  FlowCollector_DeepCopyInto in_ out = in_.
Proof.
  run_copy;
    rewrite ?ObjectMeta_copies, ?FlowCollectorSpec_copies, ?FlowCollectorStatus_copies;
    reflexivity.
Qed.

Lemma FlowCollectorList_copies (in_ out : FlowCollectorList) :
  FlowCollectorList_DeepCopyInto in_ out = in_.
Proof.
  run_copy;
    rewrite ?ListMeta_copies;
    rewrite ?(range_elems_make_slice _ _ (fun x => FlowCollector_copies x zero));
    reflexivity.
Qed.

Lemma api_type_copies (t : ApiType) : Copies (api_type t).
Proof.
  destruct t; intros in_ out.
  - apply CertificateReference_copies.
  - apply ClientTLS_copies.
  - apply ClusterNetworkOperatorConfig_copies.
  - apply OVNKubernetesConfig_copies.
  - apply ConsolePluginPortConfig_copies.
  - apply ServerTLS_copies.
  - apply MetricsServerConfig_copies.
  - apply FLPMetrics_copies.
  - apply QuickFilter_copies.
  - apply FlowCollectorHPA_copies.
  - apply FlowCollectorIPFIX_copies.
  - apply FlowCollectorEBPF_copies.
  - apply FlowCollectorAgent_copies.
  - apply FlowCollectorKafka_copies.
  - apply FlowCollectorExporter_copies.
  - apply FlowCollectorFLP_copies.
  - apply FlowCollectorLoki_copies.
  - apply FlowCollectorConsolePlugin_copies.
  - apply FlowCollectorSpec_copies.
  - apply FlowCollectorStatus_copies.
  - apply FlowCollector_copies.
  - apply FlowCollectorList_copies.
Qed.

(** *** [DeepCopy] *)

Section one_type.
Context {T : Type} `{Zero T, DeepCopyable T}.
Hypothesis T_copies : Copies T.

Lemma DeepCopy_nil (h : gmap loc T) : DeepCopy None h = Some (None, h).
Proof. reflexivity. Qed.

Lemma fresh_loc_unused (h : gmap loc T) : h !! fresh (dom h) = None.
Proof. apply not_elem_of_dom, is_fresh. Qed.

Lemma DeepCopy_cell (h : gmap loc T) (i : loc) (x : T) :
  h !! i = Some x ->
  DeepCopy (Some i) h = Some (Some (fresh (dom h)), <[fresh (dom h) := x]> h).
Proof.
  intros Hi. pose proof (fresh_loc_unused h) as Ho.
  assert (fresh (dom h) <> i) as Hne by (intros E; congruence).
  unfold DeepCopy, alloc.
  assert (<[fresh (dom h) := zero]> h !! i = Some x) as ->
    by (rewrite lookup_insert_ne; done).
  cbn. rewrite lookup_insert_eq. cbn.
  by rewrite T_copies, insert_insert_eq.
Qed.

End one_type.

(** C10. For each of the generated API types: [DeepCopy] of a nil receiver
    is nil and changes nothing; [DeepCopy] of a receiver that points to a
    struct returns a pointer that is not nil and is new (no cell of the heap
    had that address), to a struct equal to the receiver's, which itself is
    left as it was, like every other cell.  So [DeepCopyObject] of a
    [FlowCollector] that is not nil does not return the nil interface. *)
Theorem DeepCopy_generated (t : ApiType) :
  (forall h : gmap loc (api_type t), DeepCopy None h = Some (None, h)) /\
  (forall (h : gmap loc (api_type t)) (i : loc) (x : api_type t),
     h !! i = Some x ->
     exists (o : loc) (h' : gmap loc (api_type t)),
       DeepCopy (Some i) h = Some (Some o, h') /\
       h !! o = None /\
       h' !! o = Some x /\
       h' !! i = Some x /\
       forall j : loc, j <> o -> h' !! j = h !! j) /\
  (forall (h : gmap loc FlowCollector) (i : loc) (x : FlowCollector),
     h !! i = Some x ->
     exists (r : Object) (o : loc) (h' : gmap loc FlowCollector),
       FlowCollector_DeepCopyObject (Some i) h = Some (r, h') /\
       r = FlowCollector_Object (Some o) /\
       h' !! o = Some x /\
       r <> nil_Object).
Proof.
  split; [intros h; apply DeepCopy_nil |]. split.
  - intros h i x Hi.
    exists (fresh (dom h)), (<[fresh (dom h) := x]> h).
    pose proof (fresh_loc_unused h) as Ho.
    assert (fresh (dom h) <> i) as Hne by (intros E; congruence).
    split; [apply (DeepCopy_cell (api_type_copies t)), Hi |].
    split; [exact Ho |].
    split; [apply lookup_insert_eq |].
    split; [by rewrite lookup_insert_ne |].
    intros j Hj. by rewrite lookup_insert_ne.
  - intros h i x Hi. unfold FlowCollector_DeepCopyObject.
    rewrite (DeepCopy_cell (api_type_copies TFlowCollector) h i x Hi). simpl.
    eexists _, _, _. split; [reflexivity |]. split; [reflexivity |].
    split; [apply lookup_insert_eq | discriminate].
Qed.

(** The list type implements [runtime.Object] the same way. *)
Lemma FlowCollectorList_DeepCopyObject_not_nil
    (h : gmap loc FlowCollectorList) (i : loc) (x : FlowCollectorList) :
  h !! i = Some x ->
  exists (r : Object) (h' : gmap loc FlowCollectorList),
    FlowCollectorList_DeepCopyObject (Some i) h = Some (r, h') /\
    r <> nil_Object.
Proof.
  intros Hi. unfold FlowCollectorList_DeepCopyObject.
  rewrite (DeepCopy_cell (api_type_copies TFlowCollectorList) h i x Hi). simpl.
  eexists _, _. split; [reflexivity | discriminate].
Qed.

End deepcopy_facts.

Section deepcopy_examples.
Import v1alpha1.

Lemma DeepCopy_generated_witness :
  @external_copies sample_External /\
  DeepCopy (T := @FlowCollector sample_External) None ∅ = Some (None, ∅) /\
  exists (r : Object) (h' : gmap loc (@FlowCollector sample_External)),
    @FlowCollector_DeepCopyObject sample_External
      (Some 1%positive) {[1%positive := zero]} = Some (r, h') /\
    r <> nil_Object.
Proof.
  assert (@external_copies sample_External) as Hc by (repeat split).
  split; [exact Hc |].
  destruct (@DeepCopy_generated sample_External Hc TFlowCollector)
    as (Hnil & _ & Hobj).
  split; [apply Hnil |].
  destruct (Hobj {[1%positive := zero]} 1%positive zero (lookup_singleton_eq _ _))
    as (r & o & h' & Hr & _ & _ & Hne).
  exists r, h'. split; [exact Hr | exact Hne].
Defined.

End deepcopy_examples.

(** ** More on the generated copies: [DeepCopyInto] on any target, the two
    [DeepCopyObject], and copies of copies *)

Section deepcopy_more.
Import v1alpha1.
Context `{External}.
Hypothesis library_copies : external_copies.

(** X5. For each of the generated types, [DeepCopyInto] leaves behind [out]
    a struct equal to the receiver whatever [out] held before: nothing of
    the old contents of [out] survives, and two targets end up equal. *)
Theorem DeepCopyInto_overwrites (t : ApiType) (in_ out out' : api_type t) :
  DeepCopyInto in_ out = in_ /\
  DeepCopyInto in_ out = DeepCopyInto in_ out'.
Proof.
  pose proof (api_type_copies library_copies t) as Hc.
  split; [apply Hc |]. by rewrite !Hc.
Qed.

(** X6. [DeepCopyObject] of a nil [*FlowCollector] or [*FlowCollectorList]
    is the nil interface, not an interface that wraps a nil pointer, and it
    allocates nothing; on a list that is not nil it wraps the pointer to a
    new cell that holds an equal list. *)
Theorem DeepCopyObject_nil_and_list :
  (forall h : gmap loc FlowCollector,
     FlowCollector_DeepCopyObject None h = Some (nil_Object, h)) /\
  (forall h : gmap loc FlowCollectorList,
     FlowCollectorList_DeepCopyObject None h = Some (nil_Object, h)) /\
  (forall (h : gmap loc FlowCollectorList) (i : loc) (x : FlowCollectorList),
     h !! i = Some x ->
     exists o : loc,
       h !! o = None /\
       FlowCollectorList_DeepCopyObject (Some i) h
         = Some (FlowCollectorList_Object (Some o), <[o := x]> h)).
Proof.
  split; [reflexivity |]. split; [reflexivity |].
  intros h i x Hi. exists (fresh (dom h)).
  split; [apply fresh_loc_unused |].
  unfold FlowCollectorList_DeepCopyObject.
  by rewrite (DeepCopy_cell (api_type_copies library_copies TFlowCollectorList)
                h i x Hi).
Qed.

(** X7. A copy can be copied in turn: [DeepCopy] of the pointer that
    [DeepCopy] returned succeeds, the second pointer differs from the first
    and from the receiver, and the three cells hold equal structs. *)
Theorem DeepCopy_of_a_copy (t : ApiType) (h : gmap loc (api_type t))
    (i : loc) (x : api_type t) :
  h !! i = Some x ->
  exists (o1 o2 : loc) (h1 h2 : gmap loc (api_type t)),
    DeepCopy (Some i) h = Some (Some o1, h1) /\
    DeepCopy (Some o1) h1 = Some (Some o2, h2) /\
    o1 <> i /\ o2 <> i /\ o2 <> o1 /\
    h2 !! i = Some x /\ h2 !! o1 = Some x /\ h2 !! o2 = Some x.
Proof.
  intros Hi.
  pose proof (api_type_copies library_copies t) as Hc.
  pose proof (fresh_loc_unused h) as Ho1.
  assert (fresh (dom h) <> i) as Hne1 by (intros E; congruence).
  assert (<[fresh (dom h) := x]> h !! fresh (dom h) = Some x) as Hi1
    by apply lookup_insert_eq.
  pose proof (fresh_loc_unused (<[fresh (dom h) := x]> h)) as Ho2.
  assert (fresh (dom (<[fresh (dom h) := x]> h)) <> fresh (dom h)) as Hne2
    by (intros E; rewrite E in Ho2; congruence).
  assert (fresh (dom (<[fresh (dom h) := x]> h)) <> i) as Hne3.
  { intros E. rewrite E, lookup_insert_ne in Ho2 by done. congruence. }
  eexists _, _, _, _.
  split; [apply (DeepCopy_cell Hc), Hi |].
  split; [apply (DeepCopy_cell Hc), Hi1 |].
  repeat split; try done.
  - by rewrite !lookup_insert_ne.
  - by rewrite lookup_insert_ne, lookup_insert_eq.
  - apply lookup_insert_eq.
Qed.

End deepcopy_more.

Section deepcopy_more_examples.
Import v1alpha1.

Lemma DeepCopyInto_overwrites_witness :
  @external_copies sample_External /\
  @DeepCopyInto _ (@QuickFilter_DeepCopyInto sample_External)
    (@mkQuickFilter sample_External 7 (Some {["app" := "web"]}))
    (@mkQuickFilter sample_External 9 (Some ∅))
  = @mkQuickFilter sample_External 7 (Some {["app" := "web"]}).
Proof.
  assert (@external_copies sample_External) as Hc by (repeat split).
  split; [exact Hc |].
  apply (@DeepCopyInto_overwrites sample_External Hc TQuickFilter
           (@mkQuickFilter sample_External 7 (Some {["app" := "web"]}))
           (@mkQuickFilter sample_External 9 (Some ∅))
           (@mkQuickFilter sample_External 9 (Some ∅))).
Defined.

Lemma DeepCopyObject_nil_and_list_witness :
  @external_copies sample_External /\
  @FlowCollectorList_DeepCopyObject sample_External None ∅
    = Some (nil_Object, ∅).
Proof.
  assert (@external_copies sample_External) as Hc by (repeat split).
  split; [exact Hc |].
  apply (@DeepCopyObject_nil_and_list sample_External Hc).
Defined.

Lemma DeepCopy_of_a_copy_witness :
  @external_copies sample_External /\
  exists (o1 o2 : loc) (h1 h2 : gmap loc (@QuickFilter sample_External)),
    DeepCopy (Some 1%positive)
      {[1%positive := @mkQuickFilter sample_External 7 None]}
      = Some (Some o1, h1) /\
    DeepCopy (Some o1) h1 = Some (Some o2, h2) /\
    o2 <> o1.
Proof.
  assert (@external_copies sample_External) as Hc by (repeat split).
  split; [exact Hc |].
  destruct (@DeepCopy_of_a_copy sample_External Hc TQuickFilter
              {[1%positive := @mkQuickFilter sample_External 7 None]}
              1%positive (@mkQuickFilter sample_External 7 None)
              (lookup_singleton_eq _ _))
    as (o1 & o2 & h1 & h2 & H1 & H2 & _ & _ & Hne & _).
  exists o1, o2, h1, h2. split; [exact H1 |]. split; [exact H2 | exact Hne].
Defined.

End deepcopy_more_examples.

(** ** The copies share no memory with their receivers *)

Section refs_facts.
Import v1alpha1 v1alpha1_refs.
Context `{External}.

(** *** The memory only grows *)

Lemma extends_refl (m : Memory) : extends m m.
Proof. by repeat split. Qed.

Lemma extends_trans (m1 m2 m3 : Memory) :
  extends m1 m2 -> extends m2 m3 -> extends m1 m3.
Proof.
  intros (? & ? & ?) (? & ? & ?).
  repeat split; etrans; eassumption.
Qed.

Lemma elements_extends (m m' : Memory) (s : Slice) (xs : list string) :
  extends m m' -> elements s m = Some xs -> elements s m' = Some xs.
Proof.
  intros (_ & Ha & _). unfold elements.
  destruct (arrays m !! array s) as [arr |] eqn:E; [| done].
  by rewrite (lookup_weaken _ _ _ _ E Ha).
Qed.

Lemma read_ServerTLS_extends (m m' : Memory) (x : ServerTLS)
    (v : v1alpha1.ServerTLS) :
  extends m m' -> read_ServerTLS m x = Some v -> read_ServerTLS m' x = Some v.
Proof.
  intros (Hc & _ & _). unfold read_ServerTLS.
  destruct (ServerTLS_Provided x) as [p |]; [| done].
  destruct (cells m !! p) as [c |] eqn:E; [| done].
  by rewrite (lookup_weaken _ _ _ _ E Hc).
Qed.

Lemma read_MetricsServerConfig_extends (m m' : Memory)
    (x : MetricsServerConfig) (v : v1alpha1.MetricsServerConfig) :
  extends m m' ->
  read_MetricsServerConfig m x = Some v ->
  read_MetricsServerConfig m' x = Some v.
Proof.
  intros He. unfold read_MetricsServerConfig.
  destruct (read_ServerTLS m _) as [tls |] eqn:E; [| done].
  by rewrite (read_ServerTLS_extends _ _ _ _ He E).
Qed.

Lemma read_strings_extends (m m' : Memory) (s : option Slice)
    (v : option (list string)) :
  extends m m' -> read_strings m s = Some v -> read_strings m' s = Some v.
Proof.
  intros He. destruct s as [s |]; [| done]. simpl.
  destruct (elements s m) as [xs |] eqn:E; [| done].
  by rewrite (elements_extends _ _ _ _ He E).
Qed.

Lemma read_FLPMetrics_extends (m m' : Memory) (x : FLPMetrics)
    (v : v1alpha1.FLPMetrics) :
  extends m m' -> read_FLPMetrics m x = Some v -> read_FLPMetrics m' x = Some v.
Proof.
  intros He. unfold read_FLPMetrics.
  destruct (read_MetricsServerConfig m _) as [srv |] eqn:E1; [| done].
  rewrite (read_MetricsServerConfig_extends _ _ _ _ He E1). simpl.
  destruct (read_strings m _) as [tags |] eqn:E2; [| done].
  by rewrite (read_strings_extends _ _ _ _ He E2).
Qed.

Lemma read_table_extends (m m' : Memory) (t : option loc)
    (v : option (gmap string string)) :
  extends m m' -> read_table m t = Some v -> read_table m' t = Some v.
Proof.
  intros (_ & _ & Ht). destruct t as [t |]; [| done]. simpl.
  destruct (tables m !! t) as [b |] eqn:E; [| done].
  by rewrite (lookup_weaken _ _ _ _ E Ht).
Qed.

(** A write to an address that [m] does not hold keeps what [m] holds. *)
Lemma store_cell_extends (m m' m'' : Memory) (p : loc)
    (w : v1alpha1.CertificateReference) :
  extends m m' -> cells m !! p = None ->
  store_cell p w m' = Some m'' -> extends m m''.
Proof.
  intros (Hc & Ha & Ht) Hp. unfold store_cell.
  destruct (cells m' !! p); [| done]. simpl. intros [= <-].
  repeat split; simpl; [| done | done].
  by apply insert_subseteq_r.
Qed.

Lemma store_string_extends (m m' m'' : Memory) (s : Slice) (i : nat)
    (x : string) :
  extends m m' -> arrays m !! array s = None ->
  store_string s i x m' = Some m'' -> extends m m''.
Proof.
  intros (Hc & Ha & Ht) Hs. unfold store_string.
  destruct (arrays m' !! array s); [| done]. simpl.
  case_decide; [| done]. intros [= <-].
  repeat split; simpl; [done | | done].
  by apply insert_subseteq_r.
Qed.

Lemma table_store_extends (m m' m'' : Memory) (t : loc) (key val : string) :
  extends m m' -> tables m !! t = None ->
  table_store t key val m' = Some m'' -> extends m m''.
Proof.
  intros (Hc & Ha & Ht) Hs. unfold table_store.
  destruct (tables m' !! t); [| done]. simpl. intros [= <-].
  repeat split; simpl; [done | done |].
  by apply insert_subseteq_r.
Qed.

(** *** Running the methods *)

Lemma set_tables_same (m : Memory) : set_tables (tables m) m = m.
Proof. by destruct m. Qed.

(** The loop of stores fills an empty map with the bindings of [src]. *)
Lemma range_table_store (src : gmap string string) (o : loc) (m : Memory) :
  tables m !! o = Some ∅ ->
  range_table src (fun key val => table_store o key val) m
    = Some (set_tables (<[o := src]> (tables m)) m).
Proof.
  intros Ho. unfold range_table.
  apply (map_fold_weak_ind
           (fun r s => r = Some (set_tables (<[o := s]> (tables m)) m))).
  - by rewrite insert_id, set_tables_same.
  - intros key val s r _ ->. simpl. unfold table_store. simpl.
    rewrite lookup_insert_eq. simpl. by rewrite insert_insert_eq.
Qed.

Lemma ServerTLS_DeepCopyInto_run (m : Memory) (in_ out : ServerTLS)
    (v : v1alpha1.ServerTLS) :
  read_ServerTLS m in_ = Some v ->
  exists (out' : ServerTLS) (m' : Memory),
    ServerTLS_DeepCopyInto in_ out m = Some (out', m') /\
    read_ServerTLS m' out' = Some v /\
    extends m m' /\
    (forall p, ServerTLS_Provided out' = Some p -> cells m !! p = None) /\
    (ServerTLS_Provided in_ = None -> out' = in_ /\ m' = m).
Proof.
  unfold read_ServerTLS, ServerTLS_DeepCopyInto.
  destruct in_ as [sc [p |]]; simpl.
  - destruct (cells m !! p) as [c |] eqn:Hp; [| done]. simpl. intros [= <-].
    pose proof (is_fresh (dom (cells m))) as Hf.
    apply not_elem_of_dom in Hf.
    assert (fresh (dom (cells m)) <> p) as Hne by (intros E; congruence).
    rewrite lookup_insert_ne by done. rewrite Hp. simpl.
    unfold store_cell. simpl. rewrite lookup_insert_eq. simpl.
    rewrite insert_insert_eq.
    eexists _, _. split; [reflexivity |]. simpl.
    rewrite lookup_insert_eq. simpl.
    split; [done |]. split.
    + repeat split; simpl; [| done | done]. by apply insert_subseteq.
    + split; [| done]. by intros q [= <-].
  - intros [= <-]. eexists _, _. split; [reflexivity |]. simpl.
    split; [done |]. split; [apply extends_refl |]. split; done.
Qed.

Lemma MetricsServerConfig_DeepCopyInto_run (m : Memory)
    (in_ out : MetricsServerConfig) (v : v1alpha1.MetricsServerConfig) :
  read_MetricsServerConfig m in_ = Some v ->
  exists (out' : MetricsServerConfig) (m' : Memory),
    MetricsServerConfig_DeepCopyInto in_ out m = Some (out', m') /\
    read_MetricsServerConfig m' out' = Some v /\
    extends m m' /\
    (forall p, ServerTLS_Provided (MetricsServerConfig_TLS out') = Some p ->
               cells m !! p = None).
Proof.
  unfold read_MetricsServerConfig, MetricsServerConfig_DeepCopyInto.
  destruct (read_ServerTLS m (MetricsServerConfig_TLS in_)) as [tls |] eqn:E;
    [| done].
  simpl. intros [= <-].
  destruct (ServerTLS_DeepCopyInto_run m _ (MetricsServerConfig_TLS in_) _ E)
    as (tls' & m' & -> & Hread & Hext & Hfresh & _).
  simpl. eexists _, _. split; [reflexivity |]. simpl. rewrite Hread. simpl.
  repeat split; try done; apply Hext.
Qed.

Lemma elements_length (m : Memory) (s : Slice) (xs : list string) :
  elements s m = Some xs -> length xs = len s.
Proof.
  unfold elements. destruct (arrays m !! array s) as [arr |]; [| done]. simpl.
  case_decide; [| done]. intros [= <-].
  rewrite length_take, length_drop. lia.
Qed.

(** [make] and [copy] together: a new array with the elements of [src]. *)
Lemma copy_into_made (m : Memory) (src : Slice) (xs : list string) :
  elements src m = Some xs ->
  copy_strings (fst (make_strings (len src) m)) src
               (snd (make_strings (len src) m))
    = Some (set_arrays (<[fresh (dom (arrays m)) := xs]> (arrays m)) m).
Proof.
  intros Hxs. pose proof (elements_length _ _ _ Hxs) as Hlen.
  pose proof (is_fresh (dom (arrays m))) as Hf. apply not_elem_of_dom in Hf.
  unfold make_strings, copy_strings. simpl.
  assert (extends m (set_arrays
                       (<[fresh (dom (arrays m)) := replicate (len src) ""%string]>
                          (arrays m)) m)) as Hext.
  { repeat split; simpl; [done | | done]. by apply insert_subseteq. }
  rewrite (elements_extends _ _ _ _ Hext Hxs). simpl.
  rewrite lookup_insert_eq. simpl.
  rewrite length_replicate. case_decide; [| lia].
  assert (list_inserts 0 (take (Nat.min (len src) (len src)) xs)
            (replicate (len src) ""%string) = xs) as ->.
  { rewrite Nat.min_id, <- Hlen, firstn_all.
    rewrite <- (app_nil_r xs) at 1.
    apply list_inserts_0_l. by rewrite length_replicate. }
  by rewrite insert_insert_eq.
Qed.

Lemma FLPMetrics_DeepCopyInto_run (m : Memory) (in_ out : FLPMetrics)
    (v : v1alpha1.FLPMetrics) :
  read_FLPMetrics m in_ = Some v ->
  exists (out' : FLPMetrics) (m' : Memory),
    FLPMetrics_DeepCopyInto in_ out m = Some (out', m') /\
    read_FLPMetrics m' out' = Some v /\
    extends m m' /\
    (forall p,
       ServerTLS_Provided (MetricsServerConfig_TLS (FLPMetrics_Server out'))
         = Some p -> cells m !! p = None) /\
    (forall s, FLPMetrics_IgnoreTags out' = Some s ->
       arrays m !! array s = None /\ offset s = 0%nat /\
       cap s = len s /\
       exists s0, FLPMetrics_IgnoreTags in_ = Some s0 /\ len s = len s0) /\
    (FLPMetrics_IgnoreTags in_ = None -> FLPMetrics_IgnoreTags out' = None).
Proof.
  unfold read_FLPMetrics, FLPMetrics_DeepCopyInto.
  destruct (read_MetricsServerConfig m (FLPMetrics_Server in_))
    as [srv |] eqn:E1; [| done]. simpl.
  destruct (read_strings m (FLPMetrics_IgnoreTags in_)) as [tags |] eqn:E2;
    [| done]. simpl. intros [= <-].
  destruct (MetricsServerConfig_DeepCopyInto_run m _ (FLPMetrics_Server in_) _ E1)
    as (srv' & m1 & -> & Hread & Hext & Hfresh).
  simpl. destruct (FLPMetrics_IgnoreTags in_) as [s0 |] eqn:Hs0.
  - simpl in E2. destruct (elements s0 m) as [xs |] eqn:Hxs; [| done].
    injection E2 as <-.
    pose proof (elements_extends _ _ _ _ Hext Hxs) as Hxs1.
    pose proof (copy_into_made m1 s0 xs Hxs1) as Hcopy.
    pose proof (elements_length _ _ _ Hxs) as Hlen.
    pose proof (is_fresh (dom (arrays m1))) as Hf. apply not_elem_of_dom in Hf.
    unfold make_strings in *. simpl in *. rewrite Hcopy. simpl.
    assert (extends m1 (set_arrays (<[fresh (dom (arrays m1)) := xs]> (arrays m1)) m1))
      as Hext2.
    { repeat split; simpl; [done | | done]. by apply insert_subseteq. }
    eexists _, _. split; [reflexivity |]. simpl.
    rewrite (read_MetricsServerConfig_extends _ _ _ _ Hext2 Hread). simpl.
    unfold elements. simpl. rewrite lookup_insert_eq. simpl.
    case_decide; [| lia]. rewrite drop_0, <- Hlen, firstn_all.
    split; [done |]. split; [by eapply extends_trans |].
    split; [done |]. split; [| done].
    intros s [= <-]. simpl. split.
    + destruct Hext as (_ & Ha & _). by eapply lookup_weaken_None.
    + split; [done |]. split; [done |]. by exists s0.
  - simpl in E2. injection E2 as <-.
    eexists _, _. split; [reflexivity |]. simpl. rewrite Hread. simpl.
    repeat split; try done; apply Hext.
Qed.

Lemma read_table_run (m : Memory) (in_t : loc) (src : gmap string string) :
  tables m !! in_t = Some src ->
  range_table src
    (fun key val => table_store (fst (make_table (size src) m)) key val)
    (snd (make_table (size src) m))
    = Some (set_tables (<[fresh (dom (tables m)) := src]> (tables m)) m).
Proof.
  intros Hsrc. unfold make_table. simpl.
  rewrite range_table_store by (simpl; apply lookup_insert_eq).
  simpl. by rewrite insert_insert_eq.
Qed.

Lemma QuickFilter_DeepCopyInto_run (m : Memory) (in_ out : QuickFilter)
    (v : v1alpha1.QuickFilter) :
  read_QuickFilter m in_ = Some v ->
  exists (out' : QuickFilter) (m' : Memory),
    QuickFilter_DeepCopyInto in_ out m = Some (out', m') /\
    read_QuickFilter m' out' = Some v /\
    extends m m' /\
    (forall t, QuickFilter_Filter out' = Some t -> tables m !! t = None) /\
    (QuickFilter_Filter in_ = None -> out' = in_ /\ m' = m).
Proof.
  unfold read_QuickFilter, QuickFilter_DeepCopyInto.
  destruct in_ as [sc [t |]]; simpl.
  - destruct (tables m !! t) as [src |] eqn:Ht; [| done]. simpl.
    intros [= <-].
    pose proof (read_table_run m t src Ht) as Hrun.
    pose proof (is_fresh (dom (tables m))) as Hf. apply not_elem_of_dom in Hf.
    unfold make_table in *. simpl in *. rewrite Hrun. simpl.
    eexists _, _. split; [reflexivity |]. simpl.
    rewrite lookup_insert_eq. simpl. split; [done |]. split.
    + repeat split; simpl; [done | done |]. by apply insert_subseteq.
    + split; [| done]. by intros q [= <-].
  - intros [= <-]. eexists _, _. split; [reflexivity |]. simpl.
    split; [done |]. split; [apply extends_refl |]. split; done.
Qed.

Lemma ConsolePluginPortConfig_DeepCopyInto_run (m : Memory)
    (in_ out : ConsolePluginPortConfig)
    (v : v1alpha1.ConsolePluginPortConfig) :
  read_ConsolePluginPortConfig m in_ = Some v ->
  exists (out' : ConsolePluginPortConfig) (m' : Memory),
    ConsolePluginPortConfig_DeepCopyInto in_ out m = Some (out', m') /\
    read_ConsolePluginPortConfig m' out' = Some v /\
    extends m m' /\
    (forall t, ConsolePluginPortConfig_PortNames out' = Some t ->
               tables m !! t = None) /\
    (ConsolePluginPortConfig_PortNames in_ = None -> out' = in_ /\ m' = m).
Proof.
  unfold read_ConsolePluginPortConfig, ConsolePluginPortConfig_DeepCopyInto.
  destruct in_ as [sc [t |]]; simpl.
  - destruct (tables m !! t) as [src |] eqn:Ht; [| done]. simpl.
    intros [= <-].
    pose proof (read_table_run m t src Ht) as Hrun.
    pose proof (is_fresh (dom (tables m))) as Hf. apply not_elem_of_dom in Hf.
    unfold make_table in *. simpl in *. rewrite Hrun. simpl.
    eexists _, _. split; [reflexivity |]. simpl.
    rewrite lookup_insert_eq. simpl. split; [done |]. split.
    + repeat split; simpl; [done | done |]. by apply insert_subseteq.
    + split; [| done]. by intros q [= <-].
  - intros [= <-]. eexists _, _. split; [reflexivity |]. simpl.
    split; [done |]. split; [apply extends_refl |]. split; done.
Qed.

(** *** What the copies share *)

(** X8. [ServerTLS.DeepCopyInto] on a receiver whose pointer, if any, holds
    a struct: it succeeds; the copy reads as the receiver does, and the
    receiver reads as before; nothing that existed is written; a nil
    [Provided] stays nil and then nothing is allocated; a [Provided] that is
    not nil becomes a pointer to a new cell, different from the receiver's,
    and a later store through either pointer leaves the other struct as it
    reads. *)
Theorem ServerTLS_copy_is_separate (m : Memory) (in_ out : ServerTLS)
    (v : v1alpha1.ServerTLS) :
  read_ServerTLS m in_ = Some v ->
  exists (out' : ServerTLS) (m' : Memory),
    ServerTLS_DeepCopyInto in_ out m = Some (out', m') /\
    read_ServerTLS m' out' = Some v /\
    read_ServerTLS m' in_ = Some v /\
    extends m m' /\
    (ServerTLS_Provided in_ = None ->
     ServerTLS_Provided out' = None /\ m' = m) /\
    (forall p, ServerTLS_Provided out' = Some p ->
       cells m !! p = None /\
       ServerTLS_Provided in_ <> Some p /\
       forall w m'', store_cell p w m' = Some m'' ->
                     read_ServerTLS m'' in_ = Some v) /\
    (forall p w m'', ServerTLS_Provided in_ = Some p ->
       store_cell p w m' = Some m'' -> read_ServerTLS m'' out' = Some v).
Proof.
  intros Hin.
  destruct (ServerTLS_DeepCopyInto_run m in_ out v Hin)
    as (out' & m' & Hrun & Hout & Hext & Hfresh & Hnil).
  exists out', m'. split; [exact Hrun |]. split; [exact Hout |].
  split; [by eapply read_ServerTLS_extends |]. split; [exact Hext |].
  split; [| split].
  - intros Hn. destruct (Hnil Hn) as [-> ->]. done.
  - intros p Hp. pose proof (Hfresh p Hp) as Hnone.
    split; [exact Hnone |]. split.
    + intros Hp'. unfold read_ServerTLS in Hin. rewrite Hp' in Hin.
      by rewrite Hnone in Hin.
    + intros w m'' Hst. eapply read_ServerTLS_extends; [| exact Hin].
      by eapply store_cell_extends.
  - intros p w m'' Hp Hst.
    unfold read_ServerTLS in Hin, Hout |- *. rewrite Hp in Hin.
    destruct (cells m !! p) as [c |] eqn:Hc; [| done].
    destruct (ServerTLS_Provided out') as [o |] eqn:Ho; [| done].
    assert (o <> p) as Hne.
    { intros ->. rewrite (Hfresh p eq_refl) in Hc. done. }
    unfold store_cell in Hst. destruct (cells m' !! p); [| done].
    simpl in Hst. injection Hst as <-. simpl.
    by rewrite lookup_insert_ne.
Qed.

(** X9. [MetricsServerConfig.DeepCopyInto] hands its [TLS] field to
    [ServerTLS.DeepCopyInto]: the copy reads as the receiver, the pointer
    inside the copied [TLS] is new, and a store through it leaves the
    receiver as it reads.  Nothing that existed is written. *)
Theorem MetricsServerConfig_copy_is_separate (m : Memory)
    (in_ out : MetricsServerConfig) (v : v1alpha1.MetricsServerConfig) :
  read_MetricsServerConfig m in_ = Some v ->
  exists (out' : MetricsServerConfig) (m' : Memory),
    MetricsServerConfig_DeepCopyInto in_ out m = Some (out', m') /\
    read_MetricsServerConfig m' out' = Some v /\
    read_MetricsServerConfig m' in_ = Some v /\
    extends m m' /\
    MetricsServerConfig_scalars out' = MetricsServerConfig_scalars in_ /\
    (forall p, ServerTLS_Provided (MetricsServerConfig_TLS out') = Some p ->
       cells m !! p = None /\
       ServerTLS_Provided (MetricsServerConfig_TLS in_) <> Some p /\
       forall w m'', store_cell p w m' = Some m'' ->
                     read_MetricsServerConfig m'' in_ = Some v).
Proof.
  intros Hin.
  destruct (MetricsServerConfig_DeepCopyInto_run m in_ out v Hin)
    as (out' & m' & Hrun & Hout & Hext & Hfresh).
  exists out', m'. split; [exact Hrun |]. split; [exact Hout |].
  split; [by eapply read_MetricsServerConfig_extends |].
  split; [exact Hext |]. split.
  - unfold MetricsServerConfig_DeepCopyInto in Hrun.
    destruct (ServerTLS_DeepCopyInto _ _ m) as [[tls m1] |]; [| done].
    simpl in Hrun. by injection Hrun as <- <-.
  - intros p Hp. pose proof (Hfresh p Hp) as Hnone.
    split; [exact Hnone |]. split.
    + intros Hp'. unfold read_MetricsServerConfig, read_ServerTLS in Hin.
      rewrite Hp' in Hin. by rewrite Hnone in Hin.
    + intros w m'' Hst.
      eapply read_MetricsServerConfig_extends; [| exact Hin].
      by eapply store_cell_extends.
Qed.

(** X10. [FLPMetrics.DeepCopyInto] on a receiver whose references hold
    something: it succeeds and the copy reads as the receiver.  A nil
    [IgnoreTags] stays nil.  One that is not nil, empty or not, becomes a
    slice of the same length over a new backing array, starting at its
    front and with no spare capacity; writing an element of the copy's
    slice leaves the receiver as it reads.  Nothing that existed is
    written. *)
Theorem FLPMetrics_copy_is_separate (m : Memory) (in_ out : FLPMetrics)
    (v : v1alpha1.FLPMetrics) :
  read_FLPMetrics m in_ = Some v ->
  exists (out' : FLPMetrics) (m' : Memory),
    FLPMetrics_DeepCopyInto in_ out m = Some (out', m') /\
    read_FLPMetrics m' out' = Some v /\
    read_FLPMetrics m' in_ = Some v /\
    extends m m' /\
    (FLPMetrics_IgnoreTags in_ = None -> FLPMetrics_IgnoreTags out' = None) /\
    (forall s0, FLPMetrics_IgnoreTags in_ = Some s0 ->
       exists s, FLPMetrics_IgnoreTags out' = Some s /\
                 len s = len s0 /\ cap s = len s0 /\ offset s = 0%nat /\
                 array s <> array s0) /\
    (forall s, FLPMetrics_IgnoreTags out' = Some s ->
       arrays m !! array s = None /\
       forall i x m'', store_string s i x m' = Some m'' ->
                       read_FLPMetrics m'' in_ = Some v) /\
    (forall p,
       ServerTLS_Provided (MetricsServerConfig_TLS (FLPMetrics_Server out'))
         = Some p -> cells m !! p = None).
Proof.
  intros Hin.
  destruct (FLPMetrics_DeepCopyInto_run m in_ out v Hin)
    as (out' & m' & Hrun & Hout & Hext & Hcells & Harr & Hnil).
  exists out', m'. split; [exact Hrun |]. split; [exact Hout |].
  split; [by eapply read_FLPMetrics_extends |]. split; [exact Hext |].
  split; [exact Hnil |]. split; [| split; [| exact Hcells]].
  - intros s0 Hs0.
    destruct (FLPMetrics_IgnoreTags out') as [s |] eqn:Hs.
    + destruct (Harr s eq_refl) as (Hnone & Hoff & Hcap & s1 & Hs1 & Hlen).
      assert (s1 = s0) as -> by congruence.
      exists s. repeat split; try done; try congruence.
      intros Heq. unfold read_FLPMetrics in Hin.
      destruct (read_MetricsServerConfig m _); [| done]. simpl in Hin.
      rewrite Hs0 in Hin. simpl in Hin. unfold elements in Hin.
      rewrite <- Heq, Hnone in Hin. done.
    + unfold read_FLPMetrics in Hin, Hout.
      destruct (read_MetricsServerConfig m _); [| done].
      destruct (read_MetricsServerConfig m' _); [| done].
      simpl in Hin, Hout. rewrite Hs0 in Hin. simpl in Hin.
      destruct (elements s0 m); [| done]. rewrite Hs in Hout.
      simpl in Hin, Hout. congruence.
  - intros s Hs. destruct (Harr s Hs) as (Hnone & _).
    split; [exact Hnone |]. intros i x m'' Hst.
    eapply read_FLPMetrics_extends; [| exact Hin].
    by eapply store_string_extends.
Qed.

(** X11. [QuickFilter.DeepCopyInto] on a receiver whose map, if any, is in
    memory: it succeeds and the copy reads as the receiver; a nil [Filter]
    stays nil and nothing is allocated; a [Filter] that is not nil becomes
    a new map with the same bindings, and a later store into either map
    leaves the other struct as it reads.  Nothing that existed is
    written. *)
Theorem QuickFilter_copy_is_separate (m : Memory) (in_ out : QuickFilter)
    (v : v1alpha1.QuickFilter) :
  read_QuickFilter m in_ = Some v ->
  exists (out' : QuickFilter) (m' : Memory),
    QuickFilter_DeepCopyInto in_ out m = Some (out', m') /\
    read_QuickFilter m' out' = Some v /\
    read_QuickFilter m' in_ = Some v /\
    extends m m' /\
    (QuickFilter_Filter in_ = None ->
     QuickFilter_Filter out' = None /\ m' = m) /\
    (forall t, QuickFilter_Filter out' = Some t ->
       tables m !! t = None /\
       QuickFilter_Filter in_ <> Some t /\
       forall key val m'', table_store t key val m' = Some m'' ->
                           read_QuickFilter m'' in_ = Some v) /\
    (forall t key val m'', QuickFilter_Filter in_ = Some t ->
       table_store t key val m' = Some m'' ->
       read_QuickFilter m'' out' = Some v).
Proof.
  intros Hin.
  destruct (QuickFilter_DeepCopyInto_run m in_ out v Hin)
    as (out' & m' & Hrun & Hout & Hext & Hfresh & Hnil).
  exists out', m'. split; [exact Hrun |]. split; [exact Hout |].
  assert (forall m2, extends m m2 -> read_QuickFilter m2 in_ = Some v) as Hmono.
  { intros m2 He. unfold read_QuickFilter in Hin |- *.
    destruct (read_table m _) as [f |] eqn:E; [| done].
    by rewrite (read_table_extends _ _ _ _ He E). }
  split; [by apply Hmono |]. split; [exact Hext |]. split; [| split].
  - intros Hn. destruct (Hnil Hn) as [-> ->]. done.
  - intros t Ht. pose proof (Hfresh t Ht) as Hnone.
    split; [exact Hnone |]. split.
    + intros Ht'. unfold read_QuickFilter in Hin. rewrite Ht' in Hin.
      simpl in Hin. by rewrite Hnone in Hin.
    + intros key val m'' Hst. apply Hmono.
      by eapply table_store_extends.
  - intros t key val m'' Ht Hst.
    unfold read_QuickFilter in Hin, Hout |- *. rewrite Ht in Hin.
    simpl in Hin. destruct (tables m !! t) as [b |] eqn:Hb; [| done].
    destruct (QuickFilter_Filter out') as [o |] eqn:Ho; [| done].
    assert (o <> t) as Hne.
    { intros ->. rewrite (Hfresh t eq_refl) in Hb. done. }
    unfold table_store in Hst. destruct (tables m' !! t); [| done].
    simpl in Hst. injection Hst as <-. simpl in *.
    by rewrite lookup_insert_ne.
Qed.

(** X12. [ConsolePluginPortConfig.DeepCopyInto] copies [PortNames] the same
    way: the copy reads as the receiver; a nil map stays nil; a map that is
    not nil becomes a new map with the same bindings, and a later store
    into it leaves the receiver as it reads.  Nothing that existed is
    written. *)
Theorem ConsolePluginPortConfig_copy_is_separate (m : Memory)
    (in_ out : ConsolePluginPortConfig)
    (v : v1alpha1.ConsolePluginPortConfig) :
  read_ConsolePluginPortConfig m in_ = Some v ->
  exists (out' : ConsolePluginPortConfig) (m' : Memory),
    ConsolePluginPortConfig_DeepCopyInto in_ out m = Some (out', m') /\
    read_ConsolePluginPortConfig m' out' = Some v /\
    read_ConsolePluginPortConfig m' in_ = Some v /\
    extends m m' /\
    (ConsolePluginPortConfig_PortNames in_ = None ->
     ConsolePluginPortConfig_PortNames out' = None /\ m' = m) /\
    (forall t, ConsolePluginPortConfig_PortNames out' = Some t ->
       tables m !! t = None /\
       ConsolePluginPortConfig_PortNames in_ <> Some t /\
       forall key val m'', table_store t key val m' = Some m'' ->
                           read_ConsolePluginPortConfig m'' in_ = Some v).
Proof.
  intros Hin.
  destruct (ConsolePluginPortConfig_DeepCopyInto_run m in_ out v Hin)
    as (out' & m' & Hrun & Hout & Hext & Hfresh & Hnil).
  exists out', m'. split; [exact Hrun |]. split; [exact Hout |].
  assert (forall m2, extends m m2 ->
                     read_ConsolePluginPortConfig m2 in_ = Some v) as Hmono.
  { intros m2 He. unfold read_ConsolePluginPortConfig in Hin |- *.
    destruct (read_table m _) as [f |] eqn:E; [| done].
    by rewrite (read_table_extends _ _ _ _ He E). }
  split; [by apply Hmono |]. split; [exact Hext |]. split.
  - intros Hn. destruct (Hnil Hn) as [-> ->]. done.
  - intros t Ht. pose proof (Hfresh t Ht) as Hnone.
    split; [exact Hnone |]. split.
    + intros Ht'. unfold read_ConsolePluginPortConfig in Hin.
      rewrite Ht' in Hin. simpl in Hin. by rewrite Hnone in Hin.
    + intros key val m'' Hst. apply Hmono.
      by eapply table_store_extends.
Qed.

(** X13. The two models agree on the five structs: running a method in
    memory and reading the result gives what the method of the by-value
    model gives on the reading of the receiver, whatever the target. *)
Theorem memory_model_agrees_with_values :
  (forall (m : Memory) (in_ out : ServerTLS) (v w : v1alpha1.ServerTLS),
     read_ServerTLS m in_ = Some v ->
     exists out' m',
       ServerTLS_DeepCopyInto in_ out m = Some (out', m') /\
       read_ServerTLS m' out' = Some (v1alpha1.ServerTLS_DeepCopyInto v w)) /\
  (forall (m : Memory) (in_ out : MetricsServerConfig)
          (v w : v1alpha1.MetricsServerConfig),
     read_MetricsServerConfig m in_ = Some v ->
     exists out' m',
       MetricsServerConfig_DeepCopyInto in_ out m = Some (out', m') /\
       read_MetricsServerConfig m' out'
         = Some (v1alpha1.MetricsServerConfig_DeepCopyInto v w)) /\
  (forall (m : Memory) (in_ out : FLPMetrics) (v w : v1alpha1.FLPMetrics),
     read_FLPMetrics m in_ = Some v ->
     exists out' m',
       FLPMetrics_DeepCopyInto in_ out m = Some (out', m') /\
       read_FLPMetrics m' out' = Some (v1alpha1.FLPMetrics_DeepCopyInto v w)) /\
  (forall (m : Memory) (in_ out : QuickFilter) (v w : v1alpha1.QuickFilter),
     read_QuickFilter m in_ = Some v ->
     exists out' m',
       QuickFilter_DeepCopyInto in_ out m = Some (out', m') /\
       read_QuickFilter m' out' = Some (v1alpha1.QuickFilter_DeepCopyInto v w)) /\
  (forall (m : Memory) (in_ out : ConsolePluginPortConfig)
          (v w : v1alpha1.ConsolePluginPortConfig),
     read_ConsolePluginPortConfig m in_ = Some v ->
     exists out' m',
       ConsolePluginPortConfig_DeepCopyInto in_ out m = Some (out', m') /\
       read_ConsolePluginPortConfig m' out'
         = Some (v1alpha1.ConsolePluginPortConfig_DeepCopyInto v w)).
Proof.
  repeat split.
  - intros m in_ out v w Hin. rewrite ServerTLS_copies.
    destruct (ServerTLS_DeepCopyInto_run m in_ out v Hin)
      as (out' & m' & ? & ? & _). by exists out', m'.
  - intros m in_ out v w Hin. rewrite MetricsServerConfig_copies.
    destruct (MetricsServerConfig_DeepCopyInto_run m in_ out v Hin)
      as (out' & m' & ? & ? & _). by exists out', m'.
  - intros m in_ out v w Hin. rewrite FLPMetrics_copies.
    destruct (FLPMetrics_DeepCopyInto_run m in_ out v Hin)
      as (out' & m' & ? & ? & _). by exists out', m'.
  - intros m in_ out v w Hin. rewrite QuickFilter_copies.
    destruct (QuickFilter_DeepCopyInto_run m in_ out v Hin)
      as (out' & m' & ? & ? & _). by exists out', m'.
  - intros m in_ out v w Hin. rewrite ConsolePluginPortConfig_copies.
    destruct (ConsolePluginPortConfig_DeepCopyInto_run m in_ out v Hin)
      as (out' & m' & ? & ? & _). by exists out', m'.
Qed.

End refs_facts.

Section refs_examples.
Import v1alpha1 v1alpha1_refs.
#[local] Existing Instance sample_External.

Lemma ServerTLS_copy_is_separate_witness :
  read_ServerTLS sample_memory (mkServerTLS 3 (Some 1%positive))
    = Some (v1alpha1.mkServerTLS 3 (Some (v1alpha1.mkCertificateReference 5))) /\
  exists out' m',
    ServerTLS_DeepCopyInto (mkServerTLS 3 (Some 1%positive))
      (mkServerTLS 0 None) sample_memory = Some (out', m') /\
    ServerTLS_Provided out' <> Some 1%positive.
Proof.
  assert (read_ServerTLS sample_memory (mkServerTLS 3 (Some 1%positive))
          = Some (v1alpha1.mkServerTLS 3
                    (Some (v1alpha1.mkCertificateReference 5)))) as Hin
    by reflexivity.
  split; [exact Hin |].
  destruct (@ServerTLS_copy_is_separate sample_External sample_memory
              (@mkServerTLS sample_External 3 (Some 1%positive)) (@mkServerTLS sample_External 0 None) _ Hin)
    as (out' & m' & Hrun & _ & _ & _ & _ & Hnew & _).
  exists out', m'. split; [exact Hrun |].
  intros Hp. destruct (Hnew _ Hp) as (_ & Hne & _). exact (Hne eq_refl).
Defined.

Lemma MetricsServerConfig_copy_is_separate_witness :
  read_MetricsServerConfig sample_memory
    (mkMetricsServerConfig 8 (mkServerTLS 3 (Some 1%positive)))
    = Some (v1alpha1.mkMetricsServerConfig 8
              (v1alpha1.mkServerTLS 3
                 (Some (v1alpha1.mkCertificateReference 5)))) /\
  exists out' m',
    MetricsServerConfig_DeepCopyInto
      (mkMetricsServerConfig 8 (mkServerTLS 3 (Some 1%positive)))
      (mkMetricsServerConfig 0 (mkServerTLS 0 None)) sample_memory
      = Some (out', m') /\
    MetricsServerConfig_scalars out' = 8.
Proof.
  assert (read_MetricsServerConfig sample_memory
            (mkMetricsServerConfig 8 (mkServerTLS 3 (Some 1%positive)))
          = Some (v1alpha1.mkMetricsServerConfig 8
                    (v1alpha1.mkServerTLS 3
                       (Some (v1alpha1.mkCertificateReference 5))))) as Hin
    by reflexivity.
  split; [exact Hin |].
  destruct (@MetricsServerConfig_copy_is_separate sample_External sample_memory
              (@mkMetricsServerConfig sample_External 8 (@mkServerTLS sample_External 3 (Some 1%positive)))
              (@mkMetricsServerConfig sample_External 0 (@mkServerTLS sample_External 0 None)) _ Hin)
    as (out' & m' & Hrun & _ & _ & _ & Hsc & _).
  exists out', m'. split; [exact Hrun | exact Hsc].
Defined.

Lemma FLPMetrics_copy_is_separate_witness :
  read_FLPMetrics sample_memory
    (mkFLPMetrics 2 (mkMetricsServerConfig 8 (mkServerTLS 3 None))
       (Some (mkSlice 1%positive 1 2 2)))
    = Some (v1alpha1.mkFLPMetrics 2
              (v1alpha1.mkMetricsServerConfig 8 (v1alpha1.mkServerTLS 3 None))
              (Some ["eth0"; "br-ex"]%string)) /\
  exists out' m' s,
    FLPMetrics_DeepCopyInto
      (mkFLPMetrics 2 (mkMetricsServerConfig 8 (mkServerTLS 3 None))
         (Some (mkSlice 1%positive 1 2 2)))
      (mkFLPMetrics 0 (mkMetricsServerConfig 0 (mkServerTLS 0 None)) None)
      sample_memory = Some (out', m') /\
    FLPMetrics_IgnoreTags out' = Some s /\ len s = 2%nat /\
    array s <> 1%positive.
Proof.
  assert (read_FLPMetrics sample_memory
            (mkFLPMetrics 2 (mkMetricsServerConfig 8 (mkServerTLS 3 None))
               (Some (mkSlice 1%positive 1 2 2)))
          = Some (v1alpha1.mkFLPMetrics 2
                    (v1alpha1.mkMetricsServerConfig 8
                       (v1alpha1.mkServerTLS 3 None))
                    (Some ["eth0"; "br-ex"]%string))) as Hin
    by reflexivity.
  split; [exact Hin |].
  destruct (@FLPMetrics_copy_is_separate sample_External sample_memory _
              (@mkFLPMetrics sample_External 0 (@mkMetricsServerConfig sample_External 0 (@mkServerTLS sample_External 0 None)) None)
              _ Hin)
    as (out' & m' & Hrun & _ & _ & _ & _ & Hslice & _).
  destruct (Hslice _ eq_refl) as (s & Hs & Hlen & _ & _ & Hne).
  exists out', m', s. repeat split; [exact Hrun | exact Hs | exact Hlen | exact Hne].
Defined.

Lemma QuickFilter_copy_is_separate_witness :
  read_QuickFilter sample_memory (mkQuickFilter 4 (Some 1%positive))
    = Some (v1alpha1.mkQuickFilter 4 (Some {["app"%string := "web"%string]})) /\
  exists out' m',
    QuickFilter_DeepCopyInto (mkQuickFilter 4 (Some 1%positive))
      (mkQuickFilter 0 None) sample_memory = Some (out', m') /\
    QuickFilter_Filter out' <> Some 1%positive.
Proof.
  assert (read_QuickFilter sample_memory (mkQuickFilter 4 (Some 1%positive))
          = Some (v1alpha1.mkQuickFilter 4
                    (Some {["app"%string := "web"%string]}))) as Hin
    by reflexivity.
  split; [exact Hin |].
  destruct (@QuickFilter_copy_is_separate sample_External sample_memory
              (@mkQuickFilter sample_External 4 (Some 1%positive)) (@mkQuickFilter sample_External 0 None) _ Hin)
    as (out' & m' & Hrun & _ & _ & _ & _ & Hnew & _).
  exists out', m'. split; [exact Hrun |].
  intros Hp. destruct (Hnew _ Hp) as (_ & Hne & _). exact (Hne eq_refl).
Defined.

Lemma ConsolePluginPortConfig_copy_is_separate_witness :
  read_ConsolePluginPortConfig sample_memory
    (mkConsolePluginPortConfig 6 (Some 1%positive))
    = Some (v1alpha1.mkConsolePluginPortConfig 6
              (Some {["app"%string := "web"%string]})) /\
  exists out' m',
    ConsolePluginPortConfig_DeepCopyInto
      (mkConsolePluginPortConfig 6 (Some 1%positive))
      (mkConsolePluginPortConfig 0 None) sample_memory = Some (out', m') /\
    ConsolePluginPortConfig_PortNames out' <> Some 1%positive.
Proof.
  assert (read_ConsolePluginPortConfig sample_memory
            (mkConsolePluginPortConfig 6 (Some 1%positive))
          = Some (v1alpha1.mkConsolePluginPortConfig 6
                    (Some {["app"%string := "web"%string]}))) as Hin
    by reflexivity.
  split; [exact Hin |].
  destruct (@ConsolePluginPortConfig_copy_is_separate sample_External sample_memory
              (@mkConsolePluginPortConfig sample_External 6 (Some 1%positive))
              (@mkConsolePluginPortConfig sample_External 0 None) _ Hin)
    as (out' & m' & Hrun & _ & _ & _ & _ & Hnew).
  exists out', m'. split; [exact Hrun |].
  intros Hp. destruct (Hnew _ Hp) as (_ & Hne & _). exact (Hne eq_refl).
Defined.

End refs_examples.
